(** * Boot-cycle session persistence of the RadioLib LoRaWAN sketches

    A shallow embedding of the persistence examples (ESP32, RP2040 and the
    two ESP8266 sketches) and the properties of their boot cycle:
    restore, join with back-off, one uplink, persist, sleep. *)

From Stdlib Require Import ZArith List String Bool Lia.
Import ListNotations.
Open Scope string_scope.
Open Scope list_scope.
Open Scope Z_scope.

(** ** Machine integers

    All four targets are ILP32: [unsigned long] and [uint32_t] are 32 bits
    wide, and an [uint16_t] operand is widened before arithmetic. *)

Definition uint16_t (x : Z) : Z := x mod 2 ^ 16.
Definition uint32_t (x : Z) : Z := x mod 2 ^ 32.
(** [x UL]: a value converted to [unsigned long]. *)
Definition UL (x : Z) : Z := uint32_t x.

(** Modelled from the spec: [min] comes from the Arduino core, not from
    these sources; it is the minimum of two [unsigned long] values, its
    arguments evaluated once. *)
Definition min (a b : Z) : Z := Z.min a b.

Definition buffer := list Byte.byte.

(** Modelled from the spec: [RADIOLIB_ERR_NONE] is declared by RadioLib
    (TypeDef.h), not in these sources; it is the success code, zero. *)
Definition RADIOLIB_ERR_NONE : Z := 0.

(** ** Events, outcomes and the sketch monad *)

(** What a sketch does to its collaborators, in order.  Serial output that
    only narrates progress is not recorded; failure notices are. *)
Inductive event : Type :=
| Report (message : string) (state : Z)      (* debug() printed a failure *)
| Serial_println (message : string)          (* a failure notice on Serial *)
| radio_begin (state : Z)
| setBufferNonces (b : buffer) (state : Z)
| setBufferSession (b : buffer) (state : Z)
| beginOTAA (force : bool) (state : Z)
| sendReceive (state : Z)
| putNonces (b : buffer)                     (* NonceState written to the durable store *)
| saveSession (b : buffer)                   (* SessionState copied to its retained variable *)
| rtcUserMemoryRead (address : Z) (ok : bool)
| rtcUserMemoryWrite (address : Z) (ok : bool)
| delay (ms : Z)
| sleep_us (us : Z)                          (* pico-sdk busy wait *)
| esp_sleep_enable_timer_wakeup (us : Z)
| esp_deep_sleep_start
| ESP_deepSleep (us : Z)
| pico_sleep (seconds : Z)
| restart.

Definition trace := list event.

(** How control leaves the sketch for good. *)
Inductive outcome : Type :=
| Asleep          (* deep sleep entered: the next thing to run is a fresh boot *)
| Restarted       (* forced restart *)
| Frozen          (* debug(..., true) spinning in while(Freeze) *)
| AwaitingJoin.   (* the join loop is waiting for an answer beyond the script *)

Inductive flow (A : Type) : Type :=
| Next (a : A)
| Stop (o : outcome).
Arguments Next {A} a.
Arguments Stop {A} o.

Record run (S A : Type) : Type := Run { log : trace; final : S; ctl : flow A }.
Arguments Run {S A} log final ctl.
Arguments log {S A} r.
Arguments final {S A} r.
Arguments ctl {S A} r.

Definition M (S A : Type) : Type := S -> run S A.

Definition ret {S A} (a : A) : M S A := fun s => Run [] s (Next a).

Definition bind {S A B} (m : M S A) (f : A -> M S B) : M S B :=
  fun s =>
    match m s with
    | Run t1 s1 (Next a) =>
        match f a s1 with
        | Run t2 s2 c => Run (t1 ++ t2) s2 c
        end
    | Run t1 s1 (Stop o) => Run t1 s1 (Stop o)
    end.

Declare Scope sketch_scope.
Delimit Scope sketch_scope with sketch.
Notation "x <- m ;; k" := (bind m (fun x => k))
  (at level 61, m at next level, right associativity) : sketch_scope.
Notation "m ;; k" := (bind m (fun _ => k))
  (at level 61, right associativity) : sketch_scope.
Open Scope sketch_scope.

Definition emit {S} (e : event) : M S unit := fun s => Run [e] s (Next tt).
Definition stop {S A} (o : outcome) : M S A := fun s => Run [] s (Stop o).
Definition gets {S A} (f : S -> A) : M S A := fun s => Run [] s (Next (f s)).
Definition modify {S} (f : S -> S) : M S unit := fun s => Run [] (f s) (Next tt).
Definition when {S} (c : bool) (m : M S unit) : M S unit := if c then m else ret tt.

(** Modelled from the spec: [debug] is declared in the sketches' config.h,
    which is not among the sources.  A failure is reported with its state;
    only a failure flagged fatal (radio initialisation) halts the cycle. *)
Definition debug {S} (isFail : bool) (message : string) (state : Z) (Freeze : bool)
  : M S unit :=
  when isFail (emit (Report message state) ;; when Freeze (stop Frozen)).

(** ** The collaborators' answers during one boot *)

Record world : Type := World {
  w_radio_begin : Z;                         (* radio.begin() *)
  w_setBufferNonces : buffer -> Z;           (* node.setBufferNonces(buffer) *)
  w_setBufferSession : buffer -> Z;          (* node.setBufferSession(LWsession) *)
  w_resume : Z;                              (* node.beginOTAA(..., false) *)
  w_joins : list (Z * buffer);               (* each node.beginOTAA(..., true): its state, and
                                                node.getBufferNonces() afterwards *)
  w_sendReceive : Z;                         (* node.sendReceive(...) *)
  w_getBufferSession : buffer;               (* node.getBufferSession() after the uplink *)
  w_sleep_returns : bool;                    (* the deep-sleep call came back *)
  w_rtc_read_ok : Z -> bool;                 (* ESP.rtcUserMemoryRead at an address *)
  w_rtc_write_ok : Z -> bool;                (* ESP.rtcUserMemoryWrite at an address *)
  w_getResetReason : string                  (* ESP.getResetReason() *)
}.

(** ** The join back-off

    [min((bootCountSinceUnsuccessfulJoin++ + 1UL) * 60UL, 3UL * 60UL)],
    the same text in all four sketches; [streak] is the counter's value
    before the post-increment. *)
Definition sleepForSeconds (streak : Z) : Z :=
  min (UL (UL (streak + 1) * 60)) (UL (3 * 60)).

(** [seconds * 1000UL * 1000UL], the argument of the ESP deep-sleep timers. *)
Definition microseconds (seconds : Z) : Z := UL (UL (seconds * 1000) * 1000).

(** The [Preferences] key-value store of the ESP32 and RP2040 sketches
    (namespace "radiolib"): a key is present once it has been put. *)
Module Preferences.
Definition t := list (string * buffer).

Definition isKey (key : string) (p : t) : bool :=
  existsb (fun kv => String.eqb (fst kv) key) p.

Definition getBytes (key : string) (p : t) : buffer :=
  match find (fun kv => String.eqb (fst kv) key) p with
  | Some kv => snd kv
  | None => []
  end.

Definition putBytes (key : string) (b : buffer) (p : t) : t :=
  (key, b) :: filter (fun kv => negb (String.eqb (fst kv) key)) p.
End Preferences.

(** ** examples/LoRaWAN_ESP32/LoRaWAN_ESP32.ino *)
Module ESP32.

(** The RTC_DATA_ATTR variables, kept through deep sleep, and the flash
    store, kept through power loss. *)
Record machine : Type := Machine {
  bootCount : Z;                            (* uint16_t, initially 1 *)
  bootCountSinceUnsuccessfulJoin : Z;       (* uint16_t, initially 0 *)
  LWsession : buffer;
  store : Preferences.t
}.

Definition set_bootCount (v : Z) (m : machine) : machine :=
  Machine v (bootCountSinceUnsuccessfulJoin m) (LWsession m) (store m).
Definition set_bootCountSinceUnsuccessfulJoin (v : Z) (m : machine) : machine :=
  Machine (bootCount m) v (LWsession m) (store m).
Definition set_LWsession (b : buffer) (m : machine) : machine :=
  Machine (bootCount m) (bootCountSinceUnsuccessfulJoin m) b (store m).
Definition set_store (p : Preferences.t) (m : machine) : machine :=
  Machine (bootCount m) (bootCountSinceUnsuccessfulJoin m) (LWsession m) p.

(** The state after a full power loss: the initialisers of the RTC
    variables; the flash store is whatever it was. *)
Definition power_on (session0 : buffer) (flash : Preferences.t) : machine :=
  Machine 1 0 session0 flash.

Section Sketch.
Variable uplinkIntervalSeconds : Z.            (* config.h *)
Variable RADIOLIB_LORAWAN_NO_DOWNLINK : Z.     (* RadioLib *)
Variable w : world.

(** [Serial.println(bootCount++)] *)
Definition print_wakeup_reason : M machine unit :=
  modify (fun m => set_bootCount (uint16_t (bootCount m + 1)) m).

Definition gotoSleep (seconds : Z) : M machine unit :=
  emit (esp_sleep_enable_timer_wakeup (microseconds seconds)) ;;
  emit esp_deep_sleep_start ;;
  (if w_sleep_returns w then ret tt else stop Asleep) ;;
  (* if this appears in the serial debug, we didn't go to sleep! *)
  emit (Serial_println "### Sleep failed, delay of 5 minutes & then restart ###") ;;
  emit (delay (UL (UL (5 * 60) * 1000))) ;;
  emit restart ;;
  stop Restarted.

(** Lines 86-112: radio initialisation and the restore steps; the
    result is [state] after [beginOTAA(..., false)]. *)
Definition restore : M machine Z :=
  let state := w_radio_begin w in
  emit (radio_begin state) ;;
  debug (negb (state =? RADIOLIB_ERR_NONE)) "Initalise radio failed" state true ;;
  has <- gets (fun m => Preferences.isKey "nonces" (store m)) ;;
  when has
    (buffer <- gets (fun m => Preferences.getBytes "nonces" (store m)) ;;
     let state := w_setBufferNonces w buffer in
     emit (setBufferNonces buffer state) ;;
     debug (negb (state =? RADIOLIB_ERR_NONE))
           "Restoring nonces buffer failed" state false) ;;
  session <- gets LWsession ;;
  let state := w_setBufferSession w session in
  emit (setBufferSession session state) ;;
  n <- gets bootCount ;;
  debug (negb (state =? RADIOLIB_ERR_NONE) && (2 <? n))
        "Restoring session buffer failed" state false ;;
  let state := w_resume w in
  emit (beginOTAA false state) ;;
  n <- gets bootCount ;;
  debug (negb (state =? RADIOLIB_ERR_NONE) && (2 <? n))
        "Restore session failed" state false ;;
  ret state.

(** Lines 119-134: the branch [state < RADIOLIB_ERR_NONE]. *)
Definition join_failed : M machine unit :=
  streak <- gets bootCountSinceUnsuccessfulJoin ;;
  modify (set_bootCountSinceUnsuccessfulJoin (uint16_t (streak + 1))) ;;
  gotoSleep (sleepForSeconds streak).

(** Lines 136-153: the branch commented "join was successful". *)
Definition join_succeeded (persist : buffer) : M machine unit :=
  modify (fun m => set_store (Preferences.putBytes "nonces" persist (store m)) m) ;;
  emit (putNonces persist) ;;
  modify (set_bootCountSinceUnsuccessfulJoin 0) ;;
  emit (delay 1000).

(** Lines 115-154: [while (state != RADIOLIB_ERR_NONE)], unfolded along
    the radio's answers to the successive fresh joins. *)
Fixpoint join_loop (joins : list (Z * buffer)) (state : Z) : M machine Z :=
  if state =? RADIOLIB_ERR_NONE then ret state
  else
    match joins with
    | [] => stop AwaitingJoin
    | (state', persist) :: joins' =>
        emit (beginOTAA true state') ;;
        (if state' <? RADIOLIB_ERR_NONE then join_failed
         else join_succeeded persist) ;;
        join_loop joins' state'
    end.

(** Lines 161-185: the uplink, the session save and the sleep (the
    sensor reads that fill the payload are left out). *)
Definition uplink : M machine unit :=
  let state := w_sendReceive w in
  emit (sendReceive state) ;;
  debug (negb (state =? RADIOLIB_LORAWAN_NO_DOWNLINK) && negb (state =? RADIOLIB_ERR_NONE))
        "Error in sendReceive" state false ;;
  let persist := w_getBufferSession w in
  modify (set_LWsession persist) ;;
  emit (saveSession persist) ;;
  gotoSleep uplinkIntervalSeconds.

Definition setup : M machine unit :=
  emit (delay 2000) ;;          (* give time to switch to the serial monitor *)
  print_wakeup_reason ;;
  state <- restore ;;
  join_loop (w_joins w) state ;;
  uplink.
End Sketch.
End ESP32.

(** ** examples/LoRaWAN_RP2040/LoRaWAN_RP2040.ino *)
Module RP2040.

Record machine : Type := Machine {
  bootCount : Z;                            (* uint16_t, an ordinary global *)
  scratch1 : Z;                             (* watchdog_hw->scratch[1]: 0 after a hardware
                                               reset, kept through a soft reset *)
  bootCountSinceUnsuccessfulJoin : Z;       (* uint16_t in .uninitialized_data *)
  LWsession : buffer;                       (* .uninitialized_data *)
  store : Preferences.t
}.

Definition set_bootCount (v : Z) (m : machine) : machine :=
  Machine v (scratch1 m) (bootCountSinceUnsuccessfulJoin m) (LWsession m) (store m).
Definition set_scratch1 (v : Z) (m : machine) : machine :=
  Machine (bootCount m) v (bootCountSinceUnsuccessfulJoin m) (LWsession m) (store m).
Definition set_bootCountSinceUnsuccessfulJoin (v : Z) (m : machine) : machine :=
  Machine (bootCount m) (scratch1 m) v (LWsession m) (store m).
Definition set_LWsession (b : buffer) (m : machine) : machine :=
  Machine (bootCount m) (scratch1 m) (bootCountSinceUnsuccessfulJoin m) b (store m).
Definition set_store (p : Preferences.t) (m : machine) : machine :=
  Machine (bootCount m) (scratch1 m) (bootCountSinceUnsuccessfulJoin m) (LWsession m) p.

Section Sketch.
Variable uplinkIntervalSeconds : Z.            (* config.h *)
Variable RADIOLIB_LORAWAN_NO_DOWNLINK : Z.     (* RadioLib *)
Variable w : world.

(** Modelled from the spec: [pico_sleep] is declared in
    src/rp2040/pico_rtc_utils.h, which is not among the sources.  It
    sleeps for the given number of seconds; as the sketch's closing
    comments say, on this target control comes back after the wake-up. *)
Definition do_pico_sleep (seconds : Z) : M machine unit :=
  emit (pico_sleep seconds) ;;
  (if w_sleep_returns w then ret tt else stop Asleep).

Definition gotoSleep (seconds : Z) : M machine unit :=
  modify (fun m => set_scratch1 (bootCount m) m) ;;
  emit (delay 100) ;;
  do_pico_sleep seconds.

(** Lines 76-83. *)
Definition load_bootCount : M machine unit :=
  modify (fun m => set_bootCount (uint16_t (scratch1 m)) m) ;;
  n <- gets bootCount ;;
  when (n =? 0)
    (* HW reset occurred, initialize variables in .uninitialized_data section *)
    (modify (set_bootCount 1) ;;
     modify (set_bootCountSinceUnsuccessfulJoin 0)).

(** Lines 89-115. *)
Definition restore : M machine Z :=
  let state := w_radio_begin w in
  emit (radio_begin state) ;;
  debug (negb (state =? RADIOLIB_ERR_NONE)) "Initalise radio failed" state true ;;
  has <- gets (fun m => Preferences.isKey "nonces" (store m)) ;;
  when has
    (buffer <- gets (fun m => Preferences.getBytes "nonces" (store m)) ;;
     let state := w_setBufferNonces w buffer in
     emit (setBufferNonces buffer state) ;;
     debug (negb (state =? RADIOLIB_ERR_NONE))
           "Restoring nonces buffer failed" state false) ;;
  session <- gets LWsession ;;
  let state := w_setBufferSession w session in
  emit (setBufferSession session state) ;;
  n <- gets bootCount ;;
  debug (negb (state =? RADIOLIB_ERR_NONE) && (2 <? n))
        "Restoring session buffer failed" state false ;;
  let state := w_resume w in
  emit (beginOTAA false state) ;;
  n <- gets bootCount ;;
  debug (negb (state =? RADIOLIB_ERR_NONE) && (2 <? n))
        "Restore session failed" state false ;;
  ret state.

(** Lines 122-137. *)
Definition join_failed : M machine unit :=
  streak <- gets bootCountSinceUnsuccessfulJoin ;;
  modify (set_bootCountSinceUnsuccessfulJoin (uint16_t (streak + 1))) ;;
  gotoSleep (sleepForSeconds streak).

(** Lines 139-156. *)
Definition join_succeeded (persist : buffer) : M machine unit :=
  modify (fun m => set_store (Preferences.putBytes "nonces" persist (store m)) m) ;;
  emit (putNonces persist) ;;
  modify (set_bootCountSinceUnsuccessfulJoin 0) ;;
  emit (delay 1000).

(** Lines 118-157. *)
Fixpoint join_loop (joins : list (Z * buffer)) (state : Z) : M machine Z :=
  if state =? RADIOLIB_ERR_NONE then ret state
  else
    match joins with
    | [] => stop AwaitingJoin
    | (state', persist) :: joins' =>
        emit (beginOTAA true state') ;;
        (if state' <? RADIOLIB_ERR_NONE then join_failed
         else join_succeeded persist) ;;
        join_loop joins' state'
    end.

(** Lines 164-195: the uplink, the session save, the sleep and the
    soft reset that follows the wake-up. *)
Definition uplink : M machine unit :=
  let state := w_sendReceive w in
  emit (sendReceive state) ;;
  debug (negb (state =? RADIOLIB_LORAWAN_NO_DOWNLINK) && negb (state =? RADIOLIB_ERR_NONE))
        "Error in sendReceive" state false ;;
  let persist := w_getBufferSession w in
  modify (set_LWsession persist) ;;
  emit (saveSession persist) ;;
  gotoSleep uplinkIntervalSeconds ;;
  emit restart ;;
  stop Restarted.

Definition setup : M machine unit :=
  emit (delay 2000) ;;          (* give time to switch to the serial monitor *)
  emit (sleep_us 64) ;;         (* rtc_init(); sleep_us(64) *)
  load_bootCount ;;
  state <- restore ;;
  join_loop (w_joins w) state ;;
  uplink.
End Sketch.
End RP2040.

(** ** The ESP8266 sketches

    Both keep the two counters and the session in RTC user memory, at the
    addresses 0, 4 and 8, and the nonces in EEPROM; the globals themselves
    start from their initialisers at every boot. *)
Module ESP8266.

Record machine : Type := Machine {
  bootCount : Z;                            (* uint32_t, initialiser 1 *)
  bootCountSinceUnsuccessfulJoin : Z;       (* uint32_t, initialiser 0 *)
  LWsession : buffer;
  rtc0 : Z;                                 (* RTC user memory, address 0 *)
  rtc4 : Z;                                 (* address 4 *)
  rtc8 : buffer;                            (* address 8 *)
  EEPROM : buffer
}.

Definition set_bootCount (v : Z) (m : machine) : machine :=
  Machine v (bootCountSinceUnsuccessfulJoin m) (LWsession m)
          (rtc0 m) (rtc4 m) (rtc8 m) (EEPROM m).
Definition set_bootCountSinceUnsuccessfulJoin (v : Z) (m : machine) : machine :=
  Machine (bootCount m) v (LWsession m) (rtc0 m) (rtc4 m) (rtc8 m) (EEPROM m).
Definition set_LWsession (b : buffer) (m : machine) : machine :=
  Machine (bootCount m) (bootCountSinceUnsuccessfulJoin m) b
          (rtc0 m) (rtc4 m) (rtc8 m) (EEPROM m).
Definition set_rtc0 (v : Z) (m : machine) : machine :=
  Machine (bootCount m) (bootCountSinceUnsuccessfulJoin m) (LWsession m)
          v (rtc4 m) (rtc8 m) (EEPROM m).
Definition set_rtc4 (v : Z) (m : machine) : machine :=
  Machine (bootCount m) (bootCountSinceUnsuccessfulJoin m) (LWsession m)
          (rtc0 m) v (rtc8 m) (EEPROM m).
Definition set_rtc8 (b : buffer) (m : machine) : machine :=
  Machine (bootCount m) (bootCountSinceUnsuccessfulJoin m) (LWsession m)
          (rtc0 m) (rtc4 m) b (EEPROM m).
Definition set_EEPROM (b : buffer) (m : machine) : machine :=
  Machine (bootCount m) (bootCountSinceUnsuccessfulJoin m) (LWsession m)
          (rtc0 m) (rtc4 m) (rtc8 m) b.

Definition zeros (n : nat) : buffer := repeat Byte.x00 n.

Section Common.
Variable RADIOLIB_LORAWAN_SESSION_BUF_SIZE : nat.   (* RadioLib *)
Variable w : world.

(** Every boot starts from the initialisers of the globals. *)
Definition reset (m : machine) : machine :=
  set_LWsession (zeros RADIOLIB_LORAWAN_SESSION_BUF_SIZE)
    (set_bootCountSinceUnsuccessfulJoin 0 (set_bootCount 1 m)).

(** [if(!ESP.rtcUserMemoryRead(address, &var, size)) Serial.println("RTC read failed!")] *)
Definition rtc_read (address : Z) (load : machine -> machine) : M machine unit :=
  let ok := w_rtc_read_ok w address in
  emit (rtcUserMemoryRead address ok) ;;
  if ok then modify load else emit (Serial_println "RTC read failed!").

(** [if(!ESP.rtcUserMemoryWrite(address, &var, size)) Serial.println("RTC write failed!")] *)
Definition rtc_write (address : Z) (save : machine -> machine) : M machine unit :=
  let ok := w_rtc_write_ok w address in
  emit (rtcUserMemoryWrite address ok) ;;
  if ok then modify save else emit (Serial_println "RTC write failed!").

(** The same text in both sketches. *)
Definition gotoSleep (seconds : Z) : M machine unit :=
  rtc_write 0 (fun m => set_rtc0 (bootCount m) m) ;;
  rtc_write 4 (fun m => set_rtc4 (bootCountSinceUnsuccessfulJoin m) m) ;;
  emit (ESP_deepSleep (microseconds seconds)) ;;
  (if w_sleep_returns w then ret tt else stop Asleep) ;;
  (* If this appears in the serial debug, we didn't go to sleep! *)
  emit (Serial_println "### Sleep failed, delay of 5 minutes & then restart ###") ;;
  emit (delay (UL (UL (5 * 60) * 1000))) ;;
  emit restart ;;
  stop Restarted.

(** "Recalling boot counts": the two reads at the top of [setup]. *)
Definition recall_boot_counts : M machine unit :=
  rtc_read 0 (fun m => set_bootCount (rtc0 m) m) ;;
  rtc_read 4 (fun m => set_bootCountSinceUnsuccessfulJoin (rtc4 m) m).

(** Radio initialisation and the restore steps, the same in both
    sketches; the local [LWnonces] is filled from EEPROM, and the result
    is [state] after [beginOTAA(..., false)]. *)
Definition restore : M machine Z :=
  let state := w_radio_begin w in
  emit (radio_begin state) ;;
  debug (negb (state =? RADIOLIB_ERR_NONE)) "Initalise radio failed" state true ;;
  LWnonces <- gets EEPROM ;;
  let state := w_setBufferNonces w LWnonces in
  emit (setBufferNonces LWnonces state) ;;
  n <- gets bootCount ;;
  debug (negb (state =? RADIOLIB_ERR_NONE) && (2 <? n))
        "Restoring nonces buffer failed" state false ;;
  rtc_read 8 (fun m => set_LWsession (rtc8 m) m) ;;
  session <- gets LWsession ;;
  let state := w_setBufferSession w session in
  emit (setBufferSession session state) ;;
  n <- gets bootCount ;;
  debug (negb (state =? RADIOLIB_ERR_NONE) && (2 <? n))
        "Restoring session buffer failed" state false ;;
  let state := w_resume w in
  emit (beginOTAA false state) ;;
  n <- gets bootCount ;;
  debug (negb (state =? RADIOLIB_ERR_NONE) && (2 <? n))
        "Restore session failed" state false ;;
  ret state.

Definition join_failed : M machine unit :=
  streak <- gets bootCountSinceUnsuccessfulJoin ;;
  modify (set_bootCountSinceUnsuccessfulJoin (uint32_t (streak + 1))) ;;
  gotoSleep (sleepForSeconds streak).

(** The nonces are copied to EEPROM byte by byte and committed. *)
Definition join_succeeded (persist : buffer) : M machine unit :=
  modify (set_EEPROM persist) ;;
  emit (putNonces persist) ;;
  modify (set_bootCountSinceUnsuccessfulJoin 0) ;;
  emit (delay 1000).

Fixpoint join_loop (joins : list (Z * buffer)) (state : Z) : M machine Z :=
  if state =? RADIOLIB_ERR_NONE then ret state
  else
    match joins with
    | [] => stop AwaitingJoin
    | (state', persist) :: joins' =>
        emit (beginOTAA true state') ;;
        (if state' <? RADIOLIB_ERR_NONE then join_failed
         else join_succeeded persist) ;;
        join_loop joins' state'
    end.

(** The uplink, the session save and the sleep; [no_downlink] is the
    state a sketch accepts besides [RADIOLIB_ERR_NONE]. *)
Definition uplink (uplinkIntervalSeconds no_downlink : Z) : M machine unit :=
  let state := w_sendReceive w in
  emit (sendReceive state) ;;
  debug (negb (state =? no_downlink) && negb (state =? RADIOLIB_ERR_NONE))
        "Error in sendReceive" state false ;;
  let persist := w_getBufferSession w in
  modify (set_LWsession persist) ;;
  emit (saveSession persist) ;;
  rtc_write 8 (fun m => set_rtc8 (LWsession m) m) ;;
  gotoSleep uplinkIntervalSeconds.
End Common.

(** *** The first sketch of the ESP8266 file (its lines 1-221) *)
Module A.
Section Sketch.
Variable uplinkIntervalSeconds : Z.                 (* config.h *)
Variable RADIOLIB_ERR_RX_TIMEOUT : Z.               (* RadioLib *)
Variable RADIOLIB_LORAWAN_SESSION_BUF_SIZE : nat.   (* RadioLib *)
Variable w : world.

(** [Serial.println(bootCount++)] *)
Definition print_wakeup_reason : M machine unit :=
  modify (fun m => set_bootCount (uint32_t (bootCount m + 1)) m).

Definition setup : M machine unit :=
  emit (delay 2000) ;;          (* Give time to switch to the serial monitor *)
  recall_boot_counts w ;;
  print_wakeup_reason ;;
  state <- restore w ;;
  join_loop w (w_joins w) state ;;
  uplink w uplinkIntervalSeconds RADIOLIB_ERR_RX_TIMEOUT.

Definition boot (m : machine) : run machine unit :=
  setup (reset RADIOLIB_LORAWAN_SESSION_BUF_SIZE m).
End Sketch.
End A.

(** *** The second sketch of the ESP8266 file (its lines 224-451) *)
Module B.
Section Sketch.
Variable uplinkIntervalSeconds : Z.                 (* config.h *)
Variable RADIOLIB_LORAWAN_NO_DOWNLINK : Z.          (* RadioLib *)
Variable RADIOLIB_LORAWAN_SESSION_BUF_SIZE : nat.   (* RadioLib *)
Variable w : world.

(** The 512 bytes of RTC user memory are cleared unless the boot is
    a wake from deep sleep. *)
Definition print_wakeup_reason : M machine unit :=
  when (negb (String.eqb (w_getResetReason w) "Deep-Sleep Wake"))
    (rtc_write w 0
       (fun m => set_rtc8 (zeros RADIOLIB_LORAWAN_SESSION_BUF_SIZE)
                   (set_rtc4 0 (set_rtc0 0 m)))).

Definition setup : M machine unit :=
  emit (delay 2000) ;;          (* give time to switch to the serial monitor *)
  print_wakeup_reason ;;
  recall_boot_counts w ;;
  (* Serial.println(++bootCount) *)
  modify (fun m => set_bootCount (uint32_t (bootCount m + 1)) m) ;;
  state <- restore w ;;
  join_loop w (w_joins w) state ;;
  uplink w uplinkIntervalSeconds RADIOLIB_LORAWAN_NO_DOWNLINK.

Definition boot (m : machine) : run machine unit :=
  setup (reset RADIOLIB_LORAWAN_SESSION_BUF_SIZE m).
End Sketch.
End B.
End ESP8266.

(** * Observations and auxiliary definitions *)

(** [prepend t r]: the run [r] after the events [t]. *)
Definition prepend {S A} (t : trace) (r : run S A) : run S A :=
  Run (t ++ log r) (final r) (ctl r).

Definition is_putNonces (e : event) : bool :=
  match e with putNonces _ => true | _ => false end.

(** A fresh join that the loop did not treat as a failure. *)
Definition join_accepted (e : event) : bool :=
  match e with beginOTAA true state => negb (state <? RADIOLIB_ERR_NONE) | _ => false end.

(** Decides that every write of the nonces comes right after an accepted
    fresh join. *)
Fixpoint nonces_well_placed (prev : option event) (t : trace) : bool :=
  match t with
  | [] => true
  | e :: t' =>
      (if is_putNonces e
       then match prev with Some p => join_accepted p | None => false end
       else true)
      && nonces_well_placed (Some e) t'
  end.

(** Every write of the nonces in a trace comes right after a fresh join
    whose state was not below [RADIOLIB_ERR_NONE]. *)
Definition nonces_follow_join (t : trace) : Prop :=
  forall before b after,
    t = before ++ putNonces b :: after ->
    exists before' state,
      before = before' ++ [beginOTAA true state] /\ RADIOLIB_ERR_NONE <= state.

(** No write of the nonces at all. *)
Definition quiet (t : trace) : bool := forallb (fun e => negb (is_putNonces e)) t.

(** A report of [debug] with the given message. *)
Definition reported (message : string) (t : trace) : bool :=
  existsb (fun e => match e with Report m _ => String.eqb m message | _ => false end) t.

(** The sleeps a trace asks for, in microseconds. *)
Definition sleep_request (e : event) : option Z :=
  match e with
  | esp_sleep_enable_timer_wakeup us => Some us
  | ESP_deepSleep us => Some us
  | pico_sleep seconds => Some (seconds * 1000000)
  | _ => None
  end.

Fixpoint sleep_requests (t : trace) : list Z :=
  match t with
  | [] => []
  | e :: t' =>
      match sleep_request e with
      | Some us => us :: sleep_requests t'
      | None => sleep_requests t'
      end
  end.

(** The notice printed when an RTC access fails. *)
Definition notice (ok : bool) (message : string) : trace :=
  if ok then [] else [Serial_println message].

(** RP2040: the boot counter after lines 76-83, that is the scratch
    register, or 1 after a hardware reset. *)
Definition loaded_bootCount (m : RP2040.machine) : Z :=
  if uint16_t (RP2040.scratch1 m) =? 0 then 1 else uint16_t (RP2040.scratch1 m).

(** ESP8266: the RTC user memory after the two writes of [gotoSleep]. *)
Definition saved_counts (w : world) (m : ESP8266.machine) : ESP8266.machine :=
  let m0 := if w_rtc_write_ok w 0
            then ESP8266.set_rtc0 (ESP8266.bootCount m) m else m in
  if w_rtc_write_ok w 4
  then ESP8266.set_rtc4 (ESP8266.bootCountSinceUnsuccessfulJoin m) m0 else m0.

(** ESP8266: the session handed to the radio is the RTC copy when it
    could be read. *)
Definition recalled_session (w : world) (m : ESP8266.machine) : ESP8266.machine :=
  if w_rtc_read_ok w 8 then ESP8266.set_LWsession (ESP8266.rtc8 m) m else m.

(** ESP8266: the globals after "Recalling boot counts". *)
Definition recalled_counts (w : world) (m : ESP8266.machine) : ESP8266.machine :=
  let m0 := if w_rtc_read_ok w 0
            then ESP8266.set_bootCount (ESP8266.rtc0 m) m else m in
  if w_rtc_read_ok w 4
  then ESP8266.set_bootCountSinceUnsuccessfulJoin (ESP8266.rtc4 m) m0 else m0.

(** ESP8266: the RTC user memory after [print_wakeup_reason] of the
    second sketch. *)
Definition cleared (SESSION_BUF_SIZE : nat) (w : world) (m : ESP8266.machine)
  : ESP8266.machine :=
  if negb (String.eqb (w_getResetReason w) "Deep-Sleep Wake") && w_rtc_write_ok w 0
  then ESP8266.set_rtc8 (ESP8266.zeros SESSION_BUF_SIZE)
         (ESP8266.set_rtc4 0 (ESP8266.set_rtc0 0 m))
  else m.

(** ESP8266: everything after the boot counters are loaded, common to
    both sketches. *)
Definition after_recall (uplinkIntervalSeconds no_downlink : Z) (w : world)
  : M ESP8266.machine unit :=
  state <- ESP8266.restore w ;;
  ESP8266.join_loop w (w_joins w) state ;;
  ESP8266.uplink w uplinkIntervalSeconds no_downlink.

(** A boot in which the radio starts, the session cannot be resumed, the
    first fresh join fails and the device then falls asleep. *)
Definition first_join_fails (w : world) : bool :=
  (w_radio_begin w =? RADIOLIB_ERR_NONE)
  && negb (w_resume w =? RADIOLIB_ERR_NONE)
  && match w_joins w with
     | (state, _) :: _ => state <? RADIOLIB_ERR_NONE
     | [] => false
     end
  && negb (w_sleep_returns w).

(** A boot of the RP2040 in which the first two fresh joins fail and
    [pico_sleep] comes back each time. *)
Definition first_two_joins_fail (w : world) : bool :=
  (w_radio_begin w =? RADIOLIB_ERR_NONE)
  && negb (w_resume w =? RADIOLIB_ERR_NONE)
  && match w_joins w with
     | (state1, _) :: (state2, _) :: _ =>
         (state1 <? RADIOLIB_ERR_NONE) && (state2 <? RADIOLIB_ERR_NONE)
     | _ => false
     end
  && w_sleep_returns w.

(** The RTC slot of the streak can be read at boot and written before
    the sleep. *)
Definition counters_kept (w : world) : bool :=
  w_rtc_read_ok w 4 && w_rtc_write_ok w 4.

(** Concrete collaborators.  A radio that starts, cannot resume, and
    whose fresh joins fail; the device falls asleep. *)
Definition failing_world : world :=
  World 0 (fun _ => -1) (fun _ => -1) (-1) [(-1, []); (-2, [])] 0 []
        false (fun _ => true) (fun _ => true) "Deep-Sleep Wake".

(** The same radio, with a sleep call that comes back. *)
Definition failing_world_awake : world :=
  World 0 (fun _ => -1) (fun _ => -1) (-1) [(-1, []); (-2, [])] 0 []
        true (fun _ => true) (fun _ => true) "Deep-Sleep Wake".

(** A radio that accepts neither the stored nonces nor the session,
    cannot resume, and whose first fresh join succeeds and yields one
    nonce byte. *)
Definition joining_world : world :=
  World 0 (fun _ => -1) (fun _ => -1) (-1) [(0, [Byte.x01])] 0 [Byte.x02]
        false (fun _ => true) (fun _ => true) "Deep-Sleep Wake".

(** Unfolds the straight-line part of a sketch and splits on its tests. *)
Ltac unfold_run :=
  cbv beta iota zeta delta
      [bind ret emit stop gets modify when debug log final ctl app prepend].

Ltac step_run :=
  unfold_run;
  repeat match goal with
         | |- context [if ?c then _ else _] => destruct c eqn:?; unfold_run
         end.

(** ** Further observations *)

Definition is_sendReceive (e : event) : bool :=
  match e with sendReceive _ => true | _ => false end.

(** The uplink exchanges of a trace. *)
Definition uplinks (t : trace) : nat := List.length (filter is_sendReceive t).

Definition is_fresh_join (e : event) : bool :=
  match e with beginOTAA true _ => true | _ => false end.

(** The fresh joins ([beginOTAA(..., true)]) of a trace. *)
Definition fresh_joins (t : trace) : nat := List.length (filter is_fresh_join t).

(** The nonces of the last write to the durable store in a trace. *)
Fixpoint last_nonces (t : trace) : option buffer :=
  match t with
  | [] => None
  | e :: t' =>
      match last_nonces t' with
      | Some b => Some b
      | None => match e with putNonces b => Some b | _ => None end
      end
  end.

(** Successive boots: each starts from the machine the one before left. *)
Fixpoint boots {S : Type} (boot : world -> S -> run S unit) (ws : list world) (m : S)
  : list (run S unit) :=
  match ws with
  | [] => []
  | w :: ws' => let r := boot w m in r :: boots boot ws' (final r)
  end.

(** The machine after successive boots. *)
Fixpoint after_boots {S : Type} (boot : world -> S -> run S unit) (ws : list world) (m : S)
  : S :=
  match ws with
  | [] => m
  | w :: ws' => after_boots boot ws' (final (boot w m))
  end.

(** A trace in which a sleep was programmed. *)
Definition slept (t : trace) : bool :=
  match sleep_requests t with [] => false | _ :: _ => true end.

(** ** The uplink payload of the ESP32 and ESP8266 sketches *)

Definition uint8_t (x : Z) : Z := x mod 2 ^ 8.

(** Modelled from the spec: [lowByte] and [highByte] come from the
    Arduino core, not from these sources: [(uint8_t) ((w) & 0xff)] and
    [(uint8_t) ((w) >> 8)]. *)
Definition lowByte (w : Z) : Z := uint8_t (Z.land w 255).
Definition highByte (w : Z) : Z := uint8_t (Z.shiftr w 8).

(** [uint8_t Digital2 = digitalRead(2); uint16_t Analog1 = analogRead(A1);]
    ([analogRead(3)] on the ESP8266) and the three assignments to
    [uplinkPayload]. *)
Definition uplinkPayload (digitalRead2 analogRead1 : Z) : list Z :=
  let Digital2 := uint8_t digitalRead2 in
  let Analog1 := uint16_t analogRead1 in
  [Digital2; highByte Analog1; lowByte Analog1].

(** What a receiver reads back from the three bytes. *)
Definition decodePayload (p : list Z) : option (Z * Z) :=
  match p with
  | [d; hi; lo] => Some (d, hi * 256 + lo)
  | _ => None
  end.

(** How a boot of an ESP sketch can end: halted at the radio's
    initialisation, waiting in the join loop for an answer beyond the
    script, or with exactly one sleep programmed, asleep (restarted when
    the sleep call comes back). *)
Definition ends_as_designed (w : world) {S : Type} (r : run S unit) : Prop :=
  (ctl r = Stop Frozen /\ w_radio_begin w <> RADIOLIB_ERR_NONE /\
   sleep_requests (log r) = []) \/
  (ctl r = Stop AwaitingJoin /\ sleep_requests (log r) = []) \/
  (ctl r = Stop (if w_sleep_returns w then Restarted else Asleep) /\
   exists us, sleep_requests (log r) = [us]).

(** At most one uplink in a trace, and none before a resumption or a
    fresh join has answered [RADIOLIB_ERR_NONE]. *)
Definition uplink_only_when_joined (t : trace) : Prop :=
  uplinks t = 0%nat \/
  exists before state after,
    t = before ++ sendReceive state :: after /\
    uplinks before = 0%nat /\ uplinks after = 0%nat /\
    (In (beginOTAA false RADIOLIB_ERR_NONE) before \/
     In (beginOTAA true RADIOLIB_ERR_NONE) before).

(** A boot after a power-on reset: the radio starts, cannot resume, and
    the first fresh join fails. *)
Definition cold_world : world :=
  World 0 (fun _ => -1) (fun _ => -1) (-1) [(-1, [])] 0 []
        false (fun _ => true) (fun _ => true) "Power On".

(** A radio whose only fresh join answers the positive state 1, with one
    nonce byte. *)
Definition positive_world : world :=
  World 0 (fun _ => -1) (fun _ => -1) (-1) [(1, [Byte.x01])] 0 [Byte.x02]
        false (fun _ => true) (fun _ => true) "Deep-Sleep Wake".

(** A boot after an external reset, power kept: the radio starts, cannot
    resume, and the first fresh join fails. *)
Definition external_reset_world : world :=
  World 0 (fun _ => -1) (fun _ => -1) (-1) [(-1, [])] 0 []
        false (fun _ => true) (fun _ => true) "External System".


(** A power-on boot in which the radio does not start. *)
Definition dead_radio_world : world :=
  World (-2) (fun _ => 0) (fun _ => 0) 0 [] 0 []
        false (fun _ => true) (fun _ => true) "Power On".

(** A wake from deep sleep in which RTC user memory cannot be read. *)
Definition unreadable_rtc_world : world :=
  World 0 (fun _ => -1) (fun _ => -1) (-1) [(-1, [])] 0 []
        false (fun _ => false) (fun _ => true) "Deep-Sleep Wake".

(** Drops the start-up delay in front of a trace under an observation. *)
Ltac skip_delay :=
  repeat match goal with
         | |- context [(delay ?n :: ?x) ++ ?y] =>
             change ((delay n :: x) ++ y) with (delay n :: (x ++ y))
         | |- context [fresh_joins (delay ?n :: ?t)] =>
             change (fresh_joins (delay n :: t)) with (fresh_joins t)
         | |- context [uplinks (delay ?n :: ?t)] =>
             change (uplinks (delay n :: t)) with (uplinks t)
         | |- context [quiet (delay ?n :: ?t)] =>
             change (quiet (delay n :: t)) with (quiet t)
         | |- context [sleep_requests (delay ?n :: ?t)] =>
             change (sleep_requests (delay n :: t)) with (sleep_requests t)
         | |- context [slept (delay ?n :: ?t)] =>
             change (slept (delay n :: t)) with (slept t)
         | |- context [reported ?msg (delay ?n :: ?t)] =>
             change (reported msg (delay n :: t)) with (reported msg t)
         | |- context [(sleep_us ?n :: ?x) ++ ?y] =>
             change ((sleep_us n :: x) ++ y) with (sleep_us n :: (x ++ y))
         | |- context [fresh_joins (sleep_us ?n :: ?t)] =>
             change (fresh_joins (sleep_us n :: t)) with (fresh_joins t)
         | |- context [uplinks (sleep_us ?n :: ?t)] =>
             change (uplinks (sleep_us n :: t)) with (uplinks t)
         | |- context [quiet (sleep_us ?n :: ?t)] =>
             change (quiet (sleep_us n :: t)) with (quiet t)
         | |- context [sleep_requests (sleep_us ?n :: ?t)] =>
             change (sleep_requests (sleep_us n :: t)) with (sleep_requests t)
         | |- context [slept (sleep_us ?n :: ?t)] =>
             change (slept (sleep_us n :: t)) with (slept t)
         | |- context [reported ?msg (sleep_us ?n :: ?t)] =>
             change (reported msg (sleep_us n :: t)) with (reported msg t)
         end.

(** * Properties *)

(** ** Arithmetic of the back-off and of the sleep timer *)

Lemma UL_small (x : Z) : 0 <= x < 2 ^ 32 -> UL x = x.
Proof. intros H. unfold UL, uint32_t. apply Z.mod_small. exact H. Qed.

Lemma sleepForSeconds_exact (s : Z) :
  0 <= s <= 71582787 -> sleepForSeconds s = Z.min ((s + 1) * 60) 180.
Proof.
  intros H. unfold sleepForSeconds, min.
  rewrite (UL_small (s + 1)) by lia.
  rewrite (UL_small ((s + 1) * 60)) by lia.
  rewrite (UL_small (3 * 60)) by lia.
  reflexivity.
Qed.

Lemma sleepForSeconds_bounds (s : Z) : 0 <= sleepForSeconds s <= 180.
Proof.
  unfold sleepForSeconds, min, UL, uint32_t.
  pose proof (Z.mod_pos_bound ((s + 1) mod 2 ^ 32 * 60) (2 ^ 32) ltac:(lia)).
  change ((3 * 60) mod 2 ^ 32) with 180. lia.
Qed.

Lemma microseconds_mod (seconds : Z) :
  microseconds seconds = (seconds * 10 ^ 6) mod 2 ^ 32.
Proof.
  unfold microseconds, UL, uint32_t.
  rewrite Z.mul_mod_idemp_l by lia.
  f_equal. lia.
Qed.

Lemma microseconds_exact (seconds : Z) :
  0 <= seconds <= 4294 -> microseconds seconds = seconds * 1000000.
Proof.
  intros H. rewrite microseconds_mod. change (10 ^ 6) with 1000000.
  apply Z.mod_small. lia.
Qed.

(** C1 (as amended): while [(s+1)*60] fits in 32 bits, which covers every
    16-bit streak of the ESP32 and RP2040 sketches and the streaks up to
    71582787 of the ESP8266 sketches, the back-off is
    [min((s+1)*60, 180)] seconds, it does not decrease, and
    [backoff(2) = backoff(10) = 180]. *)
Theorem backoff_policy (s t : Z) :
  0 <= s <= t -> t <= 71582787 ->
  sleepForSeconds s = Z.min ((s + 1) * 60) 180 /\
  sleepForSeconds s <= sleepForSeconds t /\
  sleepForSeconds 2 = 180 /\ sleepForSeconds 10 = 180.
Proof.
  intros Hst Ht.
  rewrite (sleepForSeconds_exact s) by lia.
  rewrite (sleepForSeconds_exact t) by lia.
  repeat split; try reflexivity. lia.
Qed.

Lemma backoff_policy_witness :
  sleepForSeconds 0 = Z.min ((0 + 1) * 60) 180 /\
  sleepForSeconds 0 <= sleepForSeconds 65535 /\
  sleepForSeconds 2 = 180 /\ sleepForSeconds 10 = 180.
Proof. apply (backoff_policy 0 65535); lia. Defined.

(** The 32-bit streak of the ESP8266 sketches reaches values where the
    product wraps: at 71582788 the back-off is 44 seconds, not 180, it
    is smaller than the back-off one failure earlier, and a failed join
    at that streak programs a sleep of 44 seconds. *)
Lemma backoff_wraps :
  0 <= 71582788 < 2 ^ 32 /\
  sleepForSeconds 71582788 = 44 /\
  sleepForSeconds 71582788 <> Z.min ((71582788 + 1) * 60) 180 /\
  ~ sleepForSeconds 71582787 <= sleepForSeconds 71582788 /\
  log (ESP8266.join_loop failing_world [(-1, [])] (-1)
         (ESP8266.Machine 2 71582788 [] 2 71582788 [] [])) =
    [beginOTAA true (-1); rtcUserMemoryWrite 0 true; rtcUserMemoryWrite 4 true;
     ESP_deepSleep 44000000].
Proof. repeat split; vm_compute; congruence. Qed.

(** ** Runs *)

Lemma bind_log {S A B} (m : M S A) (f : A -> M S B) (s : S) :
  log (bind m f s) =
  log (m s) ++ match ctl (m s) with
               | Next a => log (f a (final (m s)))
               | Stop _ => []
               end.
Proof.
  unfold bind. destruct (m s) as [t1 s1 [a|o]]; cbn.
  - destruct (f a s1); reflexivity.
  - now rewrite app_nil_r.
Qed.

Lemma bind_final {S A B} (m : M S A) (f : A -> M S B) (s : S) :
  final (bind m f s) =
  match ctl (m s) with
  | Next a => final (f a (final (m s)))
  | Stop _ => final (m s)
  end.
Proof.
  unfold bind. destruct (m s) as [t1 s1 [a|o]]; cbn; [|reflexivity].
  destruct (f a s1); reflexivity.
Qed.

Lemma bind_ctl {S A B} (m : M S A) (f : A -> M S B) (s : S) :
  ctl (bind m f s) =
  match ctl (m s) with
  | Next a => ctl (f a (final (m s)))
  | Stop o => Stop o
  end.
Proof.
  unfold bind. destruct (m s) as [t1 s1 [a|o]]; cbn; [|reflexivity].
  destruct (f a s1); reflexivity.
Qed.

Lemma bind_emit {S B} (e : event) (k : unit -> M S B) (s : S) :
  bind (emit e) k s = prepend [e] (k tt s).
Proof. unfold bind, emit, prepend. destruct (k tt s). reflexivity. Qed.

(** ** Traces *)

Lemma sleep_requests_app (t1 t2 : trace) :
  sleep_requests (t1 ++ t2) = sleep_requests t1 ++ sleep_requests t2.
Proof.
  induction t1 as [|e t1 IH]; cbn; [reflexivity|].
  destruct (sleep_request e); cbn; now rewrite IH.
Qed.

Lemma quiet_app (t1 t2 : trace) : quiet (t1 ++ t2) = quiet t1 && quiet t2.
Proof. unfold quiet. apply forallb_app. Qed.

Lemma quiet_well_placed (t : trace) :
  quiet t = true -> forall prev, nonces_well_placed prev t = true.
Proof.
  induction t as [|e t IH]; cbn; [reflexivity|].
  intros H prev. apply andb_prop in H. destruct H as [He Ht].
  destruct (is_putNonces e); [discriminate|]. cbn. now apply IH.
Qed.

Lemma well_placed_app_quiet (t1 t2 : trace) (prev : option event) :
  nonces_well_placed prev t1 = true -> quiet t2 = true ->
  nonces_well_placed prev (t1 ++ t2) = true.
Proof.
  revert prev. induction t1 as [|e t1 IH]; cbn; intros prev H1 H2.
  - now apply quiet_well_placed.
  - apply andb_prop in H1. destruct H1 as [He Ht]. rewrite He. cbn. now apply IH.
Qed.

Lemma quiet_app_well_placed (t1 t2 : trace) (prev : option event) :
  quiet t1 = true -> (forall prev', nonces_well_placed prev' t2 = true) ->
  nonces_well_placed prev (t1 ++ t2) = true.
Proof.
  revert prev. induction t1 as [|e t1 IH]; cbn; intros prev H1 H2.
  - apply H2.
  - apply andb_prop in H1. destruct H1 as [He Ht].
    destruct (is_putNonces e); [discriminate|]. cbn. now apply IH.
Qed.

(** What [nonces_well_placed] decides. *)
Lemma well_placed_spec (t : trace) :
  nonces_well_placed None t = true ->
  forall before b after,
    t = before ++ putNonces b :: after ->
    exists before' state,
      before = before' ++ [beginOTAA true state] /\ RADIOLIB_ERR_NONE <= state.
Proof.
  assert (G : forall t prev, nonces_well_placed prev t = true ->
            forall before b after, t = before ++ putNonces b :: after ->
            match before with
            | [] => exists p state, prev = Some p /\ p = beginOTAA true state
                                    /\ RADIOLIB_ERR_NONE <= state
            | _ => exists before' state,
                before = before' ++ [beginOTAA true state] /\ RADIOLIB_ERR_NONE <= state
            end).
  { clear t. induction t as [|e t IH]; intros prev H before b after E.
    - destruct before; discriminate.
    - cbn in H. apply andb_prop in H. destruct H as [He Ht].
      destruct before as [|e' before]; cbn in E; injection E as -> ->.
      + cbn in He. destruct prev as [p|]; [|discriminate].
        destruct p; try discriminate. destruct force; [|discriminate].
        exists (beginOTAA true state), state. cbn in He.
        repeat split. unfold RADIOLIB_ERR_NONE in *.
        destruct (state <? 0) eqn:L; [discriminate|]. apply Z.ltb_ge in L. exact L.
      + specialize (IH (Some e') Ht before b after eq_refl).
        destruct before as [|e'' before].
        * destruct IH as (p & state & [= <-] & -> & Hs).
          exists [], state. split; [reflexivity | exact Hs].
        * destruct IH as (before' & state & -> & Hs).
          exists (e' :: before'), state. split; [reflexivity | exact Hs]. }
  intros H before b after E. specialize (G t None H before b after E).
  destruct before; [|exact G].
  destruct G as (p & state & [=] & _).
Qed.

(** ** Facts about the ESP32 sketch *)
Section ESP32_facts.
Import ESP32.
Variable uplinkIntervalSeconds : Z.
Variable RADIOLIB_LORAWAN_NO_DOWNLINK : Z.
Variable w : world.

Lemma esp32_gotoSleep_run (seconds : Z) (m : machine) :
  gotoSleep w seconds m =
  Run (esp_sleep_enable_timer_wakeup (microseconds seconds) :: esp_deep_sleep_start ::
       (if w_sleep_returns w
        then [Serial_println "### Sleep failed, delay of 5 minutes & then restart ###";
              delay 300000; restart]
        else []))
      m
      (Stop (if w_sleep_returns w then Restarted else Asleep)).
Proof. unfold gotoSleep. step_run; reflexivity. Qed.

Lemma esp32_restore_final (m : machine) : final (restore w m) = m.
Proof. unfold restore. step_run; reflexivity. Qed.

Lemma esp32_restore_ctl (m : machine) :
  ctl (restore w m) =
  if w_radio_begin w =? RADIOLIB_ERR_NONE then Next (w_resume w) else Stop Frozen.
Proof. unfold restore. step_run; reflexivity || discriminate. Qed.

Lemma esp32_restore_quiet (m : machine) :
  quiet (log (restore w m)) = true /\ sleep_requests (log (restore w m)) = [].
Proof. unfold restore. step_run; split; reflexivity. Qed.

Lemma esp32_join_failed_run (m : machine) :
  join_failed w m =
  gotoSleep w (sleepForSeconds (bootCountSinceUnsuccessfulJoin m))
    (set_bootCountSinceUnsuccessfulJoin
       (uint16_t (bootCountSinceUnsuccessfulJoin m + 1)) m).
Proof. unfold join_failed, gotoSleep. step_run; reflexivity. Qed.

Lemma esp32_join_succeeded_run (persist : buffer) (m : machine) :
  join_succeeded persist m =
  Run [putNonces persist; delay 1000]
      (set_bootCountSinceUnsuccessfulJoin 0
         (set_store (Preferences.putBytes "nonces" persist (store m)) m))
      (Next tt).
Proof. reflexivity. Qed.

Lemma esp32_loop_done (joins : list (Z * buffer)) (m : machine) :
  join_loop w joins RADIOLIB_ERR_NONE m = Run [] m (Next RADIOLIB_ERR_NONE).
Proof. destruct joins; reflexivity. Qed.

Lemma esp32_loop_failed (state' : Z) (persist : buffer) (joins : list (Z * buffer))
      (state : Z) (m : machine) :
  state <> RADIOLIB_ERR_NONE -> state' < RADIOLIB_ERR_NONE ->
  join_loop w ((state', persist) :: joins) state m =
  Run (beginOTAA true state' :: log (join_failed w m))
      (final (join_failed w m))
      (Stop (if w_sleep_returns w then Restarted else Asleep)).
Proof.
  intros Hs Hf. apply Z.eqb_neq in Hs. apply Z.ltb_lt in Hf.
  cbn [join_loop]. rewrite Hs. unfold bind at 1 2. unfold emit at 1.
  rewrite Hf. rewrite esp32_join_failed_run, esp32_gotoSleep_run. reflexivity.
Qed.

Lemma esp32_loop_accepted (state' : Z) (persist : buffer) (joins : list (Z * buffer))
      (state : Z) (m : machine) :
  state <> RADIOLIB_ERR_NONE -> RADIOLIB_ERR_NONE <= state' ->
  join_loop w ((state', persist) :: joins) state m =
  prepend [beginOTAA true state'; putNonces persist; delay 1000]
    (join_loop w joins state'
       (set_bootCountSinceUnsuccessfulJoin 0
          (set_store (Preferences.putBytes "nonces" persist (store m)) m))).
Proof.
  intros Hs Hf. apply Z.eqb_neq in Hs. apply Z.ltb_ge in Hf.
  cbn [join_loop]. rewrite Hs. unfold bind at 1 2. unfold emit at 1.
  rewrite Hf. rewrite esp32_join_succeeded_run. unfold bind, prepend.
  destruct (join_loop w joins state' _) as [t s c]. reflexivity.
Qed.

Lemma esp32_loop_well_placed (joins : list (Z * buffer)) :
  forall state m prev,
    nonces_well_placed prev (log (join_loop w joins state m)) = true.
Proof.
  induction joins as [|[state' persist] joins IH]; intros state m prev.
  - cbn. destruct (state =? RADIOLIB_ERR_NONE); reflexivity.
  - destruct (Z.eq_dec state RADIOLIB_ERR_NONE) as [->|Hs].
    + rewrite esp32_loop_done. reflexivity.
    + destruct (Z_lt_le_dec state' RADIOLIB_ERR_NONE) as [Hf|Hf].
      * rewrite esp32_loop_failed by assumption.
        rewrite esp32_join_failed_run, esp32_gotoSleep_run.
        cbn [log]. destruct (w_sleep_returns w); reflexivity.
      * rewrite esp32_loop_accepted by assumption.
        apply Z.ltb_ge in Hf. cbn. rewrite Hf. cbn. apply IH.
Qed.

(** When the loop is left, the last fresh join answered
    [RADIOLIB_ERR_NONE] and the streak is zero. *)
Lemma esp32_loop_exit (joins : list (Z * buffer)) :
  forall state m state'',
    state <> RADIOLIB_ERR_NONE ->
    ctl (join_loop w joins state m) = Next state'' ->
    state'' = RADIOLIB_ERR_NONE /\
    bootCountSinceUnsuccessfulJoin (final (join_loop w joins state m)) = 0.
Proof.
  induction joins as [|[state' persist] joins IH]; intros state m state'' Hs H.
  - apply Z.eqb_neq in Hs. cbn in H. rewrite Hs in H. discriminate.
  - destruct (Z_lt_le_dec state' RADIOLIB_ERR_NONE) as [Hf|Hf].
    + rewrite esp32_loop_failed in H by assumption. discriminate.
    + rewrite esp32_loop_accepted in * by assumption. cbn [prepend ctl final] in *.
      destruct (Z.eq_dec state' RADIOLIB_ERR_NONE) as [->|Hs'].
      * rewrite esp32_loop_done in *. cbn in *. injection H as <-. split; reflexivity.
      * now apply IH.
Qed.

(** The loop touches nothing but the streak and the store. *)
Lemma esp32_loop_frame (joins : list (Z * buffer)) :
  forall state m,
    bootCount (final (join_loop w joins state m)) = bootCount m /\
    LWsession (final (join_loop w joins state m)) = LWsession m.
Proof.
  induction joins as [|[state' persist] joins IH]; intros state m.
  - cbn. destruct (state =? RADIOLIB_ERR_NONE); split; reflexivity.
  - destruct (Z.eq_dec state RADIOLIB_ERR_NONE) as [->|Hs].
    + rewrite esp32_loop_done. split; reflexivity.
    + destruct (Z_lt_le_dec state' RADIOLIB_ERR_NONE) as [Hf|Hf].
      * rewrite esp32_loop_failed by assumption.
        rewrite esp32_join_failed_run, esp32_gotoSleep_run. split; reflexivity.
      * rewrite esp32_loop_accepted by assumption. cbn [prepend final].
        destruct (IH state'
                    (set_bootCountSinceUnsuccessfulJoin 0
                       (set_store (Preferences.putBytes "nonces" persist (store m)) m)))
          as [-> ->].
        split; reflexivity.
Qed.

Lemma esp32_uplink_run (m : machine) :
  uplink uplinkIntervalSeconds RADIOLIB_LORAWAN_NO_DOWNLINK w m =
  prepend
    (sendReceive (w_sendReceive w) ::
     (if negb (w_sendReceive w =? RADIOLIB_LORAWAN_NO_DOWNLINK)
         && negb (w_sendReceive w =? RADIOLIB_ERR_NONE)
      then [Report "Error in sendReceive" (w_sendReceive w)] else []) ++
     [saveSession (w_getBufferSession w)])
    (gotoSleep w uplinkIntervalSeconds (set_LWsession (w_getBufferSession w) m)).
Proof. unfold uplink, gotoSleep. step_run; reflexivity. Qed.

Lemma esp32_uplink_quiet (m : machine) :
  quiet (log (uplink uplinkIntervalSeconds RADIOLIB_LORAWAN_NO_DOWNLINK w m)) = true.
Proof.
  rewrite esp32_uplink_run, esp32_gotoSleep_run. cbn [prepend log].
  destruct (_ && _), (w_sleep_returns w); reflexivity.
Qed.

Lemma esp32_setup_log (m : machine) :
  let m1 := set_bootCount (uint16_t (bootCount m + 1)) m in
  log (setup uplinkIntervalSeconds RADIOLIB_LORAWAN_NO_DOWNLINK w m) =
  delay 2000 ::
  log (restore w m1) ++
  (if w_radio_begin w =? RADIOLIB_ERR_NONE
   then log (join_loop w (w_joins w) (w_resume w) m1) ++
        match ctl (join_loop w (w_joins w) (w_resume w) m1) with
        | Next _ => log (uplink uplinkIntervalSeconds RADIOLIB_LORAWAN_NO_DOWNLINK w
                           (final (join_loop w (w_joins w) (w_resume w) m1)))
        | Stop _ => []
        end
   else []).
Proof.
  intros m1. unfold setup, print_wakeup_reason.
  rewrite bind_emit. cbn [prepend log app]. f_equal.
  rewrite bind_log. cbn [modify log ctl final app]. fold m1.
  rewrite bind_log, esp32_restore_ctl, esp32_restore_final.
  destruct (w_radio_begin w =? RADIOLIB_ERR_NONE); [|reflexivity].
  rewrite bind_log. reflexivity.
Qed.

Lemma esp32_setup_well_placed (m : machine) :
  nonces_well_placed None
    (log (setup uplinkIntervalSeconds RADIOLIB_LORAWAN_NO_DOWNLINK w m)) = true.
Proof.
  rewrite esp32_setup_log. cbv zeta.
  change (delay 2000 :: ?t) with ([delay 2000] ++ t).
  apply quiet_app_well_placed; [reflexivity|]. intros prev0.
  apply quiet_app_well_placed; [apply esp32_restore_quiet|]. intros prev.
  destruct (w_radio_begin w =? RADIOLIB_ERR_NONE); [|reflexivity].
  apply well_placed_app_quiet; [apply esp32_loop_well_placed|].
  destruct (ctl _); [apply esp32_uplink_quiet | reflexivity].
Qed.

Lemma esp32_restore_reports (m : machine) :
  w_radio_begin w = RADIOLIB_ERR_NONE ->
  reported "Restoring nonces buffer failed" (log (restore w m)) =
    Preferences.isKey "nonces" (store m)
    && negb (w_setBufferNonces w (Preferences.getBytes "nonces" (store m))
             =? RADIOLIB_ERR_NONE) /\
  reported "Restoring session buffer failed" (log (restore w m)) =
    negb (w_setBufferSession w (LWsession m) =? RADIOLIB_ERR_NONE)
    && (2 <? bootCount m) /\
  reported "Restore session failed" (log (restore w m)) =
    negb (w_resume w =? RADIOLIB_ERR_NONE) && (2 <? bootCount m).
Proof.
  intros H. unfold restore. rewrite H.
  change (negb (RADIOLIB_ERR_NONE =? RADIOLIB_ERR_NONE)) with false.
  step_run; repeat split; reflexivity.
Qed.
End ESP32_facts.

(** ** Facts about the RP2040 sketch *)
Section RP2040_facts.
Import RP2040.
Variable uplinkIntervalSeconds : Z.
Variable RADIOLIB_LORAWAN_NO_DOWNLINK : Z.
Variable w : world.

Lemma rp2040_gotoSleep_run (seconds : Z) (m : machine) :
  gotoSleep w seconds m =
  Run [delay 100; pico_sleep seconds]
      (set_scratch1 (bootCount m) m)
      (if w_sleep_returns w then Next tt else Stop Asleep).
Proof. unfold gotoSleep, do_pico_sleep. step_run; reflexivity. Qed.

Lemma rp2040_load_bootCount_run (m : machine) :
  load_bootCount m =
  Run []
      (if uint16_t (scratch1 m) =? 0
       then set_bootCountSinceUnsuccessfulJoin 0 (set_bootCount 1 m)
       else set_bootCount (uint16_t (scratch1 m)) m)
      (Next tt).
Proof.
  unfold load_bootCount. unfold_run. cbn [bootCount set_bootCount].
  destruct (uint16_t (scratch1 m) =? 0); reflexivity.
Qed.

Lemma rp2040_restore_final (m : machine) : final (restore w m) = m.
Proof. unfold restore. step_run; reflexivity. Qed.

Lemma rp2040_restore_ctl (m : machine) :
  ctl (restore w m) =
  if w_radio_begin w =? RADIOLIB_ERR_NONE then Next (w_resume w) else Stop Frozen.
Proof. unfold restore. step_run; reflexivity || discriminate. Qed.

Lemma rp2040_restore_quiet (m : machine) :
  quiet (log (restore w m)) = true /\ sleep_requests (log (restore w m)) = [].
Proof. unfold restore. step_run; split; reflexivity. Qed.

Lemma rp2040_join_failed_run (m : machine) :
  join_failed w m =
  gotoSleep w (sleepForSeconds (bootCountSinceUnsuccessfulJoin m))
    (set_bootCountSinceUnsuccessfulJoin
       (uint16_t (bootCountSinceUnsuccessfulJoin m + 1)) m).
Proof. unfold join_failed, gotoSleep, do_pico_sleep. step_run; reflexivity. Qed.

Lemma rp2040_join_succeeded_run (persist : buffer) (m : machine) :
  join_succeeded persist m =
  Run [putNonces persist; delay 1000]
      (set_bootCountSinceUnsuccessfulJoin 0
         (set_store (Preferences.putBytes "nonces" persist (store m)) m))
      (Next tt).
Proof. reflexivity. Qed.

Lemma rp2040_loop_done (joins : list (Z * buffer)) (m : machine) :
  join_loop w joins RADIOLIB_ERR_NONE m = Run [] m (Next RADIOLIB_ERR_NONE).
Proof. destruct joins; reflexivity. Qed.

(** After a failed join the sketch sleeps; when [pico_sleep] comes back
    the loop goes on with the next fresh join. *)
Lemma rp2040_loop_failed (state' : Z) (persist : buffer) (joins : list (Z * buffer))
      (state : Z) (m : machine) :
  state <> RADIOLIB_ERR_NONE -> state' < RADIOLIB_ERR_NONE ->
  join_loop w ((state', persist) :: joins) state m =
  let m' := set_scratch1 (bootCount m)
              (set_bootCountSinceUnsuccessfulJoin
                 (uint16_t (bootCountSinceUnsuccessfulJoin m + 1)) m) in
  let t := [beginOTAA true state'; delay 100;
            pico_sleep (sleepForSeconds (bootCountSinceUnsuccessfulJoin m))] in
  if w_sleep_returns w then prepend t (join_loop w joins state' m')
  else Run t m' (Stop Asleep).
Proof.
  intros Hs Hf. apply Z.eqb_neq in Hs. apply Z.ltb_lt in Hf.
  cbn [join_loop]. rewrite Hs. unfold bind at 1 2. unfold emit at 1.
  rewrite Hf. rewrite rp2040_join_failed_run, rp2040_gotoSleep_run. cbv zeta.
  destruct (w_sleep_returns w); [|reflexivity].
  unfold bind, prepend. destruct (join_loop w joins state' _) as [t s c]. reflexivity.
Qed.

Lemma rp2040_loop_accepted (state' : Z) (persist : buffer) (joins : list (Z * buffer))
      (state : Z) (m : machine) :
  state <> RADIOLIB_ERR_NONE -> RADIOLIB_ERR_NONE <= state' ->
  join_loop w ((state', persist) :: joins) state m =
  prepend [beginOTAA true state'; putNonces persist; delay 1000]
    (join_loop w joins state'
       (set_bootCountSinceUnsuccessfulJoin 0
          (set_store (Preferences.putBytes "nonces" persist (store m)) m))).
Proof.
  intros Hs Hf. apply Z.eqb_neq in Hs. apply Z.ltb_ge in Hf.
  cbn [join_loop]. rewrite Hs. unfold bind at 1 2. unfold emit at 1.
  rewrite Hf. rewrite rp2040_join_succeeded_run. unfold bind, prepend.
  destruct (join_loop w joins state' _) as [t s c]. reflexivity.
Qed.

Lemma rp2040_loop_well_placed (joins : list (Z * buffer)) :
  forall state m prev,
    nonces_well_placed prev (log (join_loop w joins state m)) = true.
Proof.
  induction joins as [|[state' persist] joins IH]; intros state m prev.
  - cbn. destruct (state =? RADIOLIB_ERR_NONE); reflexivity.
  - destruct (Z.eq_dec state RADIOLIB_ERR_NONE) as [->|Hs].
    + rewrite rp2040_loop_done. reflexivity.
    + destruct (Z_lt_le_dec state' RADIOLIB_ERR_NONE) as [Hf|Hf].
      * rewrite rp2040_loop_failed by assumption. cbv zeta.
        destruct (w_sleep_returns w); [|reflexivity]. cbn. apply IH.
      * rewrite rp2040_loop_accepted by assumption.
        apply Z.ltb_ge in Hf. cbn. rewrite Hf. cbn. apply IH.
Qed.

Lemma rp2040_loop_exit (joins : list (Z * buffer)) :
  forall state m state'',
    state <> RADIOLIB_ERR_NONE ->
    ctl (join_loop w joins state m) = Next state'' ->
    state'' = RADIOLIB_ERR_NONE /\
    bootCountSinceUnsuccessfulJoin (final (join_loop w joins state m)) = 0.
Proof.
  induction joins as [|[state' persist] joins IH]; intros state m state'' Hs H.
  - apply Z.eqb_neq in Hs. cbn in H. rewrite Hs in H. discriminate.
  - destruct (Z_lt_le_dec state' RADIOLIB_ERR_NONE) as [Hf|Hf].
    + rewrite rp2040_loop_failed in * by assumption. cbv zeta in *.
      destruct (w_sleep_returns w); [|discriminate].
      cbn [prepend ctl final] in *. apply IH; [|exact H].
      unfold RADIOLIB_ERR_NONE in *. lia.
    + rewrite rp2040_loop_accepted in * by assumption. cbn [prepend ctl final] in *.
      destruct (Z.eq_dec state' RADIOLIB_ERR_NONE) as [->|Hs'].
      * rewrite rp2040_loop_done in *. cbn in *. injection H as <-. split; reflexivity.
      * now apply IH.
Qed.

(** The loop never changes the boot counter, and the scratch register
    only ever receives the boot counter. *)
Lemma rp2040_loop_frame (joins : list (Z * buffer)) :
  forall state m,
    bootCount (final (join_loop w joins state m)) = bootCount m /\
    (scratch1 (final (join_loop w joins state m)) = scratch1 m \/
     scratch1 (final (join_loop w joins state m)) = bootCount m).
Proof.
  induction joins as [|[state' persist] joins IH]; intros state m.
  - cbn. destruct (state =? RADIOLIB_ERR_NONE); split; auto.
  - destruct (Z.eq_dec state RADIOLIB_ERR_NONE) as [->|Hs].
    + rewrite rp2040_loop_done. split; auto.
    + destruct (Z_lt_le_dec state' RADIOLIB_ERR_NONE) as [Hf|Hf].
      * rewrite rp2040_loop_failed by assumption. cbv zeta.
        destruct (w_sleep_returns w); [|split; auto].
        cbn [prepend final].
        match goal with |- context [join_loop w joins state' ?m'] =>
          destruct (IH state' m') as [-> [->| ->]] end; split; auto.
      * rewrite rp2040_loop_accepted by assumption. cbn [prepend final].
        match goal with |- context [join_loop w joins state' ?m'] =>
          destruct (IH state' m') as [-> [->| ->]] end; split; auto.
Qed.

Lemma rp2040_uplink_run (m : machine) :
  uplink uplinkIntervalSeconds RADIOLIB_LORAWAN_NO_DOWNLINK w m =
  Run (sendReceive (w_sendReceive w) ::
       (if negb (w_sendReceive w =? RADIOLIB_LORAWAN_NO_DOWNLINK)
           && negb (w_sendReceive w =? RADIOLIB_ERR_NONE)
        then [Report "Error in sendReceive" (w_sendReceive w)] else []) ++
       [saveSession (w_getBufferSession w); delay 100; pico_sleep uplinkIntervalSeconds] ++
       (if w_sleep_returns w then [restart] else []))
      (set_scratch1 (bootCount m) (set_LWsession (w_getBufferSession w) m))
      (Stop (if w_sleep_returns w then Restarted else Asleep)).
Proof. unfold uplink, gotoSleep, do_pico_sleep. step_run; reflexivity. Qed.

Lemma rp2040_uplink_quiet (m : machine) :
  quiet (log (uplink uplinkIntervalSeconds RADIOLIB_LORAWAN_NO_DOWNLINK w m)) = true.
Proof.
  rewrite rp2040_uplink_run. cbn [log].
  destruct (_ && _), (w_sleep_returns w); reflexivity.
Qed.

Lemma rp2040_setup_run (m : machine) :
  let m1 := final (load_bootCount m) in
  log (setup uplinkIntervalSeconds RADIOLIB_LORAWAN_NO_DOWNLINK w m) =
    delay 2000 :: sleep_us 64 ::
    log (restore w m1) ++
    (if w_radio_begin w =? RADIOLIB_ERR_NONE
     then log (join_loop w (w_joins w) (w_resume w) m1) ++
          match ctl (join_loop w (w_joins w) (w_resume w) m1) with
          | Next _ => log (uplink uplinkIntervalSeconds RADIOLIB_LORAWAN_NO_DOWNLINK w
                             (final (join_loop w (w_joins w) (w_resume w) m1)))
          | Stop _ => []
          end
     else []) /\
  final (setup uplinkIntervalSeconds RADIOLIB_LORAWAN_NO_DOWNLINK w m) =
    (if w_radio_begin w =? RADIOLIB_ERR_NONE
     then match ctl (join_loop w (w_joins w) (w_resume w) m1) with
          | Next _ => final (uplink uplinkIntervalSeconds RADIOLIB_LORAWAN_NO_DOWNLINK w
                               (final (join_loop w (w_joins w) (w_resume w) m1)))
          | Stop _ => final (join_loop w (w_joins w) (w_resume w) m1)
          end
     else m1).
Proof.
  intros m1. unfold setup.
  rewrite bind_emit. cbn [prepend log final app].
  rewrite bind_emit. cbn [prepend log final app].
  rewrite bind_log, bind_final. subst m1. rewrite rp2040_load_bootCount_run.
  cbn [log ctl final app].
  set (m1 := if uint16_t (scratch1 m) =? 0 then _ else _).
  rewrite bind_log, bind_final, rp2040_restore_ctl, rp2040_restore_final.
  destruct (w_radio_begin w =? RADIOLIB_ERR_NONE); [|split; reflexivity].
  rewrite bind_log, bind_final. split; reflexivity.
Qed.

Lemma rp2040_setup_well_placed (m : machine) :
  nonces_well_placed None
    (log (setup uplinkIntervalSeconds RADIOLIB_LORAWAN_NO_DOWNLINK w m)) = true.
Proof.
  rewrite (proj1 (rp2040_setup_run m)). cbv zeta.
  change (delay 2000 :: sleep_us 64 :: ?t) with ([delay 2000; sleep_us 64] ++ t).
  apply quiet_app_well_placed; [reflexivity|]. intros prev0.
  apply quiet_app_well_placed; [apply rp2040_restore_quiet|]. intros prev.
  destruct (w_radio_begin w =? RADIOLIB_ERR_NONE); [|reflexivity].
  apply well_placed_app_quiet; [apply rp2040_loop_well_placed|].
  destruct (ctl _); [apply rp2040_uplink_quiet | reflexivity].
Qed.

Lemma rp2040_restore_reports (m : machine) :
  w_radio_begin w = RADIOLIB_ERR_NONE ->
  reported "Restoring nonces buffer failed" (log (restore w m)) =
    Preferences.isKey "nonces" (store m)
    && negb (w_setBufferNonces w (Preferences.getBytes "nonces" (store m))
             =? RADIOLIB_ERR_NONE) /\
  reported "Restoring session buffer failed" (log (restore w m)) =
    negb (w_setBufferSession w (LWsession m) =? RADIOLIB_ERR_NONE)
    && (2 <? bootCount m) /\
  reported "Restore session failed" (log (restore w m)) =
    negb (w_resume w =? RADIOLIB_ERR_NONE) && (2 <? bootCount m).
Proof.
  intros H. unfold restore. rewrite H.
  change (negb (RADIOLIB_ERR_NONE =? RADIOLIB_ERR_NONE)) with false.
  step_run; repeat split; reflexivity.
Qed.

(** Nothing in [setup] increments the boot counter: it ends as it was
    loaded, and the scratch register is only ever given that value. *)
Lemma rp2040_setup_bootCount (m : machine) :
  let r := setup uplinkIntervalSeconds RADIOLIB_LORAWAN_NO_DOWNLINK w m in
  bootCount (final r) = loaded_bootCount m /\
  (scratch1 (final r) = scratch1 m \/ scratch1 (final r) = loaded_bootCount m).
Proof.
  cbv zeta. rewrite (proj2 (rp2040_setup_run m)). cbv zeta.
  rewrite rp2040_load_bootCount_run. cbn [final].
  set (m1 := if uint16_t (scratch1 m) =? 0 then _ else _).
  assert (H1 : bootCount m1 = loaded_bootCount m /\ scratch1 m1 = scratch1 m).
  { unfold m1, loaded_bootCount. destruct (uint16_t (scratch1 m) =? 0); split; reflexivity. }
  destruct H1 as [Hb Hs].
  destruct (w_radio_begin w =? RADIOLIB_ERR_NONE); [|split; auto].
  destruct (rp2040_loop_frame (w_joins w) (w_resume w) m1) as [Lb Ls].
  destruct (ctl _).
  - rewrite rp2040_uplink_run. cbn [final]. cbn. rewrite Lb, Hb. split; auto.
  - rewrite Lb, Hb. split; [reflexivity|]. destruct Ls as [->| ->]; auto.
Qed.
End RP2040_facts.

(** ** Facts about the ESP8266 sketches *)
Section ESP8266_facts.
Import ESP8266.
Variable uplinkIntervalSeconds : Z.
Variable no_downlink : Z.
Variable RADIOLIB_LORAWAN_SESSION_BUF_SIZE : nat.
Variable w : world.

Lemma esp8266_gotoSleep_run (seconds : Z) (m : machine) :
  gotoSleep w seconds m =
  Run (rtcUserMemoryWrite 0 (w_rtc_write_ok w 0) ::
       notice (w_rtc_write_ok w 0) "RTC write failed!" ++
       rtcUserMemoryWrite 4 (w_rtc_write_ok w 4) ::
       notice (w_rtc_write_ok w 4) "RTC write failed!" ++
       ESP_deepSleep (microseconds seconds) ::
       (if w_sleep_returns w
        then [Serial_println "### Sleep failed, delay of 5 minutes & then restart ###";
              delay 300000; restart]
        else []))
      (saved_counts w m)
      (Stop (if w_sleep_returns w then Restarted else Asleep)).
Proof.
  unfold gotoSleep, rtc_write, saved_counts, notice. step_run; reflexivity.
Qed.

Lemma esp8266_restore_final (m : machine) :
  final (restore w m) =
  if w_radio_begin w =? RADIOLIB_ERR_NONE then recalled_session w m else m.
Proof. unfold restore, rtc_read, recalled_session. step_run; reflexivity || discriminate. Qed.

Lemma esp8266_restore_ctl (m : machine) :
  ctl (restore w m) =
  if w_radio_begin w =? RADIOLIB_ERR_NONE then Next (w_resume w) else Stop Frozen.
Proof. unfold restore, rtc_read. step_run; reflexivity || discriminate. Qed.

Lemma esp8266_restore_quiet (m : machine) :
  quiet (log (restore w m)) = true /\ sleep_requests (log (restore w m)) = [].
Proof. unfold restore, rtc_read. step_run; split; reflexivity. Qed.

Lemma esp8266_join_failed_run (m : machine) :
  join_failed w m =
  gotoSleep w (sleepForSeconds (bootCountSinceUnsuccessfulJoin m))
    (set_bootCountSinceUnsuccessfulJoin
       (uint32_t (bootCountSinceUnsuccessfulJoin m + 1)) m).
Proof. unfold join_failed, gotoSleep, rtc_write. step_run; reflexivity. Qed.

Lemma esp8266_join_succeeded_run (persist : buffer) (m : machine) :
  join_succeeded persist m =
  Run [putNonces persist; delay 1000]
      (set_bootCountSinceUnsuccessfulJoin 0 (set_EEPROM persist m))
      (Next tt).
Proof. reflexivity. Qed.

Lemma esp8266_loop_done (joins : list (Z * buffer)) (m : machine) :
  join_loop w joins RADIOLIB_ERR_NONE m = Run [] m (Next RADIOLIB_ERR_NONE).
Proof. destruct joins; reflexivity. Qed.

Lemma esp8266_loop_failed (state' : Z) (persist : buffer) (joins : list (Z * buffer))
      (state : Z) (m : machine) :
  state <> RADIOLIB_ERR_NONE -> state' < RADIOLIB_ERR_NONE ->
  join_loop w ((state', persist) :: joins) state m =
  Run (beginOTAA true state' :: log (join_failed w m))
      (final (join_failed w m))
      (Stop (if w_sleep_returns w then Restarted else Asleep)).
Proof.
  intros Hs Hf. apply Z.eqb_neq in Hs. apply Z.ltb_lt in Hf.
  cbn [join_loop]. rewrite Hs. unfold bind at 1 2. unfold emit at 1.
  rewrite Hf. rewrite esp8266_join_failed_run, esp8266_gotoSleep_run. reflexivity.
Qed.

Lemma esp8266_loop_accepted (state' : Z) (persist : buffer) (joins : list (Z * buffer))
      (state : Z) (m : machine) :
  state <> RADIOLIB_ERR_NONE -> RADIOLIB_ERR_NONE <= state' ->
  join_loop w ((state', persist) :: joins) state m =
  prepend [beginOTAA true state'; putNonces persist; delay 1000]
    (join_loop w joins state'
       (set_bootCountSinceUnsuccessfulJoin 0 (set_EEPROM persist m))).
Proof.
  intros Hs Hf. apply Z.eqb_neq in Hs. apply Z.ltb_ge in Hf.
  cbn [join_loop]. rewrite Hs. unfold bind at 1 2. unfold emit at 1.
  rewrite Hf. rewrite esp8266_join_succeeded_run. unfold bind, prepend.
  destruct (join_loop w joins state' _) as [t s c]. reflexivity.
Qed.

Lemma esp8266_gotoSleep_quiet (seconds : Z) (m : machine) :
  quiet (log (gotoSleep w seconds m)) = true.
Proof.
  rewrite esp8266_gotoSleep_run. cbn [log]. unfold notice.
  destruct (w_rtc_write_ok w 0), (w_rtc_write_ok w 4), (w_sleep_returns w); reflexivity.
Qed.

Lemma esp8266_loop_well_placed (joins : list (Z * buffer)) :
  forall state m prev,
    nonces_well_placed prev (log (join_loop w joins state m)) = true.
Proof.
  induction joins as [|[state' persist] joins IH]; intros state m prev.
  - cbn. destruct (state =? RADIOLIB_ERR_NONE); reflexivity.
  - destruct (Z.eq_dec state RADIOLIB_ERR_NONE) as [->|Hs].
    + rewrite esp8266_loop_done. reflexivity.
    + destruct (Z_lt_le_dec state' RADIOLIB_ERR_NONE) as [Hf|Hf].
      * rewrite esp8266_loop_failed by assumption.
        rewrite esp8266_join_failed_run. cbn [log].
        change (nonces_well_placed prev (?e :: ?t))
          with (nonces_well_placed (Some e) t).
        apply quiet_well_placed, esp8266_gotoSleep_quiet.
      * rewrite esp8266_loop_accepted by assumption.
        apply Z.ltb_ge in Hf. cbn. rewrite Hf. cbn. apply IH.
Qed.

Lemma esp8266_loop_exit (joins : list (Z * buffer)) :
  forall state m state'',
    state <> RADIOLIB_ERR_NONE ->
    ctl (join_loop w joins state m) = Next state'' ->
    state'' = RADIOLIB_ERR_NONE /\
    bootCountSinceUnsuccessfulJoin (final (join_loop w joins state m)) = 0.
Proof.
  induction joins as [|[state' persist] joins IH]; intros state m state'' Hs H.
  - apply Z.eqb_neq in Hs. cbn in H. rewrite Hs in H. discriminate.
  - destruct (Z_lt_le_dec state' RADIOLIB_ERR_NONE) as [Hf|Hf].
    + rewrite esp8266_loop_failed in H by assumption. discriminate.
    + rewrite esp8266_loop_accepted in * by assumption. cbn [prepend ctl final] in *.
      destruct (Z.eq_dec state' RADIOLIB_ERR_NONE) as [->|Hs'].
      * rewrite esp8266_loop_done in *. cbn in *. injection H as <-. split; reflexivity.
      * now apply IH.
Qed.

Lemma esp8266_uplink_run (m : machine) :
  uplink w uplinkIntervalSeconds no_downlink m =
  prepend
    (sendReceive (w_sendReceive w) ::
     (if negb (w_sendReceive w =? no_downlink)
         && negb (w_sendReceive w =? RADIOLIB_ERR_NONE)
      then [Report "Error in sendReceive" (w_sendReceive w)] else []) ++
     saveSession (w_getBufferSession w) ::
     rtcUserMemoryWrite 8 (w_rtc_write_ok w 8) ::
     notice (w_rtc_write_ok w 8) "RTC write failed!")
    (gotoSleep w uplinkIntervalSeconds
       (let m' := set_LWsession (w_getBufferSession w) m in
        if w_rtc_write_ok w 8 then set_rtc8 (w_getBufferSession w) m' else m')).
Proof. unfold uplink, gotoSleep, rtc_write, notice. step_run; reflexivity. Qed.

Lemma esp8266_uplink_quiet (m : machine) :
  quiet (log (uplink w uplinkIntervalSeconds no_downlink m)) = true.
Proof.
  rewrite esp8266_uplink_run. unfold prepend. cbn [log].
  rewrite quiet_app, esp8266_gotoSleep_quiet. unfold notice.
  destruct (negb (w_sendReceive w =? no_downlink) && _), (w_rtc_write_ok w 8);
    reflexivity.
Qed.

Lemma esp8266_restore_reports (m : machine) :
  w_radio_begin w = RADIOLIB_ERR_NONE ->
  reported "Restoring nonces buffer failed" (log (restore w m)) =
    negb (w_setBufferNonces w (EEPROM m) =? RADIOLIB_ERR_NONE)
    && (2 <? bootCount m) /\
  reported "Restoring session buffer failed" (log (restore w m)) =
    negb (w_setBufferSession w (LWsession (recalled_session w m)) =? RADIOLIB_ERR_NONE)
    && (2 <? bootCount m) /\
  reported "Restore session failed" (log (restore w m)) =
    negb (w_resume w =? RADIOLIB_ERR_NONE) && (2 <? bootCount m).
Proof.
  intros H. unfold restore, rtc_read, recalled_session. rewrite H.
  change (negb (RADIOLIB_ERR_NONE =? RADIOLIB_ERR_NONE)) with false.
  destruct (w_rtc_read_ok w 8);
    repeat (unfold_run; cbn [bootCount LWsession set_LWsession];
            match goal with
            | |- context [if ?c then _ else _] => destruct c eqn:?
            end);
    repeat split; reflexivity.
Qed.

Lemma esp8266_after_recall_well_placed (m : machine) (prev : option event) :
  nonces_well_placed prev (log (after_recall uplinkIntervalSeconds no_downlink w m)) = true.
Proof.
  unfold after_recall. rewrite bind_log, esp8266_restore_ctl, esp8266_restore_final.
  apply quiet_app_well_placed; [apply esp8266_restore_quiet|]. intros prev'.
  destruct (w_radio_begin w =? RADIOLIB_ERR_NONE); [|reflexivity].
  rewrite bind_log.
  apply well_placed_app_quiet; [apply esp8266_loop_well_placed|].
  destruct (ctl _); [apply esp8266_uplink_quiet | reflexivity].
Qed.

Lemma esp8266_recall_run (m : machine) :
  quiet (log (recall_boot_counts w m)) = true /\
  ctl (recall_boot_counts w m) = Next tt.
Proof. unfold recall_boot_counts, rtc_read. step_run; split; reflexivity. Qed.
End ESP8266_facts.

Lemma esp8266_A_setup_well_placed
      (uplinkIntervalSeconds RADIOLIB_ERR_RX_TIMEOUT : Z) (w : world)
      (m : ESP8266.machine) :
  nonces_well_placed None
    (log (ESP8266.A.setup uplinkIntervalSeconds RADIOLIB_ERR_RX_TIMEOUT w m)) = true.
Proof.
  unfold ESP8266.A.setup.
  rewrite bind_emit. cbn [prepend log].
  apply quiet_app_well_placed; [reflexivity|]. intros prev0.
  rewrite bind_log. destruct (esp8266_recall_run w m) as [Hq ->].
  apply quiet_app_well_placed; [exact Hq|]. intros prev.
  rewrite bind_log. cbn [ESP8266.A.print_wakeup_reason modify log ctl final app].
  apply (esp8266_after_recall_well_placed uplinkIntervalSeconds RADIOLIB_ERR_RX_TIMEOUT w).
Qed.

Lemma esp8266_B_setup_well_placed
      (uplinkIntervalSeconds RADIOLIB_LORAWAN_NO_DOWNLINK : Z)
      (RADIOLIB_LORAWAN_SESSION_BUF_SIZE : nat) (w : world) (m : ESP8266.machine) :
  nonces_well_placed None
    (log (ESP8266.B.setup uplinkIntervalSeconds RADIOLIB_LORAWAN_NO_DOWNLINK
            RADIOLIB_LORAWAN_SESSION_BUF_SIZE w m)) = true.
Proof.
  unfold ESP8266.B.setup.
  rewrite bind_emit. cbn [prepend log].
  apply quiet_app_well_placed; [reflexivity|]. intros prev0.
  rewrite bind_log.
  assert (H : quiet (log (ESP8266.B.print_wakeup_reason
                            RADIOLIB_LORAWAN_SESSION_BUF_SIZE w m)) = true /\
              ctl (ESP8266.B.print_wakeup_reason
                     RADIOLIB_LORAWAN_SESSION_BUF_SIZE w m) = Next tt).
  { unfold ESP8266.B.print_wakeup_reason, ESP8266.rtc_write. step_run; split; reflexivity. }
  destruct H as [Hq ->].
  apply quiet_app_well_placed; [exact Hq|]. intros prev.
  rewrite bind_log.
  match goal with |- context [ESP8266.recall_boot_counts w ?m'] =>
    destruct (esp8266_recall_run w m') as [Hq' ->] end.
  apply quiet_app_well_placed; [exact Hq'|]. intros prev'.
  rewrite bind_log. cbn [modify log ctl final app].
  apply (esp8266_after_recall_well_placed uplinkIntervalSeconds
           RADIOLIB_LORAWAN_NO_DOWNLINK w).
Qed.

(** ** Whole boots *)

Lemma bind_run {S A B} (m : M S A) (f : A -> M S B) (s : S) :
  bind m f s =
  match ctl (m s) with
  | Next a => prepend (log (m s)) (f a (final (m s)))
  | Stop o => Run (log (m s)) (final (m s)) (Stop o)
  end.
Proof.
  unfold bind, prepend. destruct (m s) as [t1 s1 [a|o]]; cbn; [|reflexivity].
  destruct (f a s1); reflexivity.
Qed.

Lemma bind_modify {S B} (f : S -> S) (k : unit -> M S B) (s : S) :
  bind (modify f) k s = k tt (f s).
Proof. unfold bind, modify. destruct (k tt (f s)); reflexivity. Qed.

Lemma first_join_fails_inv (w : world) :
  first_join_fails w = true ->
  w_radio_begin w = RADIOLIB_ERR_NONE /\ w_resume w <> RADIOLIB_ERR_NONE /\
  w_sleep_returns w = false /\
  exists state persist joins,
    w_joins w = (state, persist) :: joins /\ state < RADIOLIB_ERR_NONE.
Proof.
  unfold first_join_fails. intros H.
  apply andb_prop in H. destruct H as [H Hs].
  apply andb_prop in H. destruct H as [H Hj].
  apply andb_prop in H. destruct H as [Hr Hn].
  apply Z.eqb_eq in Hr. apply negb_true_iff in Hn, Hs. apply Z.eqb_neq in Hn.
  repeat split; try assumption.
  destruct (w_joins w) as [|[state persist] joins]; [discriminate|].
  apply Z.ltb_lt in Hj. now exists state, persist, joins.
Qed.

Section ESP32_boots.
Import ESP32.
Variable uplinkIntervalSeconds : Z.
Variable RADIOLIB_LORAWAN_NO_DOWNLINK : Z.

(** A boot that ends in a failed first join: one sleep, for the
    back-off of the streak it started with, and the streak goes up. *)
Lemma esp32_failed_boot (w : world) (m : machine) :
  first_join_fails w = true ->
  let r := setup uplinkIntervalSeconds RADIOLIB_LORAWAN_NO_DOWNLINK w m in
  sleep_requests (log r) =
    [microseconds (sleepForSeconds (bootCountSinceUnsuccessfulJoin m))] /\
  bootCountSinceUnsuccessfulJoin (final r) =
    uint16_t (bootCountSinceUnsuccessfulJoin m + 1) /\
  ctl r = Stop Asleep.
Proof.
  intros H. apply first_join_fails_inv in H.
  destruct H as (Hr & Hn & Hs & state & persist & joins & Hj & Hf).
  cbv zeta. unfold setup, print_wakeup_reason.
  rewrite bind_emit, bind_run. cbn [modify ctl final log prepend app].
  set (m1 := set_bootCount _ m).
  rewrite bind_run, esp32_restore_ctl, esp32_restore_final, Hr. cbn [Z.eqb RADIOLIB_ERR_NONE].
  change (0 =? 0) with true. cbv iota.
  rewrite bind_run, Hj, esp32_loop_failed by assumption.
  rewrite esp32_join_failed_run, esp32_gotoSleep_run, Hs.
  cbn [ctl final log prepend].
  change (delay 2000 :: ?t) with ([delay 2000] ++ t).
  rewrite !sleep_requests_app, (proj2 (esp32_restore_quiet w m1)).
  repeat split; reflexivity.
Qed.
End ESP32_boots.

Section ESP8266_boots.
Import ESP8266.
Variable uplinkIntervalSeconds : Z.
Variable no_downlink : Z.
Variable SESSION_BUF_SIZE : nat.

(** The part shared by both sketches, from a machine whose boot
    counters are loaded. *)
Lemma esp8266_failed_after_recall (w : world) (m : machine) :
  first_join_fails w = true -> w_rtc_write_ok w 4 = true ->
  let r := after_recall uplinkIntervalSeconds no_downlink w m in
  sleep_requests (log r) =
    [microseconds (sleepForSeconds (bootCountSinceUnsuccessfulJoin m))] /\
  rtc4 (final r) = uint32_t (bootCountSinceUnsuccessfulJoin m + 1) /\
  ctl r = Stop Asleep.
Proof.
  intros H Hw. apply first_join_fails_inv in H.
  destruct H as (Hr & Hn & Hs & state & persist & joins & Hj & Hf).
  cbv zeta. unfold after_recall.
  rewrite bind_run, esp8266_restore_ctl, esp8266_restore_final, Hr.
  change (RADIOLIB_ERR_NONE =? RADIOLIB_ERR_NONE) with true. cbv iota.
  rewrite bind_run, Hj, esp8266_loop_failed by assumption.
  rewrite esp8266_join_failed_run, esp8266_gotoSleep_run, Hs.
  cbn [ctl final log prepend].
  rewrite sleep_requests_app, (proj2 (esp8266_restore_quiet w m)).
  unfold saved_counts, recalled_session, notice. rewrite Hw.
  destruct (w_rtc_read_ok w 8), (w_rtc_write_ok w 0); repeat split; reflexivity.
Qed.

Lemma esp8266_recall_boot_counts_run (w : world) (m : machine) :
  recall_boot_counts w m =
  Run (rtcUserMemoryRead 0 (w_rtc_read_ok w 0) ::
       notice (w_rtc_read_ok w 0) "RTC read failed!" ++
       rtcUserMemoryRead 4 (w_rtc_read_ok w 4) ::
       notice (w_rtc_read_ok w 4) "RTC read failed!")
      (recalled_counts w m) (Next tt).
Proof.
  unfold recall_boot_counts, rtc_read, recalled_counts, notice. step_run; reflexivity.
Qed.

Lemma esp8266_A_setup_run (w : world) (m : machine) :
  A.setup uplinkIntervalSeconds no_downlink w m =
  prepend (delay 2000 :: log (recall_boot_counts w m))
    (after_recall uplinkIntervalSeconds no_downlink w
       (set_bootCount (uint32_t (bootCount (recalled_counts w m) + 1))
          (recalled_counts w m))).
Proof.
  unfold A.setup. rewrite bind_emit, bind_run, esp8266_recall_boot_counts_run.
  cbn [ctl final log]. unfold A.print_wakeup_reason. rewrite bind_modify.
  unfold prepend. cbn [log final ctl app]. reflexivity.
Qed.

Lemma esp8266_B_print_wakeup_reason_run (w : world) (m : machine) :
  B.print_wakeup_reason SESSION_BUF_SIZE w m =
  Run (if negb (String.eqb (w_getResetReason w) "Deep-Sleep Wake")
       then rtcUserMemoryWrite 0 (w_rtc_write_ok w 0) ::
            notice (w_rtc_write_ok w 0) "RTC write failed!"
       else [])
      (cleared SESSION_BUF_SIZE w m) (Next tt).
Proof.
  unfold B.print_wakeup_reason, rtc_write, cleared, notice.
  destruct (negb _), (w_rtc_write_ok w 0); reflexivity.
Qed.

Lemma esp8266_B_setup_run (w : world) (m : machine) :
  B.setup uplinkIntervalSeconds no_downlink SESSION_BUF_SIZE w m =
  prepend (delay 2000 ::
           log (B.print_wakeup_reason SESSION_BUF_SIZE w m) ++
           log (recall_boot_counts w (cleared SESSION_BUF_SIZE w m)))
    (after_recall uplinkIntervalSeconds no_downlink w
       (set_bootCount
          (uint32_t (bootCount (recalled_counts w (cleared SESSION_BUF_SIZE w m)) + 1))
          (recalled_counts w (cleared SESSION_BUF_SIZE w m)))).
Proof.
  unfold B.setup. rewrite bind_emit, bind_run, esp8266_B_print_wakeup_reason_run.
  cbn [ctl final log]. rewrite bind_run, esp8266_recall_boot_counts_run.
  cbn [ctl final log]. rewrite bind_modify.
  unfold prepend. cbn [log final ctl].
  change ([delay 2000] ++ ?x) with (delay 2000 :: x).
  change ((delay 2000 :: ?x) ++ ?y) with (delay 2000 :: (x ++ y)).
  now rewrite <- app_assoc.
Qed.

Lemma recall_no_sleep (w : world) (m : machine) :
  sleep_requests (log (recall_boot_counts w m)) = [].
Proof.
  rewrite esp8266_recall_boot_counts_run. cbn [log]. unfold notice.
  destruct (w_rtc_read_ok w 0), (w_rtc_read_ok w 4); reflexivity.
Qed.

Lemma esp8266_A_failed_boot (w : world) (m : machine) :
  first_join_fails w = true ->
  w_rtc_read_ok w 4 = true -> w_rtc_write_ok w 4 = true ->
  let r := A.boot uplinkIntervalSeconds no_downlink
             SESSION_BUF_SIZE w m in
  sleep_requests (log r) = [microseconds (sleepForSeconds (rtc4 m))] /\
  rtc4 (final r) = uint32_t (rtc4 m + 1) /\
  ctl r = Stop Asleep.
Proof.
  intros H Hrd Hw. cbv zeta. unfold A.boot. rewrite esp8266_A_setup_run.
  unfold prepend. cbn [log final ctl].
  rewrite sleep_requests_app. cbn [sleep_requests sleep_request].
  rewrite recall_no_sleep.
  match goal with |- context [after_recall _ _ w ?m'] =>
    destruct (esp8266_failed_after_recall w m' H Hw) as (-> & -> & ->) end.
  unfold recalled_counts. rewrite Hrd.
  destruct (w_rtc_read_ok w 0); repeat split; reflexivity.
Qed.

Lemma esp8266_B_failed_boot (w : world) (m : machine) :
  first_join_fails w = true ->
  w_rtc_read_ok w 4 = true -> w_rtc_write_ok w 4 = true ->
  let r := B.boot uplinkIntervalSeconds no_downlink
             SESSION_BUF_SIZE w m in
  let streak := rtc4 (cleared SESSION_BUF_SIZE w (reset SESSION_BUF_SIZE m)) in
  sleep_requests (log r) = [microseconds (sleepForSeconds streak)] /\
  rtc4 (final r) = uint32_t (streak + 1) /\
  ctl r = Stop Asleep.
Proof.
  intros H Hrd Hw. cbv zeta. unfold B.boot. rewrite esp8266_B_setup_run.
  unfold prepend. cbn [log final ctl].
  rewrite sleep_requests_app. cbn [sleep_requests sleep_request].
  rewrite !sleep_requests_app, recall_no_sleep, esp8266_B_print_wakeup_reason_run.
  match goal with |- context [after_recall _ _ w ?m'] =>
    destruct (esp8266_failed_after_recall w m' H Hw) as (-> & -> & ->) end.
  unfold recalled_counts. rewrite Hrd. cbn [log]. unfold notice.
  destruct (w_rtc_read_ok w 0), (negb _), (w_rtc_write_ok w 0);
    repeat split; reflexivity.
Qed.

(** A wake from deep sleep leaves the RTC copy of the streak alone; any
    other reset leaves it alone or clears it. *)
Lemma cleared_streak (w : world) (m : machine) :
  rtc4 (cleared SESSION_BUF_SIZE w (reset SESSION_BUF_SIZE m)) =
  if negb (String.eqb (w_getResetReason w) "Deep-Sleep Wake") && w_rtc_write_ok w 0
  then 0 else rtc4 m.
Proof. unfold cleared. destruct (_ && _); reflexivity. Qed.
End ESP8266_boots.

Section RP2040_boots.
Import RP2040.
Variable uplinkIntervalSeconds : Z.
Variable RADIOLIB_LORAWAN_NO_DOWNLINK : Z.

Lemma rp2040_two_failures (w : world) (m : machine) :
  first_two_joins_fail w = true ->
  uint16_t (scratch1 m) = 0 ->
  exists rest,
    sleep_requests
      (log (setup uplinkIntervalSeconds RADIOLIB_LORAWAN_NO_DOWNLINK w m)) =
    60000000 :: 120000000 :: rest.
Proof.
  unfold first_two_joins_fail. intros H Hcold.
  apply andb_prop in H. destruct H as [H Hs].
  apply andb_prop in H. destruct H as [H Hj].
  apply andb_prop in H. destruct H as [Hr Hn].
  apply negb_true_iff in Hn. apply Z.eqb_neq in Hn.
  destruct (w_joins w) as [|[s1 p1] [|[s2 p2] joins]] eqn:Ej; try discriminate.
  apply andb_prop in Hj. destruct Hj as [H1 H2].
  apply Z.ltb_lt in H1, H2.
  rewrite (proj1 (rp2040_setup_run uplinkIntervalSeconds
                    RADIOLIB_LORAWAN_NO_DOWNLINK w m)).
  cbv zeta. rewrite rp2040_load_bootCount_run, Hcold, Hr, Ej. cbn [final Z.eqb].
  cbn [sleep_requests sleep_request].
  rewrite sleep_requests_app, (proj2 (rp2040_restore_quiet _ _)). cbn [app].
  rewrite rp2040_loop_failed by assumption. cbv zeta. rewrite Hs.
  rewrite rp2040_loop_failed by (unfold RADIOLIB_ERR_NONE in *; lia || assumption).
  cbv zeta. rewrite Hs. cbn [prepend log ctl final app].
  cbn [bootCountSinceUnsuccessfulJoin set_scratch1 set_bootCountSinceUnsuccessfulJoin
       set_bootCount bootCount].
  change (sleepForSeconds 0) with 60.
  change (sleepForSeconds (uint16_t (0 + 1))) with 120.
  cbn [sleep_requests sleep_request Z.mul Pos.mul Pos.add].
  eexists. reflexivity.
Qed.
End RP2040_boots.

(** C2: a failed fresh join increments the streak and sleeps for the
    back-off of the streak it found, that is [min(new streak * 60, 180)]
    seconds, on every target; from a cold boot with a zero streak two
    failed joins in a row sleep for 60 and then for 120 seconds (on the
    ESP targets in two successive boots, on the RP2040 within one). *)
Theorem join_failure_backs_off
        (uplinkIntervalSeconds no_downlink : Z) (SESSION_BUF_SIZE : nat)
        (w w1 w2 wr : world) (state state' : Z) (persist : buffer)
        (joins : list (Z * buffer))
        (m32 : ESP32.machine) (mrp cold_rp : RP2040.machine)
        (m82 cold_82 : ESP8266.machine)
        (session : buffer) (flash : Preferences.t) :
  state <> RADIOLIB_ERR_NONE -> state' < RADIOLIB_ERR_NONE ->
  first_join_fails w1 = true -> first_join_fails w2 = true ->
  counters_kept w1 = true -> counters_kept w2 = true ->
  w_getResetReason w2 = "Deep-Sleep Wake" ->
  ESP8266.rtc4 cold_82 = 0 ->
  first_two_joins_fail wr = true -> uint16_t (RP2040.scratch1 cold_rp) = 0 ->
  (let r := ESP32.join_loop w ((state', persist) :: joins) state m32 in
   ESP32.bootCountSinceUnsuccessfulJoin (final r) =
     uint16_t (ESP32.bootCountSinceUnsuccessfulJoin m32 + 1) /\
   sleep_requests (log r) =
     [microseconds (sleepForSeconds (ESP32.bootCountSinceUnsuccessfulJoin m32))]) /\
  (let r := RP2040.join_loop w [(state', persist)] state mrp in
   RP2040.bootCountSinceUnsuccessfulJoin (final r) =
     uint16_t (RP2040.bootCountSinceUnsuccessfulJoin mrp + 1) /\
   sleep_requests (log r) =
     [sleepForSeconds (RP2040.bootCountSinceUnsuccessfulJoin mrp) * 1000000]) /\
  (let r := ESP8266.join_loop w ((state', persist) :: joins) state m82 in
   ESP8266.bootCountSinceUnsuccessfulJoin (final r) =
     uint32_t (ESP8266.bootCountSinceUnsuccessfulJoin m82 + 1) /\
   sleep_requests (log r) =
     [microseconds (sleepForSeconds (ESP8266.bootCountSinceUnsuccessfulJoin m82))]) /\
  (let r1 := ESP32.setup uplinkIntervalSeconds no_downlink w1
               (ESP32.power_on session flash) in
   let r2 := ESP32.setup uplinkIntervalSeconds no_downlink w2 (final r1) in
   sleep_requests (log r1) = [60000000] /\ sleep_requests (log r2) = [120000000]) /\
  (let r1 := ESP8266.A.boot uplinkIntervalSeconds no_downlink SESSION_BUF_SIZE w1 cold_82 in
   let r2 := ESP8266.A.boot uplinkIntervalSeconds no_downlink SESSION_BUF_SIZE w2 (final r1) in
   sleep_requests (log r1) = [60000000] /\ sleep_requests (log r2) = [120000000]) /\
  (let r1 := ESP8266.B.boot uplinkIntervalSeconds no_downlink SESSION_BUF_SIZE w1 cold_82 in
   let r2 := ESP8266.B.boot uplinkIntervalSeconds no_downlink SESSION_BUF_SIZE w2 (final r1) in
   sleep_requests (log r1) = [60000000] /\ sleep_requests (log r2) = [120000000]) /\
  (exists rest,
      sleep_requests (log (RP2040.setup uplinkIntervalSeconds no_downlink wr cold_rp)) =
      60000000 :: 120000000 :: rest).
Proof.
  intros Hs Hf H1 H2 K1 K2 Hwake Hcold Hr Hcoldrp.
  unfold counters_kept in K1, K2.
  apply andb_prop in K1, K2. destruct K1 as [R1 W1], K2 as [R2 W2].
  split; [|split; [|split; [|split; [|split; [|split]]]]]; cbv zeta.
  - rewrite esp32_loop_failed by assumption.
    rewrite esp32_join_failed_run, esp32_gotoSleep_run.
    cbn [final log]. split; [reflexivity|].
    destruct (w_sleep_returns w); reflexivity.
  - rewrite rp2040_loop_failed by assumption. cbv zeta.
    assert (E : (state' =? RADIOLIB_ERR_NONE) = false)
      by (apply Z.eqb_neq; unfold RADIOLIB_ERR_NONE in *; lia).
    destruct (w_sleep_returns w); cbn [RP2040.join_loop]; rewrite ?E;
      split; reflexivity.
  - rewrite esp8266_loop_failed by assumption.
    rewrite esp8266_join_failed_run, esp8266_gotoSleep_run.
    cbn [final log]. unfold saved_counts, notice. split.
    + destruct (w_rtc_write_ok w 0), (w_rtc_write_ok w 4); reflexivity.
    + destruct (w_rtc_write_ok w 0), (w_rtc_write_ok w 4), (w_sleep_returns w);
        reflexivity.
  - cbv zeta.
    destruct (esp32_failed_boot uplinkIntervalSeconds no_downlink w1
                (ESP32.power_on session flash) H1) as (E1 & S1 & _).
    destruct (esp32_failed_boot uplinkIntervalSeconds no_downlink w2
                (final (ESP32.setup uplinkIntervalSeconds no_downlink w1
                          (ESP32.power_on session flash))) H2) as (E2 & _).
    rewrite E2, S1, E1. split; reflexivity.
  - cbv zeta.
    destruct (esp8266_A_failed_boot uplinkIntervalSeconds no_downlink SESSION_BUF_SIZE
                w1 cold_82 H1 R1 W1) as (E1 & S1 & _).
    destruct (esp8266_A_failed_boot uplinkIntervalSeconds no_downlink SESSION_BUF_SIZE
                w2 (final (ESP8266.A.boot uplinkIntervalSeconds no_downlink
                             SESSION_BUF_SIZE w1 cold_82)) H2 R2 W2) as (E2 & _).
    rewrite E2, S1, E1, Hcold. split; reflexivity.
  - cbv zeta.
    destruct (esp8266_B_failed_boot uplinkIntervalSeconds no_downlink SESSION_BUF_SIZE
                w1 cold_82 H1 R1 W1) as (E1 & S1 & _).
    destruct (esp8266_B_failed_boot uplinkIntervalSeconds no_downlink SESSION_BUF_SIZE
                w2 (final (ESP8266.B.boot uplinkIntervalSeconds no_downlink
                             SESSION_BUF_SIZE w1 cold_82)) H2 R2 W2) as (E2 & _).
    rewrite E2, E1. rewrite !cleared_streak. rewrite S1, cleared_streak, Hwake, Hcold.
    change (negb ("Deep-Sleep Wake" =? "Deep-Sleep Wake")%string) with false.
    cbn [andb]. destruct (_ && _); split; reflexivity.
  - now apply rp2040_two_failures.
Qed.

Lemma join_failure_backs_off_witness :
  let r1 := ESP32.setup 300 (-1116) failing_world (ESP32.power_on [] []) in
  let r2 := ESP32.setup 300 (-1116) failing_world (final r1) in
  sleep_requests (log r1) = [60000000] /\ sleep_requests (log r2) = [120000000].
Proof.
  refine (proj1 (proj2 (proj2 (proj2
    (join_failure_backs_off 300 (-1116) 4
       failing_world failing_world failing_world failing_world_awake
       (-1) (-1) [] []
       (ESP32.power_on [] []) (RP2040.Machine 0 0 0 [] []) (RP2040.Machine 0 0 0 [] [])
       (ESP8266.Machine 1 0 [] 0 0 [] []) (ESP8266.Machine 1 0 [] 0 0 [] [])
       [] [] _ _ _ _ _ _ _ _ _ _))))).
  all: try reflexivity.
  all: unfold RADIOLIB_ERR_NONE; lia.
Defined.

(** ** The durable store *)

Lemma not_quiet_prepend (t1 t2 : trace) :
  quiet t1 = false -> quiet (t1 ++ t2) = false.
Proof. intros H. now rewrite quiet_app, H. Qed.

Section Store_frames.
Variable uplinkIntervalSeconds no_downlink : Z.
Variable SESSION_BUF_SIZE : nat.
Variable w : world.

Lemma esp32_loop_store (joins : list (Z * buffer)) :
  forall state m,
    quiet (log (ESP32.join_loop w joins state m)) = true ->
    ESP32.store (final (ESP32.join_loop w joins state m)) = ESP32.store m.
Proof.
  induction joins as [|[state' persist] joins IH]; intros state m.
  - cbn. destruct (state =? RADIOLIB_ERR_NONE); reflexivity.
  - destruct (Z.eq_dec state RADIOLIB_ERR_NONE) as [->|Hs].
    + rewrite esp32_loop_done. reflexivity.
    + destruct (Z_lt_le_dec state' RADIOLIB_ERR_NONE) as [Hf|Hf].
      * rewrite esp32_loop_failed by assumption.
        rewrite esp32_join_failed_run, esp32_gotoSleep_run. reflexivity.
      * rewrite esp32_loop_accepted by assumption. cbn. discriminate.
Qed.

Lemma esp32_setup_store (m : ESP32.machine) :
  let r := ESP32.setup uplinkIntervalSeconds no_downlink w m in
  quiet (log r) = true -> ESP32.store (final r) = ESP32.store m.
Proof.
  cbv zeta. unfold ESP32.setup, ESP32.print_wakeup_reason.
  rewrite bind_emit, bind_modify. set (m1 := ESP32.set_bootCount _ m).
  change (ESP32.store m) with (ESP32.store m1).
  unfold prepend at 1. cbn [log final].
  change (quiet ([delay 2000] ++ ?t)) with (quiet t).
  rewrite bind_run, esp32_restore_ctl, esp32_restore_final.
  destruct (w_radio_begin w =? RADIOLIB_ERR_NONE); [|reflexivity].
  rewrite bind_run. unfold prepend. cbn [log final].
  destruct (ctl (ESP32.join_loop w (w_joins w) (w_resume w) m1)) eqn:E;
    cbn [log final]; rewrite !quiet_app; intros H;
    apply andb_prop in H; destruct H as [_ H].
  - apply andb_prop in H. destruct H as [H _].
    rewrite esp32_uplink_run, esp32_gotoSleep_run. cbn [prepend final].
    now apply esp32_loop_store.
  - now apply esp32_loop_store.
Qed.

Lemma rp2040_loop_store (joins : list (Z * buffer)) :
  forall state m,
    quiet (log (RP2040.join_loop w joins state m)) = true ->
    RP2040.store (final (RP2040.join_loop w joins state m)) = RP2040.store m.
Proof.
  induction joins as [|[state' persist] joins IH]; intros state m.
  - cbn. destruct (state =? RADIOLIB_ERR_NONE); reflexivity.
  - destruct (Z.eq_dec state RADIOLIB_ERR_NONE) as [->|Hs].
    + rewrite rp2040_loop_done. reflexivity.
    + destruct (Z_lt_le_dec state' RADIOLIB_ERR_NONE) as [Hf|Hf].
      * rewrite rp2040_loop_failed by assumption. cbv zeta.
        destruct (w_sleep_returns w); [|reflexivity].
        unfold prepend. cbn [log final app]. intros H. cbn in H.
        now rewrite IH.
      * rewrite rp2040_loop_accepted by assumption. cbn. discriminate.
Qed.

Lemma rp2040_setup_store (m : RP2040.machine) :
  let r := RP2040.setup uplinkIntervalSeconds no_downlink w m in
  quiet (log r) = true -> RP2040.store (final r) = RP2040.store m.
Proof.
  cbv zeta.
  destruct (rp2040_setup_run uplinkIntervalSeconds no_downlink w m) as [-> ->].
  cbv zeta. rewrite rp2040_load_bootCount_run. cbn [final].
  set (m1 := if uint16_t (RP2040.scratch1 m) =? 0 then _ else _).
  assert (E : RP2040.store m1 = RP2040.store m)
    by (unfold m1; destruct (uint16_t (RP2040.scratch1 m) =? 0); reflexivity).
  rewrite <- E.
  change (quiet (delay 2000 :: sleep_us 64 :: ?t)) with (quiet t).
  destruct (w_radio_begin w =? RADIOLIB_ERR_NONE); [|reflexivity].
  rewrite !quiet_app. intros H.
  apply andb_prop in H. destruct H as [_ H].
  apply andb_prop in H. destruct H as [H _].
  destruct (ctl _).
  - rewrite rp2040_uplink_run. cbn [final]. now apply rp2040_loop_store.
  - now apply rp2040_loop_store.
Qed.

Lemma esp8266_loop_store (joins : list (Z * buffer)) :
  forall state m,
    quiet (log (ESP8266.join_loop w joins state m)) = true ->
    ESP8266.EEPROM (final (ESP8266.join_loop w joins state m)) = ESP8266.EEPROM m.
Proof.
  induction joins as [|[state' persist] joins IH]; intros state m.
  - cbn. destruct (state =? RADIOLIB_ERR_NONE); reflexivity.
  - destruct (Z.eq_dec state RADIOLIB_ERR_NONE) as [->|Hs].
    + rewrite esp8266_loop_done. reflexivity.
    + destruct (Z_lt_le_dec state' RADIOLIB_ERR_NONE) as [Hf|Hf].
      * rewrite esp8266_loop_failed by assumption.
        rewrite esp8266_join_failed_run, esp8266_gotoSleep_run. cbn [final].
        intros _. unfold saved_counts.
        destruct (w_rtc_write_ok w 0), (w_rtc_write_ok w 4); reflexivity.
      * rewrite esp8266_loop_accepted by assumption. cbn. discriminate.
Qed.

Lemma esp8266_after_recall_store (m : ESP8266.machine) :
  let r := after_recall uplinkIntervalSeconds no_downlink w m in
  quiet (log r) = true -> ESP8266.EEPROM (final r) = ESP8266.EEPROM m.
Proof.
  cbv zeta. unfold after_recall.
  rewrite bind_run, esp8266_restore_ctl, esp8266_restore_final.
  destruct (w_radio_begin w =? RADIOLIB_ERR_NONE); [|reflexivity].
  set (m1 := recalled_session w m).
  assert (E : ESP8266.EEPROM m1 = ESP8266.EEPROM m)
    by (unfold m1, recalled_session; destruct (w_rtc_read_ok w 8); reflexivity).
  rewrite <- E.
  rewrite bind_run. unfold prepend. cbn [log final].
  destruct (ctl (ESP8266.join_loop w (w_joins w) (w_resume w) m1)) eqn:C;
    cbn [log final]; rewrite !quiet_app; intros H;
    apply andb_prop in H; destruct H as [_ H].
  - apply andb_prop in H. destruct H as [H _].
    rewrite esp8266_uplink_run, esp8266_gotoSleep_run. cbn [prepend final].
    rewrite <- (esp8266_loop_store _ _ _ H). unfold saved_counts.
    destruct (w_rtc_write_ok w 0), (w_rtc_write_ok w 4), (w_rtc_write_ok w 8);
      reflexivity.
  - now apply esp8266_loop_store.
Qed.

Lemma esp8266_A_setup_store (m : ESP8266.machine) :
  let r := ESP8266.A.setup uplinkIntervalSeconds no_downlink w m in
  quiet (log r) = true -> ESP8266.EEPROM (final r) = ESP8266.EEPROM m.
Proof.
  cbv zeta. rewrite esp8266_A_setup_run. unfold prepend. cbn [log final].
  rewrite quiet_app. intros H. apply andb_prop in H. destruct H as [_ H].
  rewrite esp8266_after_recall_store by exact H.
  unfold recalled_counts.
  destruct (w_rtc_read_ok w 0), (w_rtc_read_ok w 4); reflexivity.
Qed.

Lemma esp8266_B_setup_store (m : ESP8266.machine) :
  let r := ESP8266.B.setup uplinkIntervalSeconds no_downlink SESSION_BUF_SIZE w m in
  quiet (log r) = true -> ESP8266.EEPROM (final r) = ESP8266.EEPROM m.
Proof.
  cbv zeta. rewrite esp8266_B_setup_run. unfold prepend. cbn [log final].
  rewrite quiet_app. intros H. apply andb_prop in H. destruct H as [_ H].
  rewrite esp8266_after_recall_store by exact H.
  unfold recalled_counts, cleared.
  destruct (w_rtc_read_ok w 0), (w_rtc_read_ok w 4), (_ && _); reflexivity.
Qed.
End Store_frames.

(** C3 (as amended): in every boot of every sketch a write of NonceState
    to the durable store comes immediately after a fresh join whose
    state is not below [RADIOLIB_ERR_NONE], that is success or a
    positive state; a boot without such a write (restore steps, failed
    joins, uplink and sleep only) leaves the stored nonces as they
    were. *)
Theorem nonces_written_only_after_join
        (uplinkIntervalSeconds no_downlink : Z) (SESSION_BUF_SIZE : nat) (w : world)
        (m32 : ESP32.machine) (mrp : RP2040.machine) (m82 : ESP8266.machine) :
  let r32 := ESP32.setup uplinkIntervalSeconds no_downlink w m32 in
  let rrp := RP2040.setup uplinkIntervalSeconds no_downlink w mrp in
  let rA := ESP8266.A.setup uplinkIntervalSeconds no_downlink w m82 in
  let rB := ESP8266.B.setup uplinkIntervalSeconds no_downlink SESSION_BUF_SIZE w m82 in
  (nonces_follow_join (log r32) /\
   (quiet (log r32) = true -> ESP32.store (final r32) = ESP32.store m32)) /\
  (nonces_follow_join (log rrp) /\
   (quiet (log rrp) = true -> RP2040.store (final rrp) = RP2040.store mrp)) /\
  (nonces_follow_join (log rA) /\
   (quiet (log rA) = true -> ESP8266.EEPROM (final rA) = ESP8266.EEPROM m82)) /\
  (nonces_follow_join (log rB) /\
   (quiet (log rB) = true -> ESP8266.EEPROM (final rB) = ESP8266.EEPROM m82)).
Proof.
  cbv zeta. unfold nonces_follow_join.
  split; [|split; [|split]]; split.
  - apply well_placed_spec, esp32_setup_well_placed.
  - apply esp32_setup_store.
  - apply well_placed_spec, rp2040_setup_well_placed.
  - apply rp2040_setup_store.
  - apply well_placed_spec, esp8266_A_setup_well_placed.
  - apply esp8266_A_setup_store.
  - apply well_placed_spec, esp8266_B_setup_well_placed.
  - apply esp8266_B_setup_store.
Qed.

Lemma nonces_written_only_after_join_witness :
  exists before' state,
    [delay 2000; radio_begin 0; setBufferSession [] (-1); beginOTAA false (-1);
     beginOTAA true 0]
    = before' ++ [beginOTAA true state] /\ RADIOLIB_ERR_NONE <= state.
Proof.
  apply (proj1 (proj1 (nonces_written_only_after_join 300 (-1116) 4 joining_world
                         (ESP32.power_on [] []) (RP2040.Machine 0 0 0 [] [])
                         (ESP8266.Machine 1 0 [] 0 0 [] [])))
           _ [Byte.x01]
           [delay 1000; sendReceive 0; saveSession [Byte.x02];
            esp_sleep_enable_timer_wakeup 300000000; esp_deep_sleep_start]).
  reflexivity.
Defined.

(** A fresh join that answers 1 has not reported success, the loop goes
    on asking, and yet the nonces are written: on the ESP32 to the flash
    store, in the second ESP8266 sketch to EEPROM. *)
Lemma nonces_written_after_positive_state :
  let r32 := ESP32.setup 300 (-1116) positive_world (ESP32.power_on [] []) in
  let r82 := ESP8266.B.boot 300 (-1116) 4 positive_world
               (ESP8266.Machine 1 0 [] 0 0 [] []) in
  log r32 = [delay 2000; radio_begin 0; setBufferSession [] (-1); beginOTAA false (-1);
             beginOTAA true 1; putNonces [Byte.x01]; delay 1000] /\
  ctl r32 = Stop AwaitingJoin /\
  Preferences.getBytes "nonces" (ESP32.store (ESP32.power_on [] [])) = [] /\
  Preferences.getBytes "nonces" (ESP32.store (final r32)) = [Byte.x01] /\
  existsb (fun e => match e with
                    | beginOTAA _ state => state =? RADIOLIB_ERR_NONE
                    | _ => false
                    end) (log r82) = false /\
  last_nonces (log r82) = Some [Byte.x01] /\
  ESP8266.EEPROM (final r82) = [Byte.x01].
Proof. cbv zeta. repeat split. Qed.

(** ** The failed-join streak *)

Section Streak.
Variable uplinkIntervalSeconds no_downlink : Z.
Variable w : world.

Lemma esp32_streak (state failed accepted : Z) (persist : buffer) (m : ESP32.machine) :
  state <> RADIOLIB_ERR_NONE -> failed < RADIOLIB_ERR_NONE ->
  RADIOLIB_ERR_NONE <= accepted ->
  ESP32.bootCountSinceUnsuccessfulJoin
    (final (ESP32.join_loop w [(accepted, persist)] state m)) = 0 /\
  ESP32.bootCountSinceUnsuccessfulJoin
    (final (ESP32.join_loop w [(failed, persist)] state m)) =
    uint16_t (ESP32.bootCountSinceUnsuccessfulJoin m + 1) /\
  ESP32.bootCountSinceUnsuccessfulJoin (final (ESP32.restore w m)) =
    ESP32.bootCountSinceUnsuccessfulJoin m /\
  ESP32.bootCountSinceUnsuccessfulJoin
    (final (ESP32.uplink uplinkIntervalSeconds no_downlink w m)) =
    ESP32.bootCountSinceUnsuccessfulJoin m.
Proof.
  intros Hs Hf Ha. repeat split.
  - rewrite esp32_loop_accepted by assumption. cbn [prepend final ESP32.join_loop].
    destruct (accepted =? RADIOLIB_ERR_NONE); reflexivity.
  - rewrite esp32_loop_failed by assumption.
    rewrite esp32_join_failed_run, esp32_gotoSleep_run. reflexivity.
  - now rewrite esp32_restore_final.
  - rewrite esp32_uplink_run, esp32_gotoSleep_run. reflexivity.
Qed.

Lemma rp2040_streak (state failed accepted : Z) (persist : buffer) (m : RP2040.machine) :
  state <> RADIOLIB_ERR_NONE -> failed < RADIOLIB_ERR_NONE ->
  RADIOLIB_ERR_NONE <= accepted ->
  RP2040.bootCountSinceUnsuccessfulJoin
    (final (RP2040.join_loop w [(accepted, persist)] state m)) = 0 /\
  RP2040.bootCountSinceUnsuccessfulJoin
    (final (RP2040.join_loop w [(failed, persist)] state m)) =
    uint16_t (RP2040.bootCountSinceUnsuccessfulJoin m + 1) /\
  RP2040.bootCountSinceUnsuccessfulJoin (final (RP2040.restore w m)) =
    RP2040.bootCountSinceUnsuccessfulJoin m /\
  RP2040.bootCountSinceUnsuccessfulJoin
    (final (RP2040.uplink uplinkIntervalSeconds no_downlink w m)) =
    RP2040.bootCountSinceUnsuccessfulJoin m.
Proof.
  intros Hs Hf Ha. repeat split.
  - rewrite rp2040_loop_accepted by assumption. cbn [prepend final RP2040.join_loop].
    destruct (accepted =? RADIOLIB_ERR_NONE); reflexivity.
  - rewrite rp2040_loop_failed by assumption. cbv zeta.
    assert (E : (failed =? RADIOLIB_ERR_NONE) = false)
      by (apply Z.eqb_neq; unfold RADIOLIB_ERR_NONE in *; lia).
    destruct (w_sleep_returns w); cbn [prepend final RP2040.join_loop]; rewrite ?E;
      reflexivity.
  - now rewrite rp2040_restore_final.
  - rewrite rp2040_uplink_run. reflexivity.
Qed.

Lemma esp8266_streak (state failed accepted : Z) (persist : buffer) (m : ESP8266.machine) :
  state <> RADIOLIB_ERR_NONE -> failed < RADIOLIB_ERR_NONE ->
  RADIOLIB_ERR_NONE <= accepted ->
  ESP8266.bootCountSinceUnsuccessfulJoin
    (final (ESP8266.join_loop w [(accepted, persist)] state m)) = 0 /\
  ESP8266.bootCountSinceUnsuccessfulJoin
    (final (ESP8266.join_loop w [(failed, persist)] state m)) =
    uint32_t (ESP8266.bootCountSinceUnsuccessfulJoin m + 1) /\
  ESP8266.bootCountSinceUnsuccessfulJoin (final (ESP8266.restore w m)) =
    ESP8266.bootCountSinceUnsuccessfulJoin m /\
  ESP8266.bootCountSinceUnsuccessfulJoin
    (final (ESP8266.uplink w uplinkIntervalSeconds no_downlink m)) =
    ESP8266.bootCountSinceUnsuccessfulJoin m.
Proof.
  intros Hs Hf Ha. repeat split.
  - rewrite esp8266_loop_accepted by assumption. cbn [prepend final ESP8266.join_loop].
    destruct (accepted =? RADIOLIB_ERR_NONE); reflexivity.
  - rewrite esp8266_loop_failed by assumption.
    rewrite esp8266_join_failed_run, esp8266_gotoSleep_run. cbn [final].
    unfold saved_counts. destruct (w_rtc_write_ok w 0), (w_rtc_write_ok w 4); reflexivity.
  - rewrite esp8266_restore_final. unfold recalled_session.
    destruct (w_radio_begin w =? RADIOLIB_ERR_NONE), (w_rtc_read_ok w 8); reflexivity.
  - rewrite esp8266_uplink_run, esp8266_gotoSleep_run. cbn [prepend final].
    unfold saved_counts.
    destruct (w_rtc_write_ok w 0), (w_rtc_write_ok w 4), (w_rtc_write_ok w 8); reflexivity.
Qed.
End Streak.

Lemma wrap_succ (M s : Z) : 1 < M -> ((s + 1) mod M = 0 <-> s mod M = M - 1).
Proof.
  intros H. pose proof (Z.mod_pos_bound s M ltac:(lia)) as B.
  rewrite <- (Zplus_mod_idemp_l s 1 M).
  destruct (Z.eq_dec (s mod M) (M - 1)) as [E|E].
  - rewrite E. replace (M - 1 + 1) with M by lia. rewrite Z_mod_same_full. tauto.
  - rewrite Z.mod_small by lia. lia.
Qed.

(** C4 (as amended): for every prior value of the streak, a fresh join
    taken by the success branch (state not below [RADIOLIB_ERR_NONE])
    leaves it at exactly 0.  Of the other operations, the restore
    steps, the uplink, the sleep and the printing of the wake-up reason
    leave it unchanged; a failed join sets it to the prior value plus
    one modulo the width of its type, which is 0 exactly when the prior
    value was the largest of the type; and the load at the start of a
    boot sets it to 0 on the RP2040 exactly when the scratch register
    reads 0, and on the ESP8266 gives it the RTC copy at address 4, or
    the initialiser 0 when that read fails, the second sketch zeroing
    the RTC copy first when the reset reason is not "Deep-Sleep Wake"
    and the write succeeds.  On the ESP32 the streak is 0 after a loss
    of power. *)
Theorem failed_join_streak_changes
        (uplinkIntervalSeconds no_downlink seconds : Z) (SESSION_BUF_SIZE : nat)
        (w : world) (state failed accepted : Z) (persist session : buffer)
        (flash : Preferences.t)
        (m32 : ESP32.machine) (mrp : RP2040.machine) (m82 : ESP8266.machine) :
  state <> RADIOLIB_ERR_NONE -> failed < RADIOLIB_ERR_NONE ->
  RADIOLIB_ERR_NONE <= accepted ->
  let s32 := ESP32.bootCountSinceUnsuccessfulJoin in
  let srp := RP2040.bootCountSinceUnsuccessfulJoin in
  let s82 := ESP8266.bootCountSinceUnsuccessfulJoin in
  (s32 (final (ESP32.join_loop w [(accepted, persist)] state m32)) = 0 /\
   s32 (final (ESP32.join_loop w [(failed, persist)] state m32)) =
     uint16_t (s32 m32 + 1) /\
   (uint16_t (s32 m32 + 1) = 0 <-> uint16_t (s32 m32) = 65535) /\
   s32 (final (ESP32.print_wakeup_reason m32)) = s32 m32 /\
   s32 (final (ESP32.restore w m32)) = s32 m32 /\
   s32 (final (ESP32.uplink uplinkIntervalSeconds no_downlink w m32)) = s32 m32 /\
   s32 (final (ESP32.gotoSleep w seconds m32)) = s32 m32 /\
   s32 (ESP32.power_on session flash) = 0) /\
  (srp (final (RP2040.join_loop w [(accepted, persist)] state mrp)) = 0 /\
   srp (final (RP2040.join_loop w [(failed, persist)] state mrp)) =
     uint16_t (srp mrp + 1) /\
   (uint16_t (srp mrp + 1) = 0 <-> uint16_t (srp mrp) = 65535) /\
   srp (final (RP2040.load_bootCount mrp)) =
     (if uint16_t (RP2040.scratch1 mrp) =? 0 then 0 else srp mrp) /\
   srp (final (RP2040.restore w mrp)) = srp mrp /\
   srp (final (RP2040.uplink uplinkIntervalSeconds no_downlink w mrp)) = srp mrp /\
   srp (final (RP2040.gotoSleep w seconds mrp)) = srp mrp) /\
  (s82 (final (ESP8266.join_loop w [(accepted, persist)] state m82)) = 0 /\
   s82 (final (ESP8266.join_loop w [(failed, persist)] state m82)) =
     uint32_t (s82 m82 + 1) /\
   (uint32_t (s82 m82 + 1) = 0 <-> uint32_t (s82 m82) = 2 ^ 32 - 1) /\
   s82 (final (ESP8266.recall_boot_counts w (ESP8266.reset SESSION_BUF_SIZE m82))) =
     (if w_rtc_read_ok w 4 then ESP8266.rtc4 m82 else 0) /\
   s82 (final (ESP8266.recall_boot_counts w
                 (final (ESP8266.B.print_wakeup_reason SESSION_BUF_SIZE w
                           (ESP8266.reset SESSION_BUF_SIZE m82))))) =
     (if w_rtc_read_ok w 4
      then if negb (String.eqb (w_getResetReason w) "Deep-Sleep Wake")
              && w_rtc_write_ok w 0
           then 0 else ESP8266.rtc4 m82
      else 0) /\
   s82 (final (ESP8266.A.print_wakeup_reason m82)) = s82 m82 /\
   s82 (final (ESP8266.restore w m82)) = s82 m82 /\
   s82 (final (ESP8266.uplink w uplinkIntervalSeconds no_downlink m82)) = s82 m82 /\
   s82 (final (ESP8266.gotoSleep w seconds m82)) = s82 m82 /\
   ESP8266.rtc4 (final (ESP8266.gotoSleep w seconds m82)) =
     (if w_rtc_write_ok w 4 then s82 m82 else ESP8266.rtc4 m82)).
Proof.
  intros Hs Hf Ha. cbv zeta.
  destruct (esp32_streak uplinkIntervalSeconds no_downlink w state failed accepted
              persist m32 Hs Hf Ha) as (A1 & A2 & A3 & A4).
  destruct (rp2040_streak uplinkIntervalSeconds no_downlink w state failed accepted
              persist mrp Hs Hf Ha) as (B1 & B2 & B3 & B4).
  destruct (esp8266_streak uplinkIntervalSeconds no_downlink w state failed accepted
              persist m82 Hs Hf Ha) as (C1 & C2 & C3 & C4).
  split; [|split].
  - rewrite A1, A2, A3, A4, esp32_gotoSleep_run.
    repeat split; try reflexivity; apply (wrap_succ (2 ^ 16)); lia.
  - rewrite B1, B2, B3, B4, rp2040_gotoSleep_run, rp2040_load_bootCount_run.
    cbn [final]. repeat split; try reflexivity; try (apply (wrap_succ (2 ^ 16)); lia).
    destruct (uint16_t (RP2040.scratch1 mrp) =? 0); reflexivity.
  - rewrite C1, C2, C3, C4, esp8266_gotoSleep_run, !esp8266_recall_boot_counts_run.
    rewrite (esp8266_B_print_wakeup_reason_run SESSION_BUF_SIZE).
    cbn [final]. unfold recalled_counts, cleared, saved_counts.
    repeat split; try reflexivity; try (apply (wrap_succ (2 ^ 32)); lia).
    + destruct (w_rtc_read_ok w 0), (w_rtc_read_ok w 4); reflexivity.
    + destruct (w_rtc_read_ok w 0), (w_rtc_read_ok w 4), (negb _ && _); reflexivity.
    + destruct (w_rtc_write_ok w 0), (w_rtc_write_ok w 4); reflexivity.
    + destruct (w_rtc_write_ok w 0), (w_rtc_write_ok w 4); reflexivity.
Qed.

Lemma failed_join_streak_changes_witness :
  ESP32.bootCountSinceUnsuccessfulJoin
    (final (ESP32.join_loop failing_world [(0, [])] (-1) (ESP32.Machine 5 65535 [] []))) = 0 /\
  ESP32.bootCountSinceUnsuccessfulJoin
    (final (ESP32.join_loop failing_world [(-1, [])] (-1) (ESP32.Machine 5 3 [] []))) = 4 /\
  ESP8266.bootCountSinceUnsuccessfulJoin
    (final (ESP8266.recall_boot_counts failing_world
              (ESP8266.reset 4 (ESP8266.Machine 1 0 [] 5 17 [] [])))) = 17.
Proof.
  assert (H1 : -1 <> RADIOLIB_ERR_NONE) by (unfold RADIOLIB_ERR_NONE; lia).
  assert (H2 : -1 < RADIOLIB_ERR_NONE) by (unfold RADIOLIB_ERR_NONE; lia).
  assert (H3 : RADIOLIB_ERR_NONE <= 0) by (unfold RADIOLIB_ERR_NONE; lia).
  pose proof (failed_join_streak_changes 300 (-1116) 60 4 failing_world (-1) (-1) 0 [] [] []
                (ESP32.Machine 5 65535 [] []) (RP2040.Machine 5 5 3 [] [])
                (ESP8266.Machine 1 0 [] 5 17 [] []) H1 H2 H3) as Ha.
  pose proof (failed_join_streak_changes 300 (-1116) 60 4 failing_world (-1) (-1) 0 [] [] []
                (ESP32.Machine 5 3 [] []) (RP2040.Machine 5 5 3 [] [])
                (ESP8266.Machine 1 0 [] 5 17 [] []) H1 H2 H3) as Hb.
  cbv zeta in Ha, Hb.
  destruct Ha as ((A1 & _) & _ & (_ & _ & _ & A4 & _)).
  destruct Hb as ((_ & B2 & _) & _).
  split; [exact A1|]. split; [exact B2 | exact A4].
Defined.

(** The streak becomes 0 without any join being accepted.  On the ESP32
    a failed join at the largest 16-bit streak wraps it to 0.  In the
    first ESP8266 sketch a boot that cannot read RTC memory starts from
    0 whatever was stored, sleeps for 60 seconds after a failed join and
    stores 1 over the 17 it found; the second sketch does the same after
    an external reset, by clearing RTC memory.  And a boot of the first
    sketch that finds 17 in RTC memory, as after a loss of power, does
    not start from 0: it sleeps for 180 seconds and stores 18. *)
Lemma streak_zeroed_without_join :
  let m32 := ESP32.Machine 5 65535 [] [] in
  let r32 := ESP32.join_loop failing_world [(-1, [])] (-1) m32 in
  let m82 := ESP8266.Machine 1 0 [] 5 17 [] [] in
  let rA := ESP8266.A.boot 300 (-1116) 4 unreadable_rtc_world m82 in
  let rB := ESP8266.B.boot 300 (-1116) 4 external_reset_world m82 in
  let rA' := ESP8266.A.boot 300 (-1116) 4 cold_world m82 in
  (log r32 = [beginOTAA true (-1); esp_sleep_enable_timer_wakeup 180000000;
              esp_deep_sleep_start] /\
   ESP32.bootCountSinceUnsuccessfulJoin m32 = 65535 /\
   ESP32.bootCountSinceUnsuccessfulJoin (final r32) = 0) /\
  (ESP8266.bootCountSinceUnsuccessfulJoin
     (final (ESP8266.recall_boot_counts unreadable_rtc_world (ESP8266.reset 4 m82))) = 0 /\
   quiet (log rA) = true /\ sleep_requests (log rA) = [60000000] /\
   ESP8266.rtc4 (final rA) = 1) /\
  (ESP8266.rtc4
     (final (ESP8266.B.print_wakeup_reason 4 external_reset_world (ESP8266.reset 4 m82)))
   = 0 /\
   quiet (log rB) = true /\ sleep_requests (log rB) = [60000000] /\
   ESP8266.rtc4 (final rB) = 1) /\
  (sleep_requests (log rA') = [180000000] /\ ESP8266.rtc4 (final rA') = 18).
Proof. cbv zeta. repeat split. Qed.

(** ** The boot counter *)

(** On the ESP32 [print_wakeup_reason] increments the boot counter once
    in every boot, and nothing else changes it. *)
Lemma esp32_setup_bootCount (uplinkIntervalSeconds no_downlink : Z) (w : world)
      (m : ESP32.machine) :
  ESP32.bootCount (final (ESP32.setup uplinkIntervalSeconds no_downlink w m)) =
  uint16_t (ESP32.bootCount m + 1).
Proof.
  unfold ESP32.setup, ESP32.print_wakeup_reason.
  rewrite bind_emit, bind_modify. set (m1 := ESP32.set_bootCount _ m).
  unfold prepend at 1. cbn [final].
  change (uint16_t (ESP32.bootCount m + 1)) with (ESP32.bootCount m1).
  rewrite bind_final, esp32_restore_ctl, esp32_restore_final.
  destruct (w_radio_begin w =? RADIOLIB_ERR_NONE); [|reflexivity].
  rewrite bind_final.
  destruct (esp32_loop_frame w (w_joins w) (w_resume w) m1) as [Hb _].
  destruct (ctl _); [|exact Hb].
  rewrite esp32_uplink_run, esp32_gotoSleep_run. cbn [prepend final]. exact Hb.
Qed.

(** C5 (the RP2040 sketch): a warm boot that finds 1 in the watchdog
    scratch register, the value stored by the first boot, ends with the
    boot counter still 1 and with 1 in the scratch register, whatever
    the radio answers; the counter is never incremented. *)
Theorem rp2040_bootCount_stays
        (uplinkIntervalSeconds no_downlink : Z) (w : world)
        (streak : Z) (session : buffer) (flash : Preferences.t) :
  let r := RP2040.setup uplinkIntervalSeconds no_downlink w
             (RP2040.Machine 0 1 streak session flash) in
  RP2040.bootCount (final r) = 1 /\ RP2040.scratch1 (final r) = 1.
Proof.
  cbv zeta.
  destruct (rp2040_setup_bootCount uplinkIntervalSeconds no_downlink w
              (RP2040.Machine 0 1 streak session flash)) as [Hb Hs].
  cbv zeta in Hb, Hs. split; [exact Hb|].
  destruct Hs as [Hs|Hs]; exact Hs.
Qed.

(** ** Reports of the restore steps *)

(** C6 (as amended): once the radio has started, a failure of the session
    buffer restore or of the session resumption is reported exactly when
    the boot counter is above 2, on every target, and so is a failure of
    the nonce buffer restore on the ESP8266; on the ESP32 and the RP2040
    the nonce buffer is restored only when the key exists, and a failure
    of that restore is reported whatever the boot counter is.  None of
    these failures stops the boot. *)
Theorem restore_failures_reported
        (w : world) (m32 : ESP32.machine) (mrp : RP2040.machine) (m82 : ESP8266.machine) :
  w_radio_begin w = RADIOLIB_ERR_NONE ->
  (reported "Restoring nonces buffer failed" (log (ESP32.restore w m32)) =
     Preferences.isKey "nonces" (ESP32.store m32)
     && negb (w_setBufferNonces w (Preferences.getBytes "nonces" (ESP32.store m32))
              =? RADIOLIB_ERR_NONE) /\
   reported "Restoring session buffer failed" (log (ESP32.restore w m32)) =
     negb (w_setBufferSession w (ESP32.LWsession m32) =? RADIOLIB_ERR_NONE)
     && (2 <? ESP32.bootCount m32) /\
   reported "Restore session failed" (log (ESP32.restore w m32)) =
     negb (w_resume w =? RADIOLIB_ERR_NONE) && (2 <? ESP32.bootCount m32) /\
   ctl (ESP32.restore w m32) = Next (w_resume w)) /\
  (reported "Restoring nonces buffer failed" (log (RP2040.restore w mrp)) =
     Preferences.isKey "nonces" (RP2040.store mrp)
     && negb (w_setBufferNonces w (Preferences.getBytes "nonces" (RP2040.store mrp))
              =? RADIOLIB_ERR_NONE) /\
   reported "Restoring session buffer failed" (log (RP2040.restore w mrp)) =
     negb (w_setBufferSession w (RP2040.LWsession mrp) =? RADIOLIB_ERR_NONE)
     && (2 <? RP2040.bootCount mrp) /\
   reported "Restore session failed" (log (RP2040.restore w mrp)) =
     negb (w_resume w =? RADIOLIB_ERR_NONE) && (2 <? RP2040.bootCount mrp) /\
   ctl (RP2040.restore w mrp) = Next (w_resume w)) /\
  (reported "Restoring nonces buffer failed" (log (ESP8266.restore w m82)) =
     negb (w_setBufferNonces w (ESP8266.EEPROM m82) =? RADIOLIB_ERR_NONE)
     && (2 <? ESP8266.bootCount m82) /\
   reported "Restoring session buffer failed" (log (ESP8266.restore w m82)) =
     negb (w_setBufferSession w (ESP8266.LWsession (recalled_session w m82))
           =? RADIOLIB_ERR_NONE)
     && (2 <? ESP8266.bootCount m82) /\
   reported "Restore session failed" (log (ESP8266.restore w m82)) =
     negb (w_resume w =? RADIOLIB_ERR_NONE) && (2 <? ESP8266.bootCount m82) /\
   ctl (ESP8266.restore w m82) = Next (w_resume w)).
Proof.
  intros H.
  destruct (esp32_restore_reports w m32 H) as (A1 & A2 & A3).
  destruct (rp2040_restore_reports w mrp H) as (B1 & B2 & B3).
  destruct (esp8266_restore_reports w m82 H) as (C1 & C2 & C3).
  rewrite esp32_restore_ctl, rp2040_restore_ctl, esp8266_restore_ctl, H.
  change (RADIOLIB_ERR_NONE =? RADIOLIB_ERR_NONE) with true. cbv iota.
  repeat split; assumption.
Qed.

Lemma restore_failures_reported_witness :
  reported "Restoring session buffer failed"
    (log (ESP32.restore joining_world (ESP32.Machine 2 0 [] []))) = false /\
  reported "Restoring session buffer failed"
    (log (ESP32.restore joining_world (ESP32.Machine 3 0 [] []))) = true.
Proof.
  split.
  - exact (proj1 (proj2 (proj1
      (restore_failures_reported joining_world (ESP32.Machine 2 0 [] [])
         (RP2040.Machine 2 2 0 [] []) (ESP8266.Machine 2 0 [] 2 0 [] []) eq_refl)))).
  - exact (proj1 (proj2 (proj1
      (restore_failures_reported joining_world (ESP32.Machine 3 0 [] [])
         (RP2040.Machine 3 3 0 [] []) (ESP8266.Machine 3 0 [] 3 0 [] []) eq_refl)))).
Defined.

(** The first boot of an ESP32 after a power loss, with nonces in flash
    that the radio rejects: the boot counter is 2 and the failure is
    reported all the same. *)
Lemma early_nonce_failure_reported :
  let m := ESP32.power_on [] [("nonces", [Byte.x01])] in
  let r := ESP32.setup 300 (-1116) joining_world m in
  ESP32.bootCount (final r) = 2 /\
  ESP32.bootCount (final r) <= 2 /\
  In (Report "Restoring nonces buffer failed" (-1)) (log r) /\
  reported "Restoring nonces buffer failed" (log r) = true.
Proof.
  cbv zeta. repeat split.
  - vm_compute. discriminate.
  - vm_compute. tauto.
Qed.

(** ** The uplink *)





(** With the session saved, the timer is programmed for the configured
    interval, in full while that interval is at most 4294 seconds. *)
Lemma uplink_sleeps_for_interval
      (uplinkIntervalSeconds no_downlink : Z) (w : world)
      (m32 : ESP32.machine) (mrp : RP2040.machine) (m82 : ESP8266.machine) :
  0 <= uplinkIntervalSeconds <= 4294 ->
  sleep_requests (log (ESP32.uplink uplinkIntervalSeconds no_downlink w m32)) =
    [uplinkIntervalSeconds * 1000000] /\
  sleep_requests (log (RP2040.uplink uplinkIntervalSeconds no_downlink w mrp)) =
    [uplinkIntervalSeconds * 1000000] /\
  sleep_requests (log (ESP8266.uplink w uplinkIntervalSeconds no_downlink m82)) =
    [uplinkIntervalSeconds * 1000000] /\
  ESP32.LWsession (final (ESP32.uplink uplinkIntervalSeconds no_downlink w m32)) =
    w_getBufferSession w /\
  RP2040.LWsession (final (RP2040.uplink uplinkIntervalSeconds no_downlink w mrp)) =
    w_getBufferSession w /\
  ESP8266.LWsession (final (ESP8266.uplink w uplinkIntervalSeconds no_downlink m82)) =
    w_getBufferSession w.
Proof.
  intros H.
  rewrite esp32_uplink_run, rp2040_uplink_run, esp8266_uplink_run.
  rewrite esp32_gotoSleep_run, esp8266_gotoSleep_run.
  rewrite (microseconds_exact _ H).
  unfold prepend, saved_counts, notice. cbn [log final].
  destruct (negb (w_sendReceive w =? no_downlink) && _), (w_sleep_returns w),
    (w_rtc_write_ok w 0), (w_rtc_write_ok w 4), (w_rtc_write_ok w 8);
    repeat split; reflexivity.
Qed.

(** ** The sleep operation *)

(** C8 (as amended): on the ESP32 and the ESP8266, when the deep-sleep
    call returns, [gotoSleep] waits 300000 ms, forces a restart and never
    hands control back to its caller.  On the RP2040 [gotoSleep] has no
    such path: when [pico_sleep] returns, which is what a wake-up does
    there, control goes back to the caller. *)
Theorem sleep_return_handling
        (w : world) (seconds : Z)
        (m32 : ESP32.machine) (mrp : RP2040.machine) (m82 : ESP8266.machine) :
  w_sleep_returns w = true ->
  ESP32.gotoSleep w seconds m32 =
    Run [esp_sleep_enable_timer_wakeup (microseconds seconds); esp_deep_sleep_start;
         Serial_println "### Sleep failed, delay of 5 minutes & then restart ###";
         delay (5 * 60 * 1000); restart]
        m32 (Stop Restarted) /\
  (exists before,
      log (ESP8266.gotoSleep w seconds m82) =
      before ++ [ESP_deepSleep (microseconds seconds);
                 Serial_println "### Sleep failed, delay of 5 minutes & then restart ###";
                 delay (5 * 60 * 1000); restart]) /\
  ctl (ESP8266.gotoSleep w seconds m82) = Stop Restarted /\
  RP2040.gotoSleep w seconds mrp =
    Run [delay 100; pico_sleep seconds]
        (RP2040.set_scratch1 (RP2040.bootCount mrp) mrp) (Next tt).
Proof.
  intros H.
  rewrite esp32_gotoSleep_run, esp8266_gotoSleep_run, rp2040_gotoSleep_run, H.
  cbn [log ctl]. repeat split.
  eexists (rtcUserMemoryWrite 0 _ :: notice _ _ ++ rtcUserMemoryWrite 4 _ :: notice _ _).
  cbn [app]. rewrite <- app_assoc. reflexivity.
Qed.

Lemma sleep_return_handling_witness :
  ctl (ESP8266.gotoSleep failing_world_awake 60 (ESP8266.Machine 2 1 [] 0 0 [] []))
  = Stop Restarted.
Proof.
  exact (proj1 (proj2 (proj2
    (sleep_return_handling failing_world_awake 60 (ESP32.Machine 2 1 [] [])
       (RP2040.Machine 1 1 1 [] []) (ESP8266.Machine 2 1 [] 0 0 [] []) eq_refl)))).
Defined.

(** On the RP2040, when [pico_sleep] returns after a failed join,
    [gotoSleep] returns too: there is neither a delay of five minutes nor
    a restart, and the next thing the sketch does is another fresh join. *)
Lemma rp2040_sleep_returns_to_caller :
  let m := RP2040.Machine 1 1 0 [] [] in
  w_sleep_returns failing_world_awake = true /\
  RP2040.gotoSleep failing_world_awake 60 m =
    Run [delay 100; pico_sleep 60] m (Next tt) /\
  log (RP2040.join_loop failing_world_awake (w_joins failing_world_awake) (-1) m) =
    [beginOTAA true (-1); delay 100; pico_sleep 60;
     beginOTAA true (-2); delay 100; pico_sleep 120].
Proof. repeat split. Qed.

(** ** A fresh join with a positive state *)

(** C9: when a fresh join returns a state above [RADIOLIB_ERR_NONE], the
    loop saves the nonces to the durable store, resets the streak to 0
    and waits 1000 ms, and then, the loop condition still holding, goes
    on with the next fresh join.  After that pass the store answers the
    nonces of the join under the key "nonces" (the EEPROM holds them on
    the ESP8266) and the streak is 0, whatever they were before; with
    no further answer the loop is still waiting, and with one the next
    event is another [beginOTAA(..., true)]. *)
Theorem positive_join_state_loops
        (w : world) (state s s2 : Z) (persist persist2 : buffer)
        (joins : list (Z * buffer))
        (m32 : ESP32.machine) (mrp : RP2040.machine) (m82 : ESP8266.machine) :
  state <> RADIOLIB_ERR_NONE -> s > RADIOLIB_ERR_NONE ->
  let m32' := ESP32.set_bootCountSinceUnsuccessfulJoin 0
                (ESP32.set_store
                   (Preferences.putBytes "nonces" persist (ESP32.store m32)) m32) in
  let mrp' := RP2040.set_bootCountSinceUnsuccessfulJoin 0
                (RP2040.set_store
                   (Preferences.putBytes "nonces" persist (RP2040.store mrp)) mrp) in
  let m82' := ESP8266.set_bootCountSinceUnsuccessfulJoin 0
                (ESP8266.set_EEPROM persist m82) in
  let done := [beginOTAA true s; putNonces persist; delay 1000] in
  let r32 := ESP32.join_loop w [(s, persist)] state m32 in
  let rrp := RP2040.join_loop w [(s, persist)] state mrp in
  let r82 := ESP8266.join_loop w [(s, persist)] state m82 in
  (ESP32.join_loop w ((s, persist) :: joins) state m32 =
     prepend done (ESP32.join_loop w joins s m32') /\
   ESP32.join_loop w [] s m32' = Run [] m32' (Stop AwaitingJoin) /\
   (exists rest,
       log (ESP32.join_loop w ((s2, persist2) :: joins) s m32') =
       beginOTAA true s2 :: rest) /\
   log r32 = done /\ ctl r32 = Stop AwaitingJoin /\
   Preferences.isKey "nonces" (ESP32.store (final r32)) = true /\
   Preferences.getBytes "nonces" (ESP32.store (final r32)) = persist /\
   ESP32.bootCountSinceUnsuccessfulJoin (final r32) = 0 /\
   exists rest,
     log (ESP32.join_loop w ((s, persist) :: (s2, persist2) :: joins) state m32) =
     done ++ beginOTAA true s2 :: rest) /\
  (RP2040.join_loop w ((s, persist) :: joins) state mrp =
     prepend done (RP2040.join_loop w joins s mrp') /\
   RP2040.join_loop w [] s mrp' = Run [] mrp' (Stop AwaitingJoin) /\
   (exists rest,
       log (RP2040.join_loop w ((s2, persist2) :: joins) s mrp') =
       beginOTAA true s2 :: rest) /\
   log rrp = done /\ ctl rrp = Stop AwaitingJoin /\
   Preferences.isKey "nonces" (RP2040.store (final rrp)) = true /\
   Preferences.getBytes "nonces" (RP2040.store (final rrp)) = persist /\
   RP2040.bootCountSinceUnsuccessfulJoin (final rrp) = 0 /\
   exists rest,
     log (RP2040.join_loop w ((s, persist) :: (s2, persist2) :: joins) state mrp) =
     done ++ beginOTAA true s2 :: rest) /\
  (ESP8266.join_loop w ((s, persist) :: joins) state m82 =
     prepend done (ESP8266.join_loop w joins s m82') /\
   ESP8266.join_loop w [] s m82' = Run [] m82' (Stop AwaitingJoin) /\
   (exists rest,
       log (ESP8266.join_loop w ((s2, persist2) :: joins) s m82') =
       beginOTAA true s2 :: rest) /\
   log r82 = done /\ ctl r82 = Stop AwaitingJoin /\
   ESP8266.EEPROM (final r82) = persist /\
   ESP8266.bootCountSinceUnsuccessfulJoin (final r82) = 0 /\
   exists rest,
     log (ESP8266.join_loop w ((s, persist) :: (s2, persist2) :: joins) state m82) =
     done ++ beginOTAA true s2 :: rest).
Proof.
  intros Hs Hpos. cbv zeta.
  assert (Hs' : s <> RADIOLIB_ERR_NONE) by lia.
  assert (Hle : RADIOLIB_ERR_NONE <= s) by lia.
  assert (E : (s =? RADIOLIB_ERR_NONE) = false) by now apply Z.eqb_neq.
  split; [|split].
  - rewrite (esp32_loop_accepted w s persist joins state m32 Hs Hle),
      (esp32_loop_accepted w s persist [] state m32 Hs Hle),
      (esp32_loop_accepted w s persist ((s2, persist2) :: joins) state m32 Hs Hle).
    assert (W : forall m, ESP32.join_loop w [] s m = Run [] m (Stop AwaitingJoin))
      by (intros m; cbn; now rewrite E).
    assert (N : forall m, exists rest,
                 log (ESP32.join_loop w ((s2, persist2) :: joins) s m) =
                 beginOTAA true s2 :: rest).
    { intros m. cbn [ESP32.join_loop]. rewrite E, bind_log. cbn [emit log].
      eexists. reflexivity. }
    rewrite !W. unfold prepend. cbn [log final ctl app].
    repeat match goal with |- _ /\ _ => split end; try reflexivity; try apply N.
    destruct (N (ESP32.set_bootCountSinceUnsuccessfulJoin 0
                   (ESP32.set_store
                      (Preferences.putBytes "nonces" persist (ESP32.store m32)) m32)))
      as [rest ->].
    exists rest. reflexivity.
  - rewrite (rp2040_loop_accepted w s persist joins state mrp Hs Hle),
      (rp2040_loop_accepted w s persist [] state mrp Hs Hle),
      (rp2040_loop_accepted w s persist ((s2, persist2) :: joins) state mrp Hs Hle).
    assert (W : forall m, RP2040.join_loop w [] s m = Run [] m (Stop AwaitingJoin))
      by (intros m; cbn; now rewrite E).
    assert (N : forall m, exists rest,
                 log (RP2040.join_loop w ((s2, persist2) :: joins) s m) =
                 beginOTAA true s2 :: rest).
    { intros m. cbn [RP2040.join_loop]. rewrite E, bind_log. cbn [emit log].
      eexists. reflexivity. }
    rewrite !W. unfold prepend. cbn [log final ctl app].
    repeat match goal with |- _ /\ _ => split end; try reflexivity; try apply N.
    destruct (N (RP2040.set_bootCountSinceUnsuccessfulJoin 0
                   (RP2040.set_store
                      (Preferences.putBytes "nonces" persist (RP2040.store mrp)) mrp)))
      as [rest ->].
    exists rest. reflexivity.
  - rewrite (esp8266_loop_accepted w s persist joins state m82 Hs Hle),
      (esp8266_loop_accepted w s persist [] state m82 Hs Hle),
      (esp8266_loop_accepted w s persist ((s2, persist2) :: joins) state m82 Hs Hle).
    assert (W : forall m, ESP8266.join_loop w [] s m = Run [] m (Stop AwaitingJoin))
      by (intros m; cbn; now rewrite E).
    assert (N : forall m, exists rest,
                 log (ESP8266.join_loop w ((s2, persist2) :: joins) s m) =
                 beginOTAA true s2 :: rest).
    { intros m. cbn [ESP8266.join_loop]. rewrite E, bind_log. cbn [emit log].
      eexists. reflexivity. }
    rewrite !W. unfold prepend. cbn [log final ctl app].
    repeat match goal with |- _ /\ _ => split end; try reflexivity; try apply N.
    destruct (N (ESP8266.set_bootCountSinceUnsuccessfulJoin 0
                   (ESP8266.set_EEPROM persist m82))) as [rest ->].
    exists rest. reflexivity.
Qed.

Lemma positive_join_state_loops_witness :
  let r := ESP32.join_loop failing_world [(1, [Byte.x01])] (-1)
             (ESP32.Machine 2 3 [] [("nonces", [Byte.x07])]) in
  log r = [beginOTAA true 1; putNonces [Byte.x01]; delay 1000] /\
  ctl r = Stop AwaitingJoin /\
  Preferences.getBytes "nonces" (ESP32.store (final r)) = [Byte.x01] /\
  ESP32.bootCountSinceUnsuccessfulJoin (final r) = 0.
Proof.
  cbv zeta.
  assert (H1 : -1 <> RADIOLIB_ERR_NONE) by (unfold RADIOLIB_ERR_NONE; lia).
  assert (H2 : 1 > RADIOLIB_ERR_NONE) by (unfold RADIOLIB_ERR_NONE; lia).
  pose proof (positive_join_state_loops failing_world (-1) 1 0 [Byte.x01] [Byte.x02]
                [(0, [Byte.x02])] (ESP32.Machine 2 3 [] [("nonces", [Byte.x07])])
                (RP2040.Machine 2 2 3 [] []) (ESP8266.Machine 2 3 [] 2 3 [] [])
                H1 H2) as T.
  cbv zeta in T. destruct T as ((_ & _ & _ & T1 & T2 & _ & T3 & T4 & _) & _).
  split; [exact T1|]. split; [exact T2|]. split; [exact T3 | exact T4].
Defined.

(** ** The sleep timer *)

(** C10: on the ESP32 and the ESP8266 [gotoSleep] programs the timer
    with [seconds * 1000 * 1000] computed in 32 bits, that is
    [(seconds * 10^6) mod 2^32] microseconds; for a 32-bit [seconds] this
    is [seconds * 10^6] exactly when [seconds <= 4294]. *)
Theorem sleep_timer_wraps
        (w : world) (seconds us : Z) (m32 : ESP32.machine) (m82 : ESP8266.machine) :
  0 <= seconds < 2 ^ 32 ->
  (In (esp_sleep_enable_timer_wakeup us) (log (ESP32.gotoSleep w seconds m32)) <->
   us = (seconds * 10 ^ 6) mod 2 ^ 32) /\
  (In (ESP_deepSleep us) (log (ESP8266.gotoSleep w seconds m82)) <->
   us = (seconds * 10 ^ 6) mod 2 ^ 32) /\
  ((seconds * 10 ^ 6) mod 2 ^ 32 = seconds * 10 ^ 6 <-> seconds <= 4294).
Proof.
  intros H.
  rewrite esp32_gotoSleep_run, esp8266_gotoSleep_run, <- microseconds_mod.
  cbn [log]. unfold notice. repeat split.
  - destruct (w_sleep_returns w); cbn; intros G;
      repeat (destruct G as [G|G]; try discriminate; try contradiction);
      now injection G.
  - intros ->. now left.
  - destruct (w_rtc_write_ok w 0), (w_rtc_write_ok w 4), (w_sleep_returns w);
      cbn; intros G;
      repeat (destruct G as [G|G]; try discriminate; try contradiction);
      now injection G.
  - intros ->.
    destruct (w_rtc_write_ok w 0), (w_rtc_write_ok w 4); cbn; tauto.
  - rewrite microseconds_mod. intros E.
    assert (B : 0 <= (seconds * 10 ^ 6) mod 2 ^ 32 < 2 ^ 32)
      by (apply Z.mod_pos_bound; lia).
    lia.
  - intros L. rewrite microseconds_mod. apply Z.mod_small. lia.
Qed.

Lemma sleep_timer_wraps_witness :
  (7200 * 10 ^ 6) mod 2 ^ 32 = 7200 * 10 ^ 6 <-> 7200 <= 4294.
Proof.
  apply (sleep_timer_wraps failing_world 7200 0 (ESP32.Machine 2 0 [] [])
           (ESP8266.Machine 2 0 [] 0 0 [] [])).
  lia.
Defined.

(** * Further properties *)

(** ** The back-off as the sleep of a failed join *)

(** X1: whatever the streak, wrapped or not, the back-off lies between 0
    and 180 seconds, and the 32-bit conversion to microseconds of a
    back-off never wraps: the timer of a failed join is the back-off
    itself, at most 180000000. *)
Theorem backoff_sleep_is_exact (streak : Z) :
  0 <= sleepForSeconds streak <= 180 /\
  microseconds (sleepForSeconds streak) = sleepForSeconds streak * 1000000 /\
  0 <= microseconds (sleepForSeconds streak) <= 180000000.
Proof.
  pose proof (sleepForSeconds_bounds streak) as B.
  rewrite microseconds_exact by lia. repeat split; lia.
Qed.

(** ** The uplink payload *)

Lemma land_255 (x : Z) : Z.land x 255 = x mod 256.
Proof. change 255 with (Z.ones 8). rewrite Z.land_ones by lia. reflexivity. Qed.

(** X2: the payload has three bytes; for a one-byte digital read and a
    16-bit analog read the receiver gets both values back, the analog
    one sent high byte first. *)
Theorem uplinkPayload_round_trip (digitalRead2 analogRead1 : Z) :
  0 <= digitalRead2 < 256 -> 0 <= analogRead1 < 65536 ->
  uplinkPayload digitalRead2 analogRead1 =
    [digitalRead2; analogRead1 / 256; analogRead1 mod 256] /\
  Forall (fun b => 0 <= b < 256) (uplinkPayload digitalRead2 analogRead1) /\
  decodePayload (uplinkPayload digitalRead2 analogRead1) =
    Some (digitalRead2, analogRead1).
Proof.
  intros Hd Ha.
  assert (E : uplinkPayload digitalRead2 analogRead1 =
              [digitalRead2; analogRead1 / 256; analogRead1 mod 256]).
  { unfold uplinkPayload, highByte, lowByte, uint8_t, uint16_t.
    rewrite land_255, Z.shiftr_div_pow2 by lia.
    change (2 ^ 8) with 256. change (2 ^ 16) with 65536.
    rewrite (Z.mod_small digitalRead2) by lia.
    rewrite (Z.mod_small analogRead1 65536) by lia.
    rewrite Z.mod_mod by lia.
    rewrite (Z.mod_small (analogRead1 / 256)).
    - reflexivity.
    - split; [apply Z.div_pos; lia | apply Z.div_lt_upper_bound; lia]. }
  rewrite E. split; [reflexivity|]. split.
  - repeat constructor; try lia.
    + apply Z.div_pos; lia.
    + apply Z.div_lt_upper_bound; lia.
    + apply Z.mod_pos_bound; lia.
    + apply Z.mod_pos_bound; lia.
  - cbn [decodePayload]. f_equal. f_equal.
    pose proof (Z.div_mod analogRead1 256 ltac:(lia)). lia.
Qed.

Lemma uplinkPayload_round_trip_witness :
  decodePayload (uplinkPayload 1 1000) = Some (1, 1000).
Proof. apply (uplinkPayload_round_trip 1 1000); lia. Defined.

(** ** A radio that does not start *)

Lemma esp32_restore_frozen (w : world) (m : ESP32.machine) :
  w_radio_begin w <> RADIOLIB_ERR_NONE ->
  ESP32.restore w m =
  Run [radio_begin (w_radio_begin w);
       Report "Initalise radio failed" (w_radio_begin w)] m (Stop Frozen).
Proof.
  intros H. apply Z.eqb_neq in H. unfold ESP32.restore. rewrite H. reflexivity.
Qed.

Lemma rp2040_restore_frozen (w : world) (m : RP2040.machine) :
  w_radio_begin w <> RADIOLIB_ERR_NONE ->
  RP2040.restore w m =
  Run [radio_begin (w_radio_begin w);
       Report "Initalise radio failed" (w_radio_begin w)] m (Stop Frozen).
Proof.
  intros H. apply Z.eqb_neq in H. unfold RP2040.restore. rewrite H. reflexivity.
Qed.

Lemma esp8266_restore_frozen (w : world) (m : ESP8266.machine) :
  w_radio_begin w <> RADIOLIB_ERR_NONE ->
  ESP8266.restore w m =
  Run [radio_begin (w_radio_begin w);
       Report "Initalise radio failed" (w_radio_begin w)] m (Stop Frozen).
Proof.
  intros H. apply Z.eqb_neq in H. unfold ESP8266.restore. rewrite H. reflexivity.
Qed.

(** X3: when [radio.begin()] fails, every sketch reports it and halts in
    [debug]'s [while (Freeze)]: after the start-up delay (on the RP2040
    also the 64 us wait that follows [rtc_init]) and the load of the boot
    counters nothing else happens, no restore step, no join, no uplink and
    no sleep.  The durable store is left as it was, and so is
    the saved session on the ESP32, on the RP2040 and in the first
    ESP8266 sketch.  The second ESP8266 sketch has by then cleared RTC
    memory, the saved session with it, when the reset reason is not
    "Deep-Sleep Wake" and the clearing write succeeded; otherwise it
    leaves the saved session too. *)
Theorem radio_failure_halts_the_boot
        (uplinkIntervalSeconds no_downlink : Z) (SESSION_BUF_SIZE : nat) (w : world)
        (m32 : ESP32.machine) (mrp : RP2040.machine) (m82 : ESP8266.machine) :
  w_radio_begin w <> RADIOLIB_ERR_NONE ->
  let halt := [radio_begin (w_radio_begin w);
               Report "Initalise radio failed" (w_radio_begin w)] in
  let r32 := ESP32.setup uplinkIntervalSeconds no_downlink w m32 in
  let rrp := RP2040.setup uplinkIntervalSeconds no_downlink w mrp in
  let rA := ESP8266.A.setup uplinkIntervalSeconds no_downlink w m82 in
  let rB := ESP8266.B.setup uplinkIntervalSeconds no_downlink SESSION_BUF_SIZE w m82 in
  (r32 = Run (delay 2000 :: halt)
             (ESP32.set_bootCount (uint16_t (ESP32.bootCount m32 + 1)) m32)
             (Stop Frozen) /\
   ESP32.store (final r32) = ESP32.store m32 /\
   ESP32.LWsession (final r32) = ESP32.LWsession m32) /\
  (rrp = Run (delay 2000 :: sleep_us 64 :: halt)
             (final (RP2040.load_bootCount mrp)) (Stop Frozen) /\
   RP2040.store (final rrp) = RP2040.store mrp /\
   RP2040.LWsession (final rrp) = RP2040.LWsession mrp) /\
  (rA = Run (delay 2000 :: log (ESP8266.recall_boot_counts w m82) ++ halt)
            (ESP8266.set_bootCount
               (uint32_t (ESP8266.bootCount (recalled_counts w m82) + 1))
               (recalled_counts w m82))
            (Stop Frozen) /\
   ESP8266.EEPROM (final rA) = ESP8266.EEPROM m82 /\
   ESP8266.rtc8 (final rA) = ESP8266.rtc8 m82) /\
  (rB = Run (delay 2000 ::
             (log (ESP8266.B.print_wakeup_reason SESSION_BUF_SIZE w m82) ++
              log (ESP8266.recall_boot_counts w (cleared SESSION_BUF_SIZE w m82))) ++
             halt)
            (ESP8266.set_bootCount
               (uint32_t (ESP8266.bootCount
                            (recalled_counts w (cleared SESSION_BUF_SIZE w m82)) + 1))
               (recalled_counts w (cleared SESSION_BUF_SIZE w m82)))
            (Stop Frozen) /\
   ESP8266.EEPROM (final rB) = ESP8266.EEPROM m82 /\
   ESP8266.rtc8 (final rB) =
     if negb (String.eqb (w_getResetReason w) "Deep-Sleep Wake") && w_rtc_write_ok w 0
     then ESP8266.zeros SESSION_BUF_SIZE else ESP8266.rtc8 m82).
Proof.
  intros H. cbv zeta.
  assert (E32 : ESP32.setup uplinkIntervalSeconds no_downlink w m32 =
                Run (delay 2000 :: [radio_begin (w_radio_begin w);
                                    Report "Initalise radio failed" (w_radio_begin w)])
                    (ESP32.set_bootCount (uint16_t (ESP32.bootCount m32 + 1)) m32)
                    (Stop Frozen)).
  { unfold ESP32.setup, ESP32.print_wakeup_reason.
    rewrite bind_emit, bind_modify, bind_run, esp32_restore_frozen by exact H.
    reflexivity. }
  assert (Erp : RP2040.setup uplinkIntervalSeconds no_downlink w mrp =
                Run (delay 2000 :: sleep_us 64 ::
                     [radio_begin (w_radio_begin w);
                      Report "Initalise radio failed" (w_radio_begin w)])
                    (final (RP2040.load_bootCount mrp)) (Stop Frozen)).
  { unfold RP2040.setup.
    rewrite !bind_emit, bind_run, rp2040_load_bootCount_run. cbn [ctl final log prepend].
    rewrite bind_run, rp2040_restore_frozen by exact H. reflexivity. }
  assert (EA : ESP8266.A.setup uplinkIntervalSeconds no_downlink w m82 =
               Run (delay 2000 :: log (ESP8266.recall_boot_counts w m82) ++
                    [radio_begin (w_radio_begin w);
                     Report "Initalise radio failed" (w_radio_begin w)])
                   (ESP8266.set_bootCount
                      (uint32_t (ESP8266.bootCount (recalled_counts w m82) + 1))
                      (recalled_counts w m82))
                   (Stop Frozen)).
  { rewrite esp8266_A_setup_run. unfold after_recall.
    rewrite bind_run, esp8266_restore_frozen by exact H. reflexivity. }
  assert (EB : ESP8266.B.setup uplinkIntervalSeconds no_downlink SESSION_BUF_SIZE w m82 =
               Run (delay 2000 ::
                    (log (ESP8266.B.print_wakeup_reason SESSION_BUF_SIZE w m82) ++
                     log (ESP8266.recall_boot_counts w (cleared SESSION_BUF_SIZE w m82))) ++
                    [radio_begin (w_radio_begin w);
                     Report "Initalise radio failed" (w_radio_begin w)])
                   (ESP8266.set_bootCount
                      (uint32_t (ESP8266.bootCount
                                   (recalled_counts w (cleared SESSION_BUF_SIZE w m82)) + 1))
                      (recalled_counts w (cleared SESSION_BUF_SIZE w m82)))
                   (Stop Frozen)).
  { rewrite esp8266_B_setup_run. unfold after_recall.
    rewrite bind_run, esp8266_restore_frozen by exact H. reflexivity. }
  rewrite E32, Erp, EA, EB. cbn [final].
  split; [|split; [|split]].
  - repeat split.
  - rewrite rp2040_load_bootCount_run. cbn [final].
    destruct (uint16_t (RP2040.scratch1 mrp) =? 0); repeat split.
  - unfold recalled_counts.
    destruct (w_rtc_read_ok w 0), (w_rtc_read_ok w 4); repeat split.
  - unfold recalled_counts, cleared.
    destruct (w_rtc_read_ok w 0), (w_rtc_read_ok w 4), (negb _ && _); repeat split.
Qed.

Lemma radio_failure_halts_the_boot_witness :
  let r32 := ESP32.setup 300 (-1116) dead_radio_world (ESP32.power_on [] []) in
  let rB := ESP8266.B.setup 300 (-1116) 4 dead_radio_world
              (ESP8266.Machine 1 0 [] 5 3 [Byte.x02] []) in
  r32 = Run [delay 2000; radio_begin (-2); Report "Initalise radio failed" (-2)]
            (ESP32.Machine 2 0 [] []) (Stop Frozen) /\
  ctl rB = Stop Frozen /\
  ESP8266.rtc8 (final rB) = [Byte.x00; Byte.x00; Byte.x00; Byte.x00].
Proof.
  cbv zeta.
  assert (H : w_radio_begin dead_radio_world <> RADIOLIB_ERR_NONE)
    by (unfold RADIOLIB_ERR_NONE; cbn; lia).
  pose proof (radio_failure_halts_the_boot 300 (-1116) 4 dead_radio_world
                (ESP32.power_on [] []) (RP2040.Machine 0 0 0 [] [])
                (ESP8266.Machine 1 0 [] 5 3 [Byte.x02] []) H) as T.
  cbv zeta in T. destruct T as ((E32 & _) & _ & _ & (EB & _ & SB)).
  split; [exact E32|]. split; [now rewrite EB | exact SB].
Defined.

(** ** A session that resumes *)

Section Resumption.
Variable uplinkIntervalSeconds no_downlink : Z.
Variable SESSION_BUF_SIZE : nat.
Variable w : world.
Hypothesis radio_ok : w_radio_begin w = RADIOLIB_ERR_NONE.
Hypothesis resumed : w_resume w = RADIOLIB_ERR_NONE.

Lemma esp32_restore_counts (m : ESP32.machine) :
  uplinks (log (ESP32.restore w m)) = 0%nat /\
  fresh_joins (log (ESP32.restore w m)) = 0%nat.
Proof. unfold ESP32.restore. step_run; split; reflexivity. Qed.

Lemma rp2040_restore_counts (m : RP2040.machine) :
  uplinks (log (RP2040.restore w m)) = 0%nat /\
  fresh_joins (log (RP2040.restore w m)) = 0%nat.
Proof. unfold RP2040.restore. step_run; split; reflexivity. Qed.

Lemma esp8266_restore_counts (m : ESP8266.machine) :
  uplinks (log (ESP8266.restore w m)) = 0%nat /\
  fresh_joins (log (ESP8266.restore w m)) = 0%nat.
Proof. unfold ESP8266.restore, ESP8266.rtc_read. step_run; split; reflexivity. Qed.



End Resumption.

Lemma uplinks_app (t1 t2 : trace) : uplinks (t1 ++ t2) = (uplinks t1 + uplinks t2)%nat.
Proof. unfold uplinks. now rewrite filter_app, length_app. Qed.


Section Uplink_counts.
Variable uplinkIntervalSeconds no_downlink : Z.
Variable SESSION_BUF_SIZE : nat.
Variable w : world.

Lemma esp32_uplink_counts (m : ESP32.machine) :
  uplinks (log (ESP32.uplink uplinkIntervalSeconds no_downlink w m)) = 1%nat /\
  fresh_joins (log (ESP32.uplink uplinkIntervalSeconds no_downlink w m)) = 0%nat.
Proof.
  rewrite esp32_uplink_run, esp32_gotoSleep_run. unfold prepend. cbn [log].
  destruct (negb (w_sendReceive w =? no_downlink) && _), (w_sleep_returns w);
    split; reflexivity.
Qed.

Lemma rp2040_uplink_counts (m : RP2040.machine) :
  uplinks (log (RP2040.uplink uplinkIntervalSeconds no_downlink w m)) = 1%nat /\
  fresh_joins (log (RP2040.uplink uplinkIntervalSeconds no_downlink w m)) = 0%nat.
Proof.
  rewrite rp2040_uplink_run. cbn [log].
  destruct (negb (w_sendReceive w =? no_downlink) && _), (w_sleep_returns w);
    split; reflexivity.
Qed.

Lemma esp8266_uplink_counts (m : ESP8266.machine) :
  uplinks (log (ESP8266.uplink w uplinkIntervalSeconds no_downlink m)) = 1%nat /\
  fresh_joins (log (ESP8266.uplink w uplinkIntervalSeconds no_downlink m)) = 0%nat.
Proof.
  rewrite esp8266_uplink_run, esp8266_gotoSleep_run. unfold prepend, notice. cbn [log].
  destruct (negb (w_sendReceive w =? no_downlink) && _), (w_sleep_returns w),
    (w_rtc_write_ok w 0), (w_rtc_write_ok w 4), (w_rtc_write_ok w 8);
    split; reflexivity.
Qed.

Lemma esp32_uplink_head (m : ESP32.machine) :
  exists rest, log (ESP32.uplink uplinkIntervalSeconds no_downlink w m) =
               sendReceive (w_sendReceive w) :: rest.
Proof. rewrite esp32_uplink_run. unfold prepend. cbn [log app]. eexists. reflexivity. Qed.

Lemma rp2040_uplink_head (m : RP2040.machine) :
  exists rest, log (RP2040.uplink uplinkIntervalSeconds no_downlink w m) =
               sendReceive (w_sendReceive w) :: rest.
Proof. rewrite rp2040_uplink_run. cbn [log]. eexists. reflexivity. Qed.

Lemma esp8266_uplink_head (m : ESP8266.machine) :
  exists rest, log (ESP8266.uplink w uplinkIntervalSeconds no_downlink m) =
               sendReceive (w_sendReceive w) :: rest.
Proof. rewrite esp8266_uplink_run. unfold prepend. cbn [log app]. eexists. reflexivity. Qed.

Lemma esp8266_recall_counts (m : ESP8266.machine) :
  uplinks (log (ESP8266.recall_boot_counts w m)) = 0%nat /\
  fresh_joins (log (ESP8266.recall_boot_counts w m)) = 0%nat.
Proof.
  rewrite esp8266_recall_boot_counts_run. cbn [log]. unfold notice.
  destruct (w_rtc_read_ok w 0), (w_rtc_read_ok w 4); split; reflexivity.
Qed.

Lemma esp8266_B_wakeup_counts (m : ESP8266.machine) :
  uplinks (log (ESP8266.B.print_wakeup_reason SESSION_BUF_SIZE w m)) = 0%nat /\
  fresh_joins (log (ESP8266.B.print_wakeup_reason SESSION_BUF_SIZE w m)) = 0%nat /\
  quiet (log (ESP8266.B.print_wakeup_reason SESSION_BUF_SIZE w m)) = true.
Proof.
  rewrite esp8266_B_print_wakeup_reason_run. cbn [log]. unfold notice.
  destruct (negb _), (w_rtc_write_ok w 0); repeat split; reflexivity.
Qed.
End Uplink_counts.



(** ** The shape of a boot *)

Section Boot_shape.
Variable uplinkIntervalSeconds no_downlink : Z.
Variable SESSION_BUF_SIZE : nat.
Variable w : world.

Lemma esp32_setup_cases (m : ESP32.machine) :
  let m1 := ESP32.set_bootCount (uint16_t (ESP32.bootCount m + 1)) m in
  let R := ESP32.restore w m1 in
  let L := ESP32.join_loop w (w_joins w) (w_resume w) m1 in
  ESP32.setup uplinkIntervalSeconds no_downlink w m =
  if w_radio_begin w =? RADIOLIB_ERR_NONE
  then match ctl L with
       | Next _ => prepend (delay 2000 :: log R ++ log L)
                     (ESP32.uplink uplinkIntervalSeconds no_downlink w (final L))
       | Stop o => Run (delay 2000 :: log R ++ log L) (final L) (Stop o)
       end
  else Run (delay 2000 :: log R) m1 (Stop Frozen).
Proof.
  cbv zeta. unfold ESP32.setup, ESP32.print_wakeup_reason.
  rewrite bind_emit, bind_modify, bind_run, esp32_restore_ctl, esp32_restore_final.
  destruct (w_radio_begin w =? RADIOLIB_ERR_NONE); [|reflexivity].
  rewrite bind_run. unfold prepend.
  destruct (ctl (ESP32.join_loop _ _ _ _)); cbn [log final ctl app]; [|reflexivity].
  now rewrite app_assoc.
Qed.

Lemma rp2040_setup_cases (m : RP2040.machine) :
  let m1 := final (RP2040.load_bootCount m) in
  let R := RP2040.restore w m1 in
  let L := RP2040.join_loop w (w_joins w) (w_resume w) m1 in
  RP2040.setup uplinkIntervalSeconds no_downlink w m =
  if w_radio_begin w =? RADIOLIB_ERR_NONE
  then match ctl L with
       | Next _ => prepend (delay 2000 :: sleep_us 64 :: log R ++ log L)
                     (RP2040.uplink uplinkIntervalSeconds no_downlink w (final L))
       | Stop o => Run (delay 2000 :: sleep_us 64 :: log R ++ log L) (final L) (Stop o)
       end
  else Run (delay 2000 :: sleep_us 64 :: log R) m1 (Stop Frozen).
Proof.
  cbv zeta. unfold RP2040.setup.
  rewrite !bind_emit, bind_run, rp2040_load_bootCount_run.
  cbn [ctl final log prepend app].
  set (m1 := if uint16_t (RP2040.scratch1 m) =? 0 then _ else _).
  rewrite bind_run, rp2040_restore_ctl, rp2040_restore_final.
  destruct (w_radio_begin w =? RADIOLIB_ERR_NONE);
    [|unfold prepend; cbn [log final ctl]; now rewrite ?app_nil_r].
  rewrite bind_run. unfold prepend.
  destruct (ctl (RP2040.join_loop _ _ _ _)); cbn [log final ctl app]; [|reflexivity].
  now rewrite app_assoc.
Qed.

Lemma esp8266_after_recall_cases (m : ESP8266.machine) :
  let R := ESP8266.restore w m in
  let L := ESP8266.join_loop w (w_joins w) (w_resume w) (recalled_session w m) in
  after_recall uplinkIntervalSeconds no_downlink w m =
  if w_radio_begin w =? RADIOLIB_ERR_NONE
  then match ctl L with
       | Next _ => prepend (log R ++ log L)
                     (ESP8266.uplink w uplinkIntervalSeconds no_downlink (final L))
       | Stop o => Run (log R ++ log L) (final L) (Stop o)
       end
  else Run (log R) m (Stop Frozen).
Proof.
  cbv zeta. unfold after_recall.
  rewrite bind_run, esp8266_restore_ctl, esp8266_restore_final.
  destruct (w_radio_begin w =? RADIOLIB_ERR_NONE); [|reflexivity].
  rewrite bind_run. unfold prepend.
  destruct (ctl (ESP8266.join_loop _ _ _ _)); cbn [log final ctl]; [|reflexivity].
  now rewrite app_assoc.
Qed.

(** What one pass through the join loop can do on the ESP targets. *)
Lemma esp32_loop_outcome (joins : list (Z * buffer)) :
  forall state m,
    let r := ESP32.join_loop w joins state m in
    uplinks (log r) = 0%nat /\
    ((ctl r = Next RADIOLIB_ERR_NONE /\ sleep_requests (log r) = [] /\
      (state = RADIOLIB_ERR_NONE \/ In (beginOTAA true RADIOLIB_ERR_NONE) (log r))) \/
     (ctl r = Stop AwaitingJoin /\ sleep_requests (log r) = []) \/
     (ctl r = Stop (if w_sleep_returns w then Restarted else Asleep) /\
      exists us, sleep_requests (log r) = [us])).
Proof.
  induction joins as [|[state' persist] joins IH]; intros state m; cbv zeta.
  - destruct (Z.eq_dec state RADIOLIB_ERR_NONE) as [->|Hs].
    + rewrite esp32_loop_done. split; [reflexivity|]. left. auto.
    + apply Z.eqb_neq in Hs. cbn. rewrite Hs. cbn. split; [reflexivity|]. right. left. auto.
  - destruct (Z.eq_dec state RADIOLIB_ERR_NONE) as [->|Hs].
    + rewrite esp32_loop_done. split; [reflexivity|]. left. auto.
    + destruct (Z_lt_le_dec state' RADIOLIB_ERR_NONE) as [Hf|Hf].
      * rewrite esp32_loop_failed by assumption.
        rewrite esp32_join_failed_run, esp32_gotoSleep_run. cbn [log ctl].
        split; [destruct (w_sleep_returns w); reflexivity|].
        right. right. split; [reflexivity|].
        destruct (w_sleep_returns w); eexists; reflexivity.
      * rewrite esp32_loop_accepted by assumption. unfold prepend. cbn [log ctl].
        match goal with |- context [ESP32.join_loop w joins state' ?m'] =>
          destruct (IH state' m') as [U C] end.
        cbv zeta in U, C. split; [exact U|].
        destruct C as [(C1 & C2 & C3)|[(C1 & C2)|(C1 & us & C2)]].
        -- left. split; [exact C1|]. split; [exact C2|]. right.
           destruct C3 as [->|C3]; [now left | right; right; right; exact C3].
        -- right. left. split; [exact C1 | exact C2].
        -- right. right. split; [exact C1|]. exists us. exact C2.
Qed.

Lemma esp8266_loop_outcome (joins : list (Z * buffer)) :
  forall state m,
    let r := ESP8266.join_loop w joins state m in
    uplinks (log r) = 0%nat /\
    ((ctl r = Next RADIOLIB_ERR_NONE /\ sleep_requests (log r) = [] /\
      (state = RADIOLIB_ERR_NONE \/ In (beginOTAA true RADIOLIB_ERR_NONE) (log r))) \/
     (ctl r = Stop AwaitingJoin /\ sleep_requests (log r) = []) \/
     (ctl r = Stop (if w_sleep_returns w then Restarted else Asleep) /\
      exists us, sleep_requests (log r) = [us])).
Proof.
  induction joins as [|[state' persist] joins IH]; intros state m; cbv zeta.
  - destruct (Z.eq_dec state RADIOLIB_ERR_NONE) as [->|Hs].
    + rewrite esp8266_loop_done. split; [reflexivity|]. left. auto.
    + apply Z.eqb_neq in Hs. cbn. rewrite Hs. cbn. split; [reflexivity|]. right. left. auto.
  - destruct (Z.eq_dec state RADIOLIB_ERR_NONE) as [->|Hs].
    + rewrite esp8266_loop_done. split; [reflexivity|]. left. auto.
    + destruct (Z_lt_le_dec state' RADIOLIB_ERR_NONE) as [Hf|Hf].
      * rewrite esp8266_loop_failed by assumption.
        rewrite esp8266_join_failed_run, esp8266_gotoSleep_run. cbn [log ctl].
        unfold notice.
        split; [destruct (w_rtc_write_ok w 0), (w_rtc_write_ok w 4), (w_sleep_returns w);
                reflexivity|].
        right. right. split; [reflexivity|].
        destruct (w_rtc_write_ok w 0), (w_rtc_write_ok w 4), (w_sleep_returns w);
          eexists; reflexivity.
      * rewrite esp8266_loop_accepted by assumption. unfold prepend. cbn [log ctl].
        match goal with |- context [ESP8266.join_loop w joins state' ?m'] =>
          destruct (IH state' m') as [U C] end.
        cbv zeta in U, C. split; [exact U|].
        destruct C as [(C1 & C2 & C3)|[(C1 & C2)|(C1 & us & C2)]].
        -- left. split; [exact C1|]. split; [exact C2|]. right.
           destruct C3 as [->|C3]; [now left | right; right; right; exact C3].
        -- right. left. split; [exact C1 | exact C2].
        -- right. right. split; [exact C1|]. exists us. exact C2.
Qed.

(** The RP2040 loop may sleep several times; it sends no uplink, never
    halts in [debug], and leaves only through an accepted join. *)
Lemma rp2040_loop_outcome (joins : list (Z * buffer)) :
  forall state m,
    let r := RP2040.join_loop w joins state m in
    uplinks (log r) = 0%nat /\
    RP2040.LWsession (final r) = RP2040.LWsession m /\
    ((ctl r = Next RADIOLIB_ERR_NONE /\
      (state = RADIOLIB_ERR_NONE \/ In (beginOTAA true RADIOLIB_ERR_NONE) (log r))) \/
     ctl r = Stop AwaitingJoin \/ ctl r = Stop Asleep).
Proof.
  induction joins as [|[state' persist] joins IH]; intros state m; cbv zeta.
  - destruct (Z.eq_dec state RADIOLIB_ERR_NONE) as [->|Hs].
    + rewrite rp2040_loop_done. repeat split. left. auto.
    + apply Z.eqb_neq in Hs. cbn. rewrite Hs. cbn. repeat split. right. left. auto.
  - destruct (Z.eq_dec state RADIOLIB_ERR_NONE) as [->|Hs].
    + rewrite rp2040_loop_done. repeat split. left. auto.
    + destruct (Z_lt_le_dec state' RADIOLIB_ERR_NONE) as [Hf|Hf].
      * rewrite rp2040_loop_failed by assumption. cbv zeta.
        destruct (w_sleep_returns w); [|repeat split; right; right; reflexivity].
        unfold prepend. cbn [log ctl final].
        match goal with |- context [RP2040.join_loop w joins state' ?m'] =>
          destruct (IH state' m') as (U & S & C) end.
        cbv zeta in U, S, C. rewrite S. split; [exact U|]. split; [reflexivity|].
        destruct C as [(C1 & C3)|C]; [|right; exact C].
        left. split; [exact C1|]. right.
        destruct C3 as [->|C3];
          [unfold RADIOLIB_ERR_NONE in Hf; lia | right; right; right; exact C3].
      * rewrite rp2040_loop_accepted by assumption. unfold prepend. cbn [log ctl final].
        match goal with |- context [RP2040.join_loop w joins state' ?m'] =>
          destruct (IH state' m') as (U & S & C) end.
        cbv zeta in U, S, C. rewrite S. split; [exact U|]. split; [reflexivity|].
        destruct C as [(C1 & C3)|C]; [|right; exact C].
        left. split; [exact C1|]. right.
        destruct C3 as [->|C3]; [now left | right; right; right; exact C3].
Qed.
End Boot_shape.

Lemma ends_as_designed_prepend (w : world) {S : Type} (t : trace) (r : run S unit) :
  sleep_requests t = [] -> ends_as_designed w r -> ends_as_designed w (prepend t r).
Proof.
  unfold ends_as_designed, prepend. cbn [log ctl]. intros Ht H.
  rewrite sleep_requests_app, Ht. exact H.
Qed.

Lemma uplink_only_when_joined_prepend (t1 t2 : trace) :
  uplinks t1 = 0%nat -> uplink_only_when_joined t2 -> uplink_only_when_joined (t1 ++ t2).
Proof.
  unfold uplink_only_when_joined. intros H1 H.
  destruct H as [H|(before & state & after & -> & Hb & Ha & J)].
  - left. now rewrite uplinks_app, H1.
  - right. exists (t1 ++ before), state, after.
    split; [now rewrite app_assoc|]. split; [now rewrite uplinks_app, H1, Hb|].
    split; [exact Ha|].
    destruct J as [J|J]; [left | right]; apply in_or_app; now right.
Qed.

Lemma uplink_after_join (t1 t2 rest : trace) (state : Z) :
  uplinks t1 = 0%nat -> t2 = sendReceive state :: rest -> uplinks t2 = 1%nat ->
  In (beginOTAA false RADIOLIB_ERR_NONE) t1 \/ In (beginOTAA true RADIOLIB_ERR_NONE) t1 ->
  uplink_only_when_joined (t1 ++ t2).
Proof.
  intros H1 -> H2 J. right. exists t1, state, rest.
  split; [reflexivity|]. split; [exact H1|]. split; [|exact J].
  unfold uplinks in *. cbn in H2. now injection H2.
Qed.

Section Boot_properties.
Variable uplinkIntervalSeconds no_downlink : Z.
Variable SESSION_BUF_SIZE : nat.
Variable w : world.

Lemma esp32_uplink_sleeps (m : ESP32.machine) :
  sleep_requests (log (ESP32.uplink uplinkIntervalSeconds no_downlink w m)) =
    [microseconds uplinkIntervalSeconds] /\
  ctl (ESP32.uplink uplinkIntervalSeconds no_downlink w m) =
    Stop (if w_sleep_returns w then Restarted else Asleep).
Proof.
  rewrite esp32_uplink_run, esp32_gotoSleep_run. unfold prepend. cbn [log ctl].
  destruct (negb (w_sendReceive w =? no_downlink) && _), (w_sleep_returns w);
    split; reflexivity.
Qed.

Lemma esp8266_uplink_sleeps (m : ESP8266.machine) :
  sleep_requests (log (ESP8266.uplink w uplinkIntervalSeconds no_downlink m)) =
    [microseconds uplinkIntervalSeconds] /\
  ctl (ESP8266.uplink w uplinkIntervalSeconds no_downlink m) =
    Stop (if w_sleep_returns w then Restarted else Asleep).
Proof.
  rewrite esp8266_uplink_run, esp8266_gotoSleep_run. unfold prepend, notice. cbn [log ctl].
  destruct (negb (w_sendReceive w =? no_downlink) && _), (w_sleep_returns w),
    (w_rtc_write_ok w 0), (w_rtc_write_ok w 4), (w_rtc_write_ok w 8);
    split; reflexivity.
Qed.

Lemma esp32_ends_as_designed (m : ESP32.machine) :
  ends_as_designed w (ESP32.setup uplinkIntervalSeconds no_downlink w m).
Proof.
  rewrite esp32_setup_cases. cbv zeta.
  set (m1 := ESP32.set_bootCount _ m).
  pose proof (proj2 (esp32_restore_quiet w m1)) as HR.
  destruct (w_radio_begin w =? RADIOLIB_ERR_NONE) eqn:E.
  - destruct (esp32_loop_outcome w (w_joins w) (w_resume w) m1) as [_ C].
    cbv zeta in C. unfold ends_as_designed.
    destruct C as [(C1 & C2 & _)|[(C1 & C2)|(C1 & us & C2)]]; rewrite C1.
    + right. right. unfold prepend. cbn [log ctl]. skip_delay.
      destruct (esp32_uplink_sleeps (final (ESP32.join_loop w (w_joins w) (w_resume w) m1)))
        as [Hs ->].
      split; [reflexivity|]. rewrite !sleep_requests_app, HR, C2, Hs. eexists. reflexivity.
    + right. left. cbn [log ctl]. skip_delay. rewrite sleep_requests_app, HR, C2. auto.
    + right. right. cbn [log ctl]. skip_delay. split; [reflexivity|].
      rewrite sleep_requests_app, HR, C2. exists us. reflexivity.
  - left. cbn [log ctl]. skip_delay. apply Z.eqb_neq in E. auto.
Qed.

Lemma esp8266_after_recall_ends_as_designed (m : ESP8266.machine) :
  ends_as_designed w (after_recall uplinkIntervalSeconds no_downlink w m).
Proof.
  rewrite esp8266_after_recall_cases. cbv zeta.
  pose proof (proj2 (esp8266_restore_quiet w m)) as HR.
  destruct (w_radio_begin w =? RADIOLIB_ERR_NONE) eqn:E.
  - destruct (esp8266_loop_outcome w (w_joins w) (w_resume w) (recalled_session w m))
      as [_ C].
    cbv zeta in C. unfold ends_as_designed.
    destruct C as [(C1 & C2 & _)|[(C1 & C2)|(C1 & us & C2)]]; rewrite C1.
    + right. right. unfold prepend. cbn [log ctl].
      match goal with |- context [ESP8266.uplink w _ _ ?m'] =>
        destruct (esp8266_uplink_sleeps m') as [Hs ->] end.
      split; [reflexivity|]. rewrite !sleep_requests_app, HR, C2, Hs. eexists. reflexivity.
    + right. left. cbn [log ctl]. rewrite sleep_requests_app, HR, C2. auto.
    + right. right. cbn [log ctl]. split; [reflexivity|].
      rewrite sleep_requests_app, HR, C2. exists us. reflexivity.
  - left. cbn [log ctl]. apply Z.eqb_neq in E. auto.
Qed.

Lemma rp2040_never_returns (m : RP2040.machine) :
  exists o, ctl (RP2040.setup uplinkIntervalSeconds no_downlink w m) = Stop o.
Proof.
  rewrite rp2040_setup_cases. cbv zeta.
  destruct (w_radio_begin w =? RADIOLIB_ERR_NONE); [|eexists; reflexivity].
  destruct (ctl (RP2040.join_loop _ _ _ _)); [|eexists; reflexivity].
  unfold prepend. cbn [ctl]. rewrite rp2040_uplink_run. eexists. reflexivity.
Qed.

Lemma esp32_restore_resume_event (m : ESP32.machine) :
  w_radio_begin w = RADIOLIB_ERR_NONE ->
  In (beginOTAA false (w_resume w)) (log (ESP32.restore w m)) /\
  In (setBufferSession (ESP32.LWsession m) (w_setBufferSession w (ESP32.LWsession m)))
     (log (ESP32.restore w m)).
Proof.
  intros H. unfold ESP32.restore. rewrite H.
  change (negb (RADIOLIB_ERR_NONE =? RADIOLIB_ERR_NONE)) with false.
  step_run; split; cbn; tauto.
Qed.

Lemma rp2040_restore_resume_event (m : RP2040.machine) :
  w_radio_begin w = RADIOLIB_ERR_NONE ->
  In (beginOTAA false (w_resume w)) (log (RP2040.restore w m)) /\
  In (setBufferSession (RP2040.LWsession m) (w_setBufferSession w (RP2040.LWsession m)))
     (log (RP2040.restore w m)).
Proof.
  intros H. unfold RP2040.restore. rewrite H.
  change (negb (RADIOLIB_ERR_NONE =? RADIOLIB_ERR_NONE)) with false.
  step_run; split; cbn; tauto.
Qed.

Lemma esp8266_restore_resume_event (m : ESP8266.machine) :
  w_radio_begin w = RADIOLIB_ERR_NONE ->
  In (beginOTAA false (w_resume w)) (log (ESP8266.restore w m)) /\
  In (setBufferSession (ESP8266.LWsession (recalled_session w m))
        (w_setBufferSession w (ESP8266.LWsession (recalled_session w m))))
     (log (ESP8266.restore w m)) /\
  In (setBufferNonces (ESP8266.EEPROM m) (w_setBufferNonces w (ESP8266.EEPROM m)))
     (log (ESP8266.restore w m)).
Proof.
  intros H. unfold ESP8266.restore, ESP8266.rtc_read, recalled_session. rewrite H.
  change (negb (RADIOLIB_ERR_NONE =? RADIOLIB_ERR_NONE)) with false.
  destruct (w_rtc_read_ok w 8);
    repeat (unfold_run;
            cbn [ESP8266.bootCount ESP8266.LWsession ESP8266.set_LWsession
                 ESP8266.EEPROM];
            match goal with
            | |- context [if ?c then _ else _] => destruct c eqn:?
            | _ => idtac
            end);
    repeat split; cbn; tauto.
Qed.

Lemma esp32_uplink_only_when_joined (m : ESP32.machine) :
  uplink_only_when_joined (log (ESP32.setup uplinkIntervalSeconds no_downlink w m)).
Proof.
  rewrite esp32_setup_cases. cbv zeta.
  set (m1 := ESP32.set_bootCount _ m).
  destruct (esp32_restore_counts w m1) as [UR _].
  destruct (w_radio_begin w =? RADIOLIB_ERR_NONE) eqn:E;
    [|left; exact UR].
  apply Z.eqb_eq in E.
  destruct (esp32_loop_outcome w (w_joins w) (w_resume w) m1) as [UL C].
  cbv zeta in UL, C.
  destruct C as [(C1 & _ & C3)|[(C1 & _)|(C1 & _)]]; rewrite C1.
  - unfold prepend. cbn [log].
    destruct (esp32_uplink_head uplinkIntervalSeconds no_downlink w
                (final (ESP32.join_loop w (w_joins w) (w_resume w) m1))) as [rest Hrest].
    eapply uplink_after_join;
      [skip_delay; now rewrite uplinks_app, UR, UL | exact Hrest | |].
    + apply (proj1 (esp32_uplink_counts uplinkIntervalSeconds no_downlink w _)).
    + destruct C3 as [C3|C3].
      * left. right. apply in_or_app. left.
        rewrite <- C3. now apply esp32_restore_resume_event.
      * right. right. apply in_or_app. now right.
  - left. cbn [log]. skip_delay. now rewrite uplinks_app, UR, UL.
  - left. cbn [log]. skip_delay. now rewrite uplinks_app, UR, UL.
Qed.

Lemma rp2040_uplink_only_when_joined (m : RP2040.machine) :
  uplink_only_when_joined (log (RP2040.setup uplinkIntervalSeconds no_downlink w m)).
Proof.
  rewrite rp2040_setup_cases. cbv zeta.
  set (m1 := final (RP2040.load_bootCount m)).
  destruct (rp2040_restore_counts w m1) as [UR _].
  destruct (w_radio_begin w =? RADIOLIB_ERR_NONE) eqn:E;
    [|left; exact UR].
  apply Z.eqb_eq in E.
  destruct (rp2040_loop_outcome w (w_joins w) (w_resume w) m1) as (UL & _ & C).
  cbv zeta in UL, C.
  destruct C as [(C1 & C3)|[C1|C1]]; rewrite C1.
  - unfold prepend. cbn [log].
    destruct (rp2040_uplink_head uplinkIntervalSeconds no_downlink w
                (final (RP2040.join_loop w (w_joins w) (w_resume w) m1))) as [rest Hrest].
    eapply uplink_after_join;
      [skip_delay; now rewrite uplinks_app, UR, UL | exact Hrest | |].
    + apply (proj1 (rp2040_uplink_counts uplinkIntervalSeconds no_downlink w _)).
    + destruct C3 as [C3|C3].
      * left. right. right. apply in_or_app. left.
        rewrite <- C3. now apply rp2040_restore_resume_event.
      * right. right. right. apply in_or_app. now right.
  - left. cbn [log]. skip_delay. now rewrite uplinks_app, UR, UL.
  - left. cbn [log]. skip_delay. now rewrite uplinks_app, UR, UL.
Qed.

Lemma esp8266_uplink_only_when_joined (m : ESP8266.machine) :
  uplink_only_when_joined (log (after_recall uplinkIntervalSeconds no_downlink w m)).
Proof.
  rewrite esp8266_after_recall_cases. cbv zeta.
  destruct (esp8266_restore_counts w m) as [UR _].
  destruct (w_radio_begin w =? RADIOLIB_ERR_NONE) eqn:E;
    [|left; exact UR].
  apply Z.eqb_eq in E.
  destruct (esp8266_loop_outcome w (w_joins w) (w_resume w) (recalled_session w m))
    as [UL C].
  cbv zeta in UL, C.
  destruct C as [(C1 & _ & C3)|[(C1 & _)|(C1 & _)]]; rewrite C1.
  - unfold prepend. cbn [log].
    destruct (esp8266_uplink_head uplinkIntervalSeconds no_downlink w
                (final (ESP8266.join_loop w (w_joins w) (w_resume w) (recalled_session w m)))) as [rest Hrest].
    eapply uplink_after_join; [now rewrite uplinks_app, UR, UL | exact Hrest | |].
    + apply (proj1 (esp8266_uplink_counts uplinkIntervalSeconds no_downlink w _)).
    + destruct C3 as [C3|C3].
      * left. apply in_or_app. left.
        rewrite <- C3. now apply esp8266_restore_resume_event.
      * right. apply in_or_app. now right.
  - left. cbn [log]. now rewrite uplinks_app, UR, UL.
  - left. cbn [log]. now rewrite uplinks_app, UR, UL.
Qed.
End Boot_properties.

(** X5: [setup] never returns, so [loop()] is never reached.  A boot of
    the ESP32 or of either ESP8266 sketch ends halted at a failed radio
    initialisation or waiting in the join loop, with no sleep
    programmed, or else with exactly one sleep programmed, asleep, or
    restarted when the sleep call comes back.  A boot of the RP2040 also
    always ends inside [setup]. *)
Theorem boot_ends_inside_setup
        (uplinkIntervalSeconds no_downlink : Z) (SESSION_BUF_SIZE : nat) (w : world)
        (m32 : ESP32.machine) (mrp : RP2040.machine) (m82 : ESP8266.machine) :
  ends_as_designed w (ESP32.setup uplinkIntervalSeconds no_downlink w m32) /\
  ends_as_designed w (ESP8266.A.setup uplinkIntervalSeconds no_downlink w m82) /\
  ends_as_designed w
    (ESP8266.B.setup uplinkIntervalSeconds no_downlink SESSION_BUF_SIZE w m82) /\
  exists o, ctl (RP2040.setup uplinkIntervalSeconds no_downlink w mrp) = Stop o.
Proof.
  split; [apply esp32_ends_as_designed|]. split; [|split].
  - rewrite esp8266_A_setup_run.
    apply ends_as_designed_prepend; [apply recall_no_sleep|].
    apply esp8266_after_recall_ends_as_designed.
  - rewrite esp8266_B_setup_run.
    apply ends_as_designed_prepend; [|apply esp8266_after_recall_ends_as_designed].
    skip_delay.
    rewrite sleep_requests_app, recall_no_sleep, esp8266_B_print_wakeup_reason_run.
    cbn [log]. unfold notice.
    destruct (negb _), (w_rtc_write_ok w 0); reflexivity.
  - apply rp2040_never_returns.
Qed.

(** X6: a boot sends at most one uplink, and sends it only after the
    resumption or a fresh join has answered [RADIOLIB_ERR_NONE]: never
    after a failed radio initialisation, and never while the join loop
    is still failing. *)
Theorem one_uplink_and_only_when_joined
        (uplinkIntervalSeconds no_downlink : Z) (SESSION_BUF_SIZE : nat) (w : world)
        (m32 : ESP32.machine) (mrp : RP2040.machine) (m82 : ESP8266.machine) :
  uplink_only_when_joined (log (ESP32.setup uplinkIntervalSeconds no_downlink w m32)) /\
  uplink_only_when_joined (log (RP2040.setup uplinkIntervalSeconds no_downlink w mrp)) /\
  uplink_only_when_joined
    (log (ESP8266.A.setup uplinkIntervalSeconds no_downlink w m82)) /\
  uplink_only_when_joined
    (log (ESP8266.B.setup uplinkIntervalSeconds no_downlink SESSION_BUF_SIZE w m82)).
Proof.
  split; [apply esp32_uplink_only_when_joined|].
  split; [apply rp2040_uplink_only_when_joined|]. split.
  - rewrite esp8266_A_setup_run. unfold prepend. cbn [log].
    apply uplink_only_when_joined_prepend; [apply esp8266_recall_counts|].
    apply esp8266_uplink_only_when_joined.
  - rewrite esp8266_B_setup_run. unfold prepend. cbn [log].
    apply uplink_only_when_joined_prepend; [|apply esp8266_uplink_only_when_joined].
    skip_delay. rewrite uplinks_app.
    rewrite (proj1 (esp8266_B_wakeup_counts SESSION_BUF_SIZE w m82)).
    now rewrite (proj1 (esp8266_recall_counts w _)).
Qed.

(** ** The saved session *)

Section Session_frames.
Variable uplinkIntervalSeconds no_downlink : Z.
Variable SESSION_BUF_SIZE : nat.
Variable w : world.

Lemma esp8266_loop_session (joins : list (Z * buffer)) :
  forall state m,
    ESP8266.rtc8 (final (ESP8266.join_loop w joins state m)) = ESP8266.rtc8 m /\
    ESP8266.LWsession (final (ESP8266.join_loop w joins state m)) = ESP8266.LWsession m /\
    ESP8266.bootCount (final (ESP8266.join_loop w joins state m)) = ESP8266.bootCount m.
Proof.
  induction joins as [|[state' persist] joins IH]; intros state m.
  - cbn. destruct (state =? RADIOLIB_ERR_NONE); repeat split.
  - destruct (Z.eq_dec state RADIOLIB_ERR_NONE) as [->|Hs].
    + rewrite esp8266_loop_done. repeat split.
    + destruct (Z_lt_le_dec state' RADIOLIB_ERR_NONE) as [Hf|Hf].
      * rewrite esp8266_loop_failed by assumption.
        rewrite esp8266_join_failed_run, esp8266_gotoSleep_run. cbn [final].
        unfold saved_counts.
        destruct (w_rtc_write_ok w 0), (w_rtc_write_ok w 4); repeat split.
      * rewrite esp8266_loop_accepted by assumption. cbn [prepend final].
        match goal with |- context [ESP8266.join_loop w joins state' ?m'] =>
          destruct (IH state' m') as (-> & -> & ->) end.
        repeat split.
Qed.

Lemma esp32_session_after_boot (m : ESP32.machine) :
  let r := ESP32.setup uplinkIntervalSeconds no_downlink w m in
  ESP32.LWsession (final r) =
  if (uplinks (log r) =? 0)%nat then ESP32.LWsession m else w_getBufferSession w.
Proof.
  cbv zeta. rewrite esp32_setup_cases. cbv zeta.
  set (m1 := ESP32.set_bootCount _ m).
  destruct (esp32_restore_counts w m1) as [UR _].
  destruct (esp32_loop_outcome w (w_joins w) (w_resume w) m1)
    as [UL _].
  cbv zeta in UL.
  destruct (esp32_loop_frame w (w_joins w) (w_resume w) m1) as [_ F].
  destruct (w_radio_begin w =? RADIOLIB_ERR_NONE); cbn [log final]; skip_delay;
    [|now rewrite UR].
  destruct (ctl (ESP32.join_loop _ _ _ _)); unfold prepend; cbn [log final]; skip_delay.
  - rewrite !uplinks_app, UR, UL,
      (proj1 (esp32_uplink_counts uplinkIntervalSeconds no_downlink w _)).
    rewrite esp32_uplink_run, esp32_gotoSleep_run. reflexivity.
  - now rewrite uplinks_app, UR, UL, F.
Qed.

Lemma rp2040_session_after_boot (m : RP2040.machine) :
  let r := RP2040.setup uplinkIntervalSeconds no_downlink w m in
  RP2040.LWsession (final r) =
  if (uplinks (log r) =? 0)%nat then RP2040.LWsession m else w_getBufferSession w.
Proof.
  cbv zeta. rewrite rp2040_setup_cases. cbv zeta.
  rewrite rp2040_load_bootCount_run. cbn [final].
  set (m1 := if uint16_t (RP2040.scratch1 m) =? 0 then _ else _).
  assert (E : RP2040.LWsession m1 = RP2040.LWsession m)
    by (unfold m1; destruct (uint16_t (RP2040.scratch1 m) =? 0); reflexivity).
  destruct (rp2040_restore_counts w m1) as [UR _].
  destruct (rp2040_loop_outcome w (w_joins w) (w_resume w) m1)
    as (UL & F & _).
  cbv zeta in UL, F.
  destruct (w_radio_begin w =? RADIOLIB_ERR_NONE); cbn [log final]; skip_delay;
    [|now rewrite UR, E].
  destruct (ctl (RP2040.join_loop _ _ _ _)); unfold prepend; cbn [log final]; skip_delay.
  - rewrite !uplinks_app, UR, UL,
      (proj1 (rp2040_uplink_counts uplinkIntervalSeconds no_downlink w _)).
    rewrite rp2040_uplink_run. reflexivity.
  - now rewrite uplinks_app, UR, UL, F, E.
Qed.

Lemma esp8266_session_after_recall (m : ESP8266.machine) :
  let r := after_recall uplinkIntervalSeconds no_downlink w m in
  ESP8266.rtc8 (final r) =
  if (uplinks (log r) =? 0)%nat || negb (w_rtc_write_ok w 8)
  then ESP8266.rtc8 m else w_getBufferSession w.
Proof.
  cbv zeta. rewrite esp8266_after_recall_cases. cbv zeta.
  destruct (esp8266_restore_counts w m) as [UR _].
  destruct (esp8266_loop_outcome w (w_joins w) (w_resume w)
              (recalled_session w m)) as [UL _].
  cbv zeta in UL.
  destruct (esp8266_loop_session (w_joins w) (w_resume w) (recalled_session w m))
    as (F & _).
  assert (E : ESP8266.rtc8 (recalled_session w m) = ESP8266.rtc8 m)
    by (unfold recalled_session; destruct (w_rtc_read_ok w 8); reflexivity).
  destruct (w_radio_begin w =? RADIOLIB_ERR_NONE); cbn [log final];
    [|now rewrite UR].
  destruct (ctl (ESP8266.join_loop _ _ _ _)); unfold prepend; cbn [log final].
  - rewrite !uplinks_app, UR, UL,
      (proj1 (esp8266_uplink_counts uplinkIntervalSeconds no_downlink w _)).
    rewrite esp8266_uplink_run, esp8266_gotoSleep_run. unfold prepend. cbn [final].
    unfold saved_counts. cbn [Nat.add Nat.eqb orb].
    destruct (w_rtc_write_ok w 0), (w_rtc_write_ok w 4), (w_rtc_write_ok w 8);
      cbn [negb]; try reflexivity; now rewrite <- E, <- F.
  - now rewrite uplinks_app, UR, UL, F, E.
Qed.
End Session_frames.

Lemma esp8266_A_session_after_boot
      (uplinkIntervalSeconds no_downlink : Z) (w : world) (m82 : ESP8266.machine) :
  let r := ESP8266.A.setup uplinkIntervalSeconds no_downlink w m82 in
  ESP8266.rtc8 (final r) =
  if (uplinks (log r) =? 0)%nat || negb (w_rtc_write_ok w 8)
  then ESP8266.rtc8 m82 else w_getBufferSession w.
Proof.
  cbv zeta. rewrite esp8266_A_setup_run. unfold prepend. cbn [log final]. skip_delay.
  rewrite uplinks_app, (proj1 (esp8266_recall_counts w m82)). cbn [Nat.add].
  rewrite esp8266_session_after_recall. cbv zeta.
  destruct (_ || _); [|reflexivity].
  unfold recalled_counts.
  destruct (w_rtc_read_ok w 0), (w_rtc_read_ok w 4); reflexivity.
Qed.

Lemma esp8266_B_session_after_boot
      (uplinkIntervalSeconds no_downlink : Z) (SESSION_BUF_SIZE : nat) (w : world)
      (m82 : ESP8266.machine) :
  let r := ESP8266.B.setup uplinkIntervalSeconds no_downlink SESSION_BUF_SIZE w m82 in
  ESP8266.rtc8 (final r) =
  if (uplinks (log r) =? 0)%nat || negb (w_rtc_write_ok w 8)
  then ESP8266.rtc8 (cleared SESSION_BUF_SIZE w m82) else w_getBufferSession w.
Proof.
  cbv zeta. rewrite esp8266_B_setup_run. unfold prepend. cbn [log final]. skip_delay.
  rewrite !uplinks_app, (proj1 (esp8266_B_wakeup_counts SESSION_BUF_SIZE w m82)),
    (proj1 (esp8266_recall_counts w _)). cbn [Nat.add].
  rewrite esp8266_session_after_recall. cbv zeta.
  destruct (_ || _); [|reflexivity].
  unfold recalled_counts.
  destruct (w_rtc_read_ok w 0), (w_rtc_read_ok w 4); reflexivity.
Qed.

(** X7: the saved session changes only in a boot that sends its uplink.
    On the ESP32 and the RP2040 [LWsession] ends as the radio's session
    buffer after the uplink, and is left as it was in every boot that
    halts, waits or backs off before.  On the ESP8266 the RTC copy at
    address 8 is replaced in the same case, provided the write succeeds;
    the second sketch compares with the memory left by its clearing at
    the start of the boot. *)
Theorem session_saved_only_after_uplink
        (uplinkIntervalSeconds no_downlink : Z) (SESSION_BUF_SIZE : nat) (w : world)
        (m32 : ESP32.machine) (mrp : RP2040.machine) (m82 : ESP8266.machine) :
  (let r := ESP32.setup uplinkIntervalSeconds no_downlink w m32 in
   ESP32.LWsession (final r) =
   if (uplinks (log r) =? 0)%nat then ESP32.LWsession m32 else w_getBufferSession w) /\
  (let r := RP2040.setup uplinkIntervalSeconds no_downlink w mrp in
   RP2040.LWsession (final r) =
   if (uplinks (log r) =? 0)%nat then RP2040.LWsession mrp else w_getBufferSession w) /\
  (let r := ESP8266.A.setup uplinkIntervalSeconds no_downlink w m82 in
   ESP8266.rtc8 (final r) =
   if (uplinks (log r) =? 0)%nat || negb (w_rtc_write_ok w 8)
   then ESP8266.rtc8 m82 else w_getBufferSession w) /\
  (let r := ESP8266.B.setup uplinkIntervalSeconds no_downlink SESSION_BUF_SIZE w m82 in
   ESP8266.rtc8 (final r) =
   if (uplinks (log r) =? 0)%nat || negb (w_rtc_write_ok w 8)
   then ESP8266.rtc8 (cleared SESSION_BUF_SIZE w m82) else w_getBufferSession w).
Proof.
  split; [apply esp32_session_after_boot|].
  split; [apply rp2040_session_after_boot|].
  split; [apply esp8266_A_session_after_boot | apply esp8266_B_session_after_boot].
Qed.

(** ** The durable store across boots *)

Lemma last_nonces_app (t1 t2 : trace) :
  last_nonces (t1 ++ t2) =
  match last_nonces t2 with Some b => Some b | None => last_nonces t1 end.
Proof.
  induction t1 as [|e t1 IH]; cbn [app last_nonces].
  - now destruct (last_nonces t2).
  - rewrite IH. destruct (last_nonces t2); [reflexivity|].
    now destruct (last_nonces t1).
Qed.

Lemma quiet_last_nonces (t : trace) : quiet t = true -> last_nonces t = None.
Proof.
  induction t as [|e t IH]; [reflexivity|].
  cbn [quiet forallb last_nonces]. intros H. apply andb_prop in H.
  destruct H as [He Ht]. rewrite (IH Ht). now destruct e.
Qed.

Lemma last_nonces_delay (n : Z) (t : trace) :
  last_nonces (delay n :: t) = last_nonces t.
Proof. cbn [last_nonces]. now destruct (last_nonces t). Qed.

Lemma last_nonces_sleep_us (n : Z) (t : trace) :
  last_nonces (sleep_us n :: t) = last_nonces t.
Proof. cbn [last_nonces]. now destruct (last_nonces t). Qed.

Lemma last_nonces_quiet_l (t1 t2 : trace) :
  quiet t1 = true -> last_nonces (t1 ++ t2) = last_nonces t2.
Proof.
  intros H. rewrite last_nonces_app, (quiet_last_nonces _ H).
  now destruct (last_nonces t2).
Qed.

Lemma last_nonces_quiet_r (t1 t2 : trace) :
  quiet t2 = true -> last_nonces (t1 ++ t2) = last_nonces t1.
Proof. intros H. now rewrite last_nonces_app, (quiet_last_nonces _ H). Qed.

Section Durable_store.
Variable uplinkIntervalSeconds no_downlink : Z.
Variable SESSION_BUF_SIZE : nat.
Variable w : world.

Lemma esp32_loop_nonces (joins : list (Z * buffer)) :
  forall state m,
    let r := ESP32.join_loop w joins state m in
    match last_nonces (log r) with
    | Some b => Preferences.isKey "nonces" (ESP32.store (final r)) = true /\
                Preferences.getBytes "nonces" (ESP32.store (final r)) = b
    | None => ESP32.store (final r) = ESP32.store m
    end.
Proof.
  induction joins as [|[state' persist] joins IH]; intros state m; cbv zeta.
  - cbn. destruct (state =? RADIOLIB_ERR_NONE); reflexivity.
  - destruct (Z.eq_dec state RADIOLIB_ERR_NONE) as [->|Hs].
    + rewrite esp32_loop_done. reflexivity.
    + destruct (Z_lt_le_dec state' RADIOLIB_ERR_NONE) as [Hf|Hf].
      * rewrite esp32_loop_failed by assumption.
        rewrite esp32_join_failed_run, esp32_gotoSleep_run. cbn [log final].
        destruct (w_sleep_returns w); reflexivity.
      * rewrite esp32_loop_accepted by assumption. unfold prepend. cbn [log final].
        rewrite last_nonces_app.
        match goal with |- context [ESP32.join_loop w joins state' ?m'] =>
          specialize (IH state' m') end.
        cbv zeta in IH. destruct (last_nonces (log _)); [exact IH|].
        rewrite IH. split; reflexivity.
Qed.

Lemma rp2040_loop_nonces (joins : list (Z * buffer)) :
  forall state m,
    let r := RP2040.join_loop w joins state m in
    match last_nonces (log r) with
    | Some b => Preferences.isKey "nonces" (RP2040.store (final r)) = true /\
                Preferences.getBytes "nonces" (RP2040.store (final r)) = b
    | None => RP2040.store (final r) = RP2040.store m
    end.
Proof.
  induction joins as [|[state' persist] joins IH]; intros state m; cbv zeta.
  - cbn. destruct (state =? RADIOLIB_ERR_NONE); reflexivity.
  - destruct (Z.eq_dec state RADIOLIB_ERR_NONE) as [->|Hs].
    + rewrite rp2040_loop_done. reflexivity.
    + destruct (Z_lt_le_dec state' RADIOLIB_ERR_NONE) as [Hf|Hf].
      * rewrite rp2040_loop_failed by assumption. cbv zeta.
        destruct (w_sleep_returns w); [|reflexivity].
        unfold prepend. cbn [log final]. rewrite last_nonces_quiet_l by reflexivity.
        match goal with |- context [RP2040.join_loop w joins state' ?m'] =>
          specialize (IH state' m') end.
        exact IH.
      * rewrite rp2040_loop_accepted by assumption. unfold prepend. cbn [log final].
        rewrite last_nonces_app.
        match goal with |- context [RP2040.join_loop w joins state' ?m'] =>
          specialize (IH state' m') end.
        cbv zeta in IH. destruct (last_nonces (log _)); [exact IH|].
        rewrite IH. split; reflexivity.
Qed.

Lemma esp8266_loop_nonces (joins : list (Z * buffer)) :
  forall state m,
    let r := ESP8266.join_loop w joins state m in
    ESP8266.EEPROM (final r) =
    match last_nonces (log r) with Some b => b | None => ESP8266.EEPROM m end.
Proof.
  induction joins as [|[state' persist] joins IH]; intros state m; cbv zeta.
  - cbn. destruct (state =? RADIOLIB_ERR_NONE); reflexivity.
  - destruct (Z.eq_dec state RADIOLIB_ERR_NONE) as [->|Hs].
    + rewrite esp8266_loop_done. reflexivity.
    + destruct (Z_lt_le_dec state' RADIOLIB_ERR_NONE) as [Hf|Hf].
      * rewrite esp8266_loop_failed by assumption.
        rewrite esp8266_join_failed_run, esp8266_gotoSleep_run. cbn [log final].
        unfold saved_counts, notice.
        destruct (w_rtc_write_ok w 0), (w_rtc_write_ok w 4), (w_sleep_returns w);
          reflexivity.
      * rewrite esp8266_loop_accepted by assumption. unfold prepend. cbn [log final].
        rewrite last_nonces_app.
        match goal with |- context [ESP8266.join_loop w joins state' ?m'] =>
          specialize (IH state' m') end.
        cbv zeta in IH. rewrite IH. now destruct (last_nonces (log _)).
Qed.

Lemma esp32_setup_nonces (m : ESP32.machine) :
  let r := ESP32.setup uplinkIntervalSeconds no_downlink w m in
  match last_nonces (log r) with
  | Some b => Preferences.isKey "nonces" (ESP32.store (final r)) = true /\
              Preferences.getBytes "nonces" (ESP32.store (final r)) = b
  | None => ESP32.store (final r) = ESP32.store m
  end.
Proof.
  cbv zeta. rewrite esp32_setup_cases. cbv zeta.
  set (m1 := ESP32.set_bootCount _ m).
  pose proof (proj1 (esp32_restore_quiet w m1)) as QR.
  pose proof (esp32_loop_nonces (w_joins w) (w_resume w) m1) as N. cbv zeta in N.
  destruct (w_radio_begin w =? RADIOLIB_ERR_NONE); cbn [log final]; skip_delay;
    [|now rewrite ?last_nonces_delay, (quiet_last_nonces _ QR)].
  destruct (ctl (ESP32.join_loop _ _ _ _)); unfold prepend; cbn [log final]; skip_delay.
  - rewrite ?last_nonces_delay.
    rewrite last_nonces_quiet_r by apply esp32_uplink_quiet.
    rewrite ?last_nonces_delay; rewrite last_nonces_quiet_l by exact QR.
    rewrite esp32_uplink_run, esp32_gotoSleep_run. cbn [prepend final]. exact N.
  - rewrite ?last_nonces_delay; rewrite last_nonces_quiet_l by exact QR. exact N.
Qed.

Lemma rp2040_setup_nonces (m : RP2040.machine) :
  let r := RP2040.setup uplinkIntervalSeconds no_downlink w m in
  match last_nonces (log r) with
  | Some b => Preferences.isKey "nonces" (RP2040.store (final r)) = true /\
              Preferences.getBytes "nonces" (RP2040.store (final r)) = b
  | None => RP2040.store (final r) = RP2040.store m
  end.
Proof.
  cbv zeta. rewrite rp2040_setup_cases. cbv zeta.
  rewrite rp2040_load_bootCount_run. cbn [final].
  set (m1 := if uint16_t (RP2040.scratch1 m) =? 0 then _ else _).
  assert (E : RP2040.store m1 = RP2040.store m)
    by (unfold m1; destruct (uint16_t (RP2040.scratch1 m) =? 0); reflexivity).
  pose proof (proj1 (rp2040_restore_quiet w m1)) as QR.
  pose proof (rp2040_loop_nonces (w_joins w) (w_resume w) m1) as N. cbv zeta in N.
  rewrite E in N.
  destruct (w_radio_begin w =? RADIOLIB_ERR_NONE); cbn [log final]; skip_delay;
    [|now rewrite ?last_nonces_delay, ?last_nonces_sleep_us, (quiet_last_nonces _ QR)].
  destruct (ctl (RP2040.join_loop _ _ _ _)); unfold prepend; cbn [log final]; skip_delay.
  - rewrite ?last_nonces_delay, ?last_nonces_sleep_us.
    rewrite last_nonces_quiet_r by apply rp2040_uplink_quiet.
    rewrite ?last_nonces_delay, ?last_nonces_sleep_us; rewrite last_nonces_quiet_l by exact QR.
    rewrite rp2040_uplink_run. cbn [final]. exact N.
  - rewrite ?last_nonces_delay, ?last_nonces_sleep_us; rewrite last_nonces_quiet_l by exact QR. exact N.
Qed.

Lemma esp8266_after_recall_nonces (m : ESP8266.machine) :
  let r := after_recall uplinkIntervalSeconds no_downlink w m in
  ESP8266.EEPROM (final r) =
  match last_nonces (log r) with Some b => b | None => ESP8266.EEPROM m end.
Proof.
  cbv zeta. rewrite esp8266_after_recall_cases. cbv zeta.
  pose proof (proj1 (esp8266_restore_quiet w m)) as QR.
  pose proof (esp8266_loop_nonces (w_joins w) (w_resume w) (recalled_session w m)) as N.
  cbv zeta in N.
  assert (E : ESP8266.EEPROM (recalled_session w m) = ESP8266.EEPROM m)
    by (unfold recalled_session; destruct (w_rtc_read_ok w 8); reflexivity).
  rewrite E in N.
  destruct (w_radio_begin w =? RADIOLIB_ERR_NONE); cbn [log final];
    [|now rewrite ?last_nonces_delay, (quiet_last_nonces _ QR)].
  destruct (ctl (ESP8266.join_loop _ _ _ _)); unfold prepend; cbn [log final].
  - rewrite ?last_nonces_delay.
    rewrite last_nonces_quiet_r by apply esp8266_uplink_quiet.
    rewrite ?last_nonces_delay; rewrite last_nonces_quiet_l by exact QR. rewrite <- N.
    rewrite esp8266_uplink_run, esp8266_gotoSleep_run. cbn [prepend final].
    unfold saved_counts.
    destruct (w_rtc_write_ok w 0), (w_rtc_write_ok w 4), (w_rtc_write_ok w 8);
      reflexivity.
  - rewrite ?last_nonces_delay; rewrite last_nonces_quiet_l by exact QR. exact N.
Qed.

Lemma esp8266_recall_quiet (m : ESP8266.machine) :
  quiet (log (ESP8266.recall_boot_counts w m)) = true.
Proof.
  rewrite esp8266_recall_boot_counts_run. cbn [log]. unfold notice.
  destruct (w_rtc_read_ok w 0), (w_rtc_read_ok w 4); reflexivity.
Qed.

Lemma esp8266_A_setup_nonces (m : ESP8266.machine) :
  let r := ESP8266.A.setup uplinkIntervalSeconds no_downlink w m in
  ESP8266.EEPROM (final r) =
  match last_nonces (log r) with Some b => b | None => ESP8266.EEPROM m end.
Proof.
  cbv zeta. rewrite esp8266_A_setup_run. unfold prepend. cbn [log final]. skip_delay.
  rewrite last_nonces_delay.
  rewrite last_nonces_quiet_l by apply esp8266_recall_quiet.
  rewrite esp8266_after_recall_nonces. cbv zeta.
  destruct (last_nonces _); [reflexivity|].
  unfold recalled_counts. destruct (w_rtc_read_ok w 0), (w_rtc_read_ok w 4); reflexivity.
Qed.

Lemma esp8266_B_setup_nonces (m : ESP8266.machine) :
  let r := ESP8266.B.setup uplinkIntervalSeconds no_downlink SESSION_BUF_SIZE w m in
  ESP8266.EEPROM (final r) =
  match last_nonces (log r) with Some b => b | None => ESP8266.EEPROM m end.
Proof.
  cbv zeta. rewrite esp8266_B_setup_run. unfold prepend. cbn [log final]. skip_delay.
  rewrite last_nonces_delay.
  rewrite last_nonces_quiet_l.
  2:{ rewrite quiet_app, esp8266_recall_quiet.
      now rewrite (proj2 (proj2 (esp8266_B_wakeup_counts SESSION_BUF_SIZE w m))). }
  rewrite esp8266_after_recall_nonces. cbv zeta.
  destruct (last_nonces _); [reflexivity|].
  unfold recalled_counts, cleared.
  destruct (w_rtc_read_ok w 0), (w_rtc_read_ok w 4), (_ && _); reflexivity.
Qed.

(** The events of the restore steps come first in a boot. *)
Lemma esp32_setup_restores (m : ESP32.machine) :
  exists rest,
    log (ESP32.setup uplinkIntervalSeconds no_downlink w m) =
    delay 2000 ::
    log (ESP32.restore w (ESP32.set_bootCount (uint16_t (ESP32.bootCount m + 1)) m))
    ++ rest.
Proof.
  rewrite esp32_setup_cases. cbv zeta.
  destruct (w_radio_begin w =? RADIOLIB_ERR_NONE);
    [|exists []; cbn [log]; skip_delay; now rewrite app_nil_r].
  destruct (ctl (ESP32.join_loop _ _ _ _)); unfold prepend; cbn [log]; skip_delay;
    rewrite <- ?app_assoc; eexists; reflexivity.
Qed.

Lemma rp2040_setup_restores (m : RP2040.machine) :
  exists rest,
    log (RP2040.setup uplinkIntervalSeconds no_downlink w m) =
    delay 2000 :: sleep_us 64 ::
    log (RP2040.restore w (final (RP2040.load_bootCount m))) ++ rest.
Proof.
  rewrite rp2040_setup_cases. cbv zeta.
  destruct (w_radio_begin w =? RADIOLIB_ERR_NONE);
    [|exists []; cbn [log]; skip_delay; now rewrite app_nil_r].
  destruct (ctl (RP2040.join_loop _ _ _ _)); unfold prepend; cbn [log]; skip_delay;
    rewrite <- ?app_assoc; eexists; reflexivity.
Qed.

Lemma esp8266_after_recall_restores (m : ESP8266.machine) :
  exists rest,
    log (after_recall uplinkIntervalSeconds no_downlink w m) =
    log (ESP8266.restore w m) ++ rest.
Proof.
  rewrite esp8266_after_recall_cases. cbv zeta.
  destruct (w_radio_begin w =? RADIOLIB_ERR_NONE);
    [|exists []; cbn [log]; now rewrite app_nil_r].
  destruct (ctl (ESP8266.join_loop _ _ _ _)); unfold prepend; cbn [log];
    rewrite <- ?app_assoc; eexists; reflexivity.
Qed.

Lemma esp32_restore_nonces_event (m : ESP32.machine) :
  w_radio_begin w = RADIOLIB_ERR_NONE ->
  Preferences.isKey "nonces" (ESP32.store m) = true ->
  In (setBufferNonces (Preferences.getBytes "nonces" (ESP32.store m))
        (w_setBufferNonces w (Preferences.getBytes "nonces" (ESP32.store m))))
     (log (ESP32.restore w m)).
Proof.
  intros H K. unfold ESP32.restore. rewrite H.
  change (negb (RADIOLIB_ERR_NONE =? RADIOLIB_ERR_NONE)) with false.
  unfold_run. rewrite K. step_run; cbn; tauto.
Qed.

Lemma rp2040_restore_nonces_event (m : RP2040.machine) :
  w_radio_begin w = RADIOLIB_ERR_NONE ->
  Preferences.isKey "nonces" (RP2040.store m) = true ->
  In (setBufferNonces (Preferences.getBytes "nonces" (RP2040.store m))
        (w_setBufferNonces w (Preferences.getBytes "nonces" (RP2040.store m))))
     (log (RP2040.restore w m)).
Proof.
  intros H K. unfold RP2040.restore. rewrite H.
  change (negb (RADIOLIB_ERR_NONE =? RADIOLIB_ERR_NONE)) with false.
  unfold_run. rewrite K. step_run; cbn; tauto.
Qed.
End Durable_store.

(** X8: the nonces a boot wrote last are the ones the next boot hands to
    the radio, on every target.  The next boot may start from any
    machine that holds the same durable store (the flash store of the
    ESP32 and the RP2040, the EEPROM of the ESP8266), so the round trip
    survives a loss of power as well as a deep sleep. *)
Theorem nonces_round_trip
        (uplinkIntervalSeconds no_downlink : Z) (SESSION_BUF_SIZE : nat) (w w' : world)
        (m32 m32' : ESP32.machine) (mrp mrp' : RP2040.machine)
        (m82 m82a' m82b' : ESP8266.machine) :
  w_radio_begin w' = RADIOLIB_ERR_NONE ->
  (forall b,
      last_nonces (log (ESP32.setup uplinkIntervalSeconds no_downlink w m32)) = Some b ->
      ESP32.store m32' =
        ESP32.store (final (ESP32.setup uplinkIntervalSeconds no_downlink w m32)) ->
      In (setBufferNonces b (w_setBufferNonces w' b))
         (log (ESP32.setup uplinkIntervalSeconds no_downlink w' m32'))) /\
  (forall b,
      last_nonces (log (RP2040.setup uplinkIntervalSeconds no_downlink w mrp)) = Some b ->
      RP2040.store mrp' =
        RP2040.store (final (RP2040.setup uplinkIntervalSeconds no_downlink w mrp)) ->
      In (setBufferNonces b (w_setBufferNonces w' b))
         (log (RP2040.setup uplinkIntervalSeconds no_downlink w' mrp'))) /\
  (forall b,
      last_nonces
        (log (ESP8266.A.boot uplinkIntervalSeconds no_downlink SESSION_BUF_SIZE w m82)) =
        Some b ->
      ESP8266.EEPROM m82a' =
        ESP8266.EEPROM
          (final (ESP8266.A.boot uplinkIntervalSeconds no_downlink SESSION_BUF_SIZE w m82)) ->
      In (setBufferNonces b (w_setBufferNonces w' b))
         (log (ESP8266.A.boot uplinkIntervalSeconds no_downlink SESSION_BUF_SIZE w' m82a'))) /\
  (forall b,
      last_nonces
        (log (ESP8266.B.boot uplinkIntervalSeconds no_downlink SESSION_BUF_SIZE w m82)) =
        Some b ->
      ESP8266.EEPROM m82b' =
        ESP8266.EEPROM
          (final (ESP8266.B.boot uplinkIntervalSeconds no_downlink SESSION_BUF_SIZE w m82)) ->
      In (setBufferNonces b (w_setBufferNonces w' b))
         (log (ESP8266.B.boot uplinkIntervalSeconds no_downlink SESSION_BUF_SIZE w' m82b'))).
Proof.
  intros Hradio. split; [|split; [|split]]; intros b Hb Hstore.
  - pose proof (esp32_setup_nonces uplinkIntervalSeconds no_downlink w m32) as N.
    cbv zeta in N. rewrite Hb, <- Hstore in N. destruct N as [K G].
    destruct (esp32_setup_restores uplinkIntervalSeconds no_downlink w' m32')
      as [rest ->].
    right. apply in_or_app. left. rewrite <- G.
    apply (esp32_restore_nonces_event w'
             (ESP32.set_bootCount (uint16_t (ESP32.bootCount m32' + 1)) m32') Hradio K).
  - pose proof (rp2040_setup_nonces uplinkIntervalSeconds no_downlink w mrp) as N.
    cbv zeta in N. rewrite Hb, <- Hstore in N. destruct N as [K G].
    destruct (rp2040_setup_restores uplinkIntervalSeconds no_downlink w' mrp')
      as [rest ->].
    right. right. apply in_or_app. left. rewrite <- G.
    assert (E : RP2040.store (final (RP2040.load_bootCount mrp')) = RP2040.store mrp').
    { rewrite rp2040_load_bootCount_run. cbn [final].
      destruct (uint16_t (RP2040.scratch1 mrp') =? 0); reflexivity. }
    rewrite <- E in K |- *.
    apply (rp2040_restore_nonces_event w' _ Hradio K).
  - unfold ESP8266.A.boot in *.
    pose proof (esp8266_A_setup_nonces uplinkIntervalSeconds no_downlink w
                  (ESP8266.reset SESSION_BUF_SIZE m82)) as N.
    cbv zeta in N. rewrite Hb, <- Hstore in N.
    rewrite esp8266_A_setup_run. unfold prepend. cbn [log].
    apply in_or_app. right.
    match goal with |- context [after_recall _ _ _ ?m'] =>
      destruct (esp8266_after_recall_restores uplinkIntervalSeconds no_downlink w' m')
        as [rest ->];
      destruct (esp8266_restore_resume_event w' m' Hradio) as (_ & _ & E)
    end.
    apply in_or_app. left.
    replace b with (ESP8266.EEPROM m82a') by exact N.
    unfold recalled_counts in *.
    destruct (w_rtc_read_ok w' 0), (w_rtc_read_ok w' 4); exact E.
  - unfold ESP8266.B.boot in *.
    pose proof (esp8266_B_setup_nonces uplinkIntervalSeconds no_downlink SESSION_BUF_SIZE w
                  (ESP8266.reset SESSION_BUF_SIZE m82)) as N.
    cbv zeta in N. rewrite Hb, <- Hstore in N.
    rewrite esp8266_B_setup_run. unfold prepend. cbn [log].
    apply in_or_app. right.
    match goal with |- context [after_recall _ _ _ ?m'] =>
      destruct (esp8266_after_recall_restores uplinkIntervalSeconds no_downlink w' m')
        as [rest ->];
      destruct (esp8266_restore_resume_event w' m' Hradio) as (_ & _ & E)
    end.
    apply in_or_app. left.
    replace b with (ESP8266.EEPROM m82b') by exact N.
    unfold recalled_counts, cleared in *.
    destruct (w_rtc_read_ok w' 0), (w_rtc_read_ok w' 4), (_ && _); exact E.
Qed.

Lemma nonces_round_trip_witness :
  let w := joining_world in
  let r32 := ESP32.setup 300 (-1116) w (ESP32.power_on [] []) in
  let rrp := RP2040.setup 300 (-1116) w (RP2040.Machine 0 0 0 [] []) in
  let rA := ESP8266.A.boot 300 (-1116) 4 w (ESP8266.Machine 1 0 [] 0 0 [] []) in
  let rB := ESP8266.B.boot 300 (-1116) 4 w (ESP8266.Machine 1 0 [] 0 0 [] []) in
  w_radio_begin failing_world = RADIOLIB_ERR_NONE /\
  last_nonces (log r32) = Some [Byte.x01] /\
  In (setBufferNonces [Byte.x01] (-1))
     (log (ESP32.setup 300 (-1116) failing_world
             (ESP32.power_on [] (ESP32.store (final r32))))) /\
  In (setBufferNonces [Byte.x01] (-1))
     (log (RP2040.setup 300 (-1116) failing_world (final rrp))) /\
  In (setBufferNonces [Byte.x01] (-1))
     (log (ESP8266.A.boot 300 (-1116) 4 failing_world (final rA))) /\
  In (setBufferNonces [Byte.x01] (-1))
     (log (ESP8266.B.boot 300 (-1116) 4 failing_world (final rB))).
Proof.
  cbv zeta. split; [reflexivity|]. split; [reflexivity|].
  destruct (nonces_round_trip 300 (-1116) 4 joining_world failing_world
              (ESP32.power_on [] [])
              (ESP32.power_on []
                 (ESP32.store (final (ESP32.setup 300 (-1116) joining_world
                                        (ESP32.power_on [] [])))))
              (RP2040.Machine 0 0 0 [] [])
              (final (RP2040.setup 300 (-1116) joining_world (RP2040.Machine 0 0 0 [] [])))
              (ESP8266.Machine 1 0 [] 0 0 [] [])
              (final (ESP8266.A.boot 300 (-1116) 4 joining_world
                        (ESP8266.Machine 1 0 [] 0 0 [] [])))
              (final (ESP8266.B.boot 300 (-1116) 4 joining_world
                        (ESP8266.Machine 1 0 [] 0 0 [] [])))
              eq_refl) as (H32 & Hrp & HA & HB).
  split; [apply (H32 [Byte.x01]); reflexivity|].
  split; [apply (Hrp [Byte.x01]); reflexivity|].
  split; [apply (HA [Byte.x01]); reflexivity|].
  apply (HB [Byte.x01]); reflexivity.
Defined.

(** X9: the session saved by a boot that sent its uplink is the session
    the next boot hands to the radio, when the next boot starts from the
    memory the first one left.  On the ESP8266 this needs the RTC write
    at address 8 to succeed before the sleep and the RTC read at
    address 8 to succeed after it, and in the second sketch a reset
    reason of "Deep-Sleep Wake", without which the RTC copy is cleared
    first. *)
Theorem session_round_trip
        (uplinkIntervalSeconds no_downlink : Z) (SESSION_BUF_SIZE : nat) (w w' : world)
        (m32 : ESP32.machine) (mrp : RP2040.machine) (m82 : ESP8266.machine) :
  w_radio_begin w' = RADIOLIB_ERR_NONE ->
  let saved := setBufferSession (w_getBufferSession w)
                 (w_setBufferSession w' (w_getBufferSession w)) in
  (let r := ESP32.setup uplinkIntervalSeconds no_downlink w m32 in
   uplinks (log r) = 1%nat ->
   In saved (log (ESP32.setup uplinkIntervalSeconds no_downlink w' (final r)))) /\
  (let r := RP2040.setup uplinkIntervalSeconds no_downlink w mrp in
   uplinks (log r) = 1%nat ->
   In saved (log (RP2040.setup uplinkIntervalSeconds no_downlink w' (final r)))) /\
  (let r := ESP8266.A.boot uplinkIntervalSeconds no_downlink SESSION_BUF_SIZE w m82 in
   uplinks (log r) = 1%nat ->
   w_rtc_write_ok w 8 = true -> w_rtc_read_ok w' 8 = true ->
   In saved
      (log (ESP8266.A.boot uplinkIntervalSeconds no_downlink SESSION_BUF_SIZE w'
              (final r)))) /\
  (let r := ESP8266.B.boot uplinkIntervalSeconds no_downlink SESSION_BUF_SIZE w m82 in
   uplinks (log r) = 1%nat ->
   w_rtc_write_ok w 8 = true -> w_rtc_read_ok w' 8 = true ->
   w_getResetReason w' = "Deep-Sleep Wake" ->
   In saved
      (log (ESP8266.B.boot uplinkIntervalSeconds no_downlink SESSION_BUF_SIZE w'
              (final r)))).
Proof.
  intros Hradio. cbv zeta. split; [|split; [|split]].
  - intros U.
    pose proof (esp32_session_after_boot uplinkIntervalSeconds no_downlink w m32) as S.
    cbv zeta in S. rewrite U in S. cbn [Nat.eqb] in S.
    match goal with |- In _ (log (ESP32.setup _ _ _ ?m')) =>
      destruct (esp32_setup_restores uplinkIntervalSeconds no_downlink w' m')
        as [rest ->];
      destruct (esp32_restore_resume_event w'
                  (ESP32.set_bootCount (uint16_t (ESP32.bootCount m' + 1)) m') Hradio)
        as [_ E]
    end.
    right. apply in_or_app. left. cbn [ESP32.LWsession ESP32.set_bootCount] in E.
    now rewrite S in E.
  - intros U.
    pose proof (rp2040_session_after_boot uplinkIntervalSeconds no_downlink w mrp) as S.
    cbv zeta in S. rewrite U in S. cbn [Nat.eqb] in S.
    match goal with |- In _ (log (RP2040.setup _ _ _ ?m')) =>
      destruct (rp2040_setup_restores uplinkIntervalSeconds no_downlink w' m')
        as [rest ->];
      destruct (rp2040_restore_resume_event w' (final (RP2040.load_bootCount m')) Hradio)
        as [_ E];
      assert (L : RP2040.LWsession (final (RP2040.load_bootCount m')) =
                  RP2040.LWsession m')
        by (rewrite rp2040_load_bootCount_run; cbn [final];
            destruct (uint16_t (RP2040.scratch1 m') =? 0); reflexivity)
    end.
    right. right. apply in_or_app. left. now rewrite L, S in E.
  - unfold ESP8266.A.boot. intros U Hw Hr.
    pose proof (esp8266_A_session_after_boot uplinkIntervalSeconds no_downlink w
                  (ESP8266.reset SESSION_BUF_SIZE m82)) as S.
    cbv zeta in S. rewrite U, Hw in S. cbn [Nat.eqb negb orb] in S.
    rewrite esp8266_A_setup_run. unfold prepend. cbn [log].
    apply in_or_app. right.
    match goal with |- context [after_recall _ _ _ ?m'] =>
      destruct (esp8266_after_recall_restores uplinkIntervalSeconds no_downlink w' m')
        as [rest ->];
      destruct (esp8266_restore_resume_event w' m' Hradio) as (_ & E & _)
    end.
    apply in_or_app. left.
    match type of E with In (setBufferSession ?b _) _ =>
      assert (LS : b = w_getBufferSession w)
    end.
    { unfold recalled_session. rewrite Hr, <- S. unfold recalled_counts.
      destruct (w_rtc_read_ok w' 0), (w_rtc_read_ok w' 4); reflexivity. }
    rewrite LS in E. exact E.
  - unfold ESP8266.B.boot. intros U Hw Hr Hwake.
    pose proof (esp8266_B_session_after_boot uplinkIntervalSeconds no_downlink
                  SESSION_BUF_SIZE w (ESP8266.reset SESSION_BUF_SIZE m82)) as S.
    cbv zeta in S. rewrite U, Hw in S. cbn [Nat.eqb negb orb] in S.
    rewrite esp8266_B_setup_run. unfold prepend. cbn [log].
    apply in_or_app. right.
    match goal with |- context [after_recall _ _ _ ?m'] =>
      destruct (esp8266_after_recall_restores uplinkIntervalSeconds no_downlink w' m')
        as [rest ->];
      destruct (esp8266_restore_resume_event w' m' Hradio) as (_ & E & _)
    end.
    apply in_or_app. left.
    match type of E with In (setBufferSession ?b _) _ =>
      assert (LS : b = w_getBufferSession w)
    end.
    { unfold recalled_session. rewrite Hr, <- S. unfold recalled_counts, cleared.
      rewrite Hwake.
      change (negb ("Deep-Sleep Wake" =? "Deep-Sleep Wake")%string) with false.
      cbn [andb].
      destruct (w_rtc_read_ok w' 0), (w_rtc_read_ok w' 4); reflexivity. }
    rewrite LS in E. exact E.
Qed.

Lemma session_round_trip_witness :
  let w := joining_world in
  let r32 := ESP32.setup 300 (-1116) w (ESP32.power_on [] []) in
  let rrp := RP2040.setup 300 (-1116) w (RP2040.Machine 0 0 0 [] []) in
  let rA := ESP8266.A.boot 300 (-1116) 4 w (ESP8266.Machine 1 0 [] 0 0 [] []) in
  let rB := ESP8266.B.boot 300 (-1116) 4 w (ESP8266.Machine 1 0 [] 0 0 [] []) in
  w_radio_begin failing_world = RADIOLIB_ERR_NONE /\
  uplinks (log r32) = 1%nat /\
  In (setBufferSession [Byte.x02] (-1))
     (log (ESP32.setup 300 (-1116) failing_world (final r32))) /\
  In (setBufferSession [Byte.x02] (-1))
     (log (RP2040.setup 300 (-1116) failing_world (final rrp))) /\
  In (setBufferSession [Byte.x02] (-1))
     (log (ESP8266.A.boot 300 (-1116) 4 failing_world (final rA))) /\
  In (setBufferSession [Byte.x02] (-1))
     (log (ESP8266.B.boot 300 (-1116) 4 failing_world (final rB))).
Proof.
  cbv zeta. split; [reflexivity|]. split; [reflexivity|].
  pose proof (session_round_trip 300 (-1116) 4 joining_world failing_world
                (ESP32.power_on [] []) (RP2040.Machine 0 0 0 [] [])
                (ESP8266.Machine 1 0 [] 0 0 [] []) eq_refl) as H.
  cbv zeta in H. destruct H as (H32 & Hrp & HA & HB).
  split; [apply H32; reflexivity|].
  split; [apply Hrp; reflexivity|].
  split; [apply HA; reflexivity|].
  apply HB; reflexivity.
Defined.

(** ** The boot counter *)

Lemma slept_app (t1 t2 : trace) : slept (t1 ++ t2) = slept t1 || slept t2.
Proof.
  unfold slept. rewrite sleep_requests_app.
  destruct (sleep_requests t1), (sleep_requests t2); reflexivity.
Qed.

Section Boot_counter.
Variable uplinkIntervalSeconds no_downlink : Z.
Variable SESSION_BUF_SIZE : nat.
Variable w : world.

Lemma esp8266_loop_rtc0 (joins : list (Z * buffer)) :
  forall state m,
    let r := ESP8266.join_loop w joins state m in
    ESP8266.rtc0 (final r) =
    if slept (log r) && w_rtc_write_ok w 0 then ESP8266.bootCount m else ESP8266.rtc0 m.
Proof.
  induction joins as [|[state' persist] joins IH]; intros state m; cbv zeta.
  - cbn. destruct (state =? RADIOLIB_ERR_NONE); reflexivity.
  - destruct (Z.eq_dec state RADIOLIB_ERR_NONE) as [->|Hs].
    + rewrite esp8266_loop_done. reflexivity.
    + destruct (Z_lt_le_dec state' RADIOLIB_ERR_NONE) as [Hf|Hf].
      * rewrite esp8266_loop_failed by assumption.
        rewrite esp8266_join_failed_run, esp8266_gotoSleep_run. cbn [log final].
        unfold saved_counts, notice.
        destruct (w_rtc_write_ok w 0), (w_rtc_write_ok w 4), (w_sleep_returns w);
          reflexivity.
      * rewrite esp8266_loop_accepted by assumption. unfold prepend. cbn [log final].
        rewrite slept_app. change (slept [_; _; _]) with false. cbn [orb].
        match goal with |- context [ESP8266.join_loop w joins state' ?m'] =>
          specialize (IH state' m') end.
        exact IH.
Qed.

Lemma esp8266_after_recall_rtc0 (m : ESP8266.machine) :
  let r := after_recall uplinkIntervalSeconds no_downlink w m in
  ESP8266.rtc0 (final r) =
  if slept (log r) && w_rtc_write_ok w 0 then ESP8266.bootCount m else ESP8266.rtc0 m.
Proof.
  cbv zeta. rewrite esp8266_after_recall_cases. cbv zeta.
  assert (SR : slept (log (ESP8266.restore w m)) = false)
    by (unfold slept; now rewrite (proj2 (esp8266_restore_quiet w m))).
  pose proof (esp8266_loop_rtc0 (w_joins w) (w_resume w) (recalled_session w m)) as L.
  cbv zeta in L.
  destruct (esp8266_loop_session w
              (w_joins w) (w_resume w) (recalled_session w m)) as (_ & _ & B).
  assert (E : ESP8266.rtc0 (recalled_session w m) = ESP8266.rtc0 m /\
              ESP8266.bootCount (recalled_session w m) = ESP8266.bootCount m)
    by (unfold recalled_session; destruct (w_rtc_read_ok w 8); split; reflexivity).
  destruct E as [E0 Eb]. rewrite E0, Eb in L. rewrite Eb in B.
  destruct (w_radio_begin w =? RADIOLIB_ERR_NONE); cbn [log final];
    [|now rewrite SR].
  destruct (esp8266_loop_outcome w (w_joins w) (w_resume w) (recalled_session w m))
    as [_ C].
  cbv zeta in C.
  destruct C as [(C1 & C2 & _)|[(C1 & C2)|(C1 & us & C2)]]; rewrite C1;
    unfold prepend; cbn [log final].
  - assert (SL : slept (log (ESP8266.join_loop w (w_joins w) (w_resume w)
                              (recalled_session w m))) = false)
      by (unfold slept; now rewrite C2).
    rewrite SL in L. cbn [andb] in L.
    rewrite !slept_app, SR, SL.
    rewrite esp8266_uplink_run, esp8266_gotoSleep_run. unfold prepend. cbn [log final].
    rewrite slept_app.
    match goal with |- context [slept (rtcUserMemoryWrite 0 ?a :: ?t)] =>
      assert (SG : slept (rtcUserMemoryWrite 0 a :: t) = true)
    end.
    { unfold slept, notice.
      destruct (w_rtc_write_ok w 0), (w_rtc_write_ok w 4), (w_sleep_returns w);
        reflexivity. }
    rewrite SG, orb_true_r. cbn [orb andb].
    unfold saved_counts.
    destruct (w_rtc_write_ok w 0), (w_rtc_write_ok w 4), (w_rtc_write_ok w 8);
      cbn [ESP8266.rtc0 ESP8266.bootCount ESP8266.set_rtc0 ESP8266.set_rtc4
           ESP8266.set_rtc8 ESP8266.set_LWsession];
      first [exact B | exact L].
  - rewrite slept_app, SR. exact L.
  - rewrite slept_app, SR. exact L.
Qed.
End Boot_counter.

(** X10: the boot counter.  On the ESP32 it goes up by one, modulo
    2^16, in every boot, whatever the boot does, so after any sequence
    of boots it has gone up by their number.  On the ESP8266 the
    counter that survives is the RTC copy at address 0: a boot replaces
    it, with the value it read (1 when the read failed) plus one, only
    when it programs a sleep and the write succeeds; the second sketch
    reads the memory left by its clearing. *)
Theorem boot_counter_counts_boots
        (uplinkIntervalSeconds no_downlink : Z) (SESSION_BUF_SIZE : nat)
        (ws : list world) (w : world)
        (m32 : ESP32.machine) (m82 : ESP8266.machine) :
  0 <= ESP32.bootCount m32 < 2 ^ 16 ->
  ESP32.bootCount
    (after_boots (ESP32.setup uplinkIntervalSeconds no_downlink) ws m32) =
    uint16_t (ESP32.bootCount m32 + Z.of_nat (List.length ws)) /\
  (let r := ESP8266.A.boot uplinkIntervalSeconds no_downlink SESSION_BUF_SIZE w m82 in
   ESP8266.rtc0 (final r) =
   if slept (log r) && w_rtc_write_ok w 0
   then uint32_t ((if w_rtc_read_ok w 0 then ESP8266.rtc0 m82 else 1) + 1)
   else ESP8266.rtc0 m82) /\
  (let r := ESP8266.B.boot uplinkIntervalSeconds no_downlink SESSION_BUF_SIZE w m82 in
   let rtc0' := ESP8266.rtc0 (cleared SESSION_BUF_SIZE w m82) in
   ESP8266.rtc0 (final r) =
   if slept (log r) && w_rtc_write_ok w 0
   then uint32_t ((if w_rtc_read_ok w 0 then rtc0' else 1) + 1)
   else rtc0').
Proof.
  intros Hb. split; [|split]; cbv zeta.
  - revert m32 Hb. induction ws as [|w0 ws IH]; intros m32 Hb;
      cbn [after_boots List.length].
    + unfold uint16_t. rewrite Z.add_0_r. symmetry. now apply Z.mod_small.
    + rewrite IH.
      * rewrite esp32_setup_bootCount, Nat2Z.inj_succ.
        unfold uint16_t. rewrite Zplus_mod_idemp_l. f_equal. lia.
      * rewrite esp32_setup_bootCount. unfold uint16_t. apply Z.mod_pos_bound. lia.
  - unfold ESP8266.A.boot. rewrite esp8266_A_setup_run. unfold prepend. cbn [log final]. skip_delay.
    rewrite esp8266_after_recall_rtc0. cbv zeta.
    rewrite slept_app.
    assert (SR : slept (log (ESP8266.recall_boot_counts w
                               (ESP8266.reset SESSION_BUF_SIZE m82))) = false)
      by (unfold slept; now rewrite recall_no_sleep).
    rewrite SR. cbn [orb].
    destruct (_ && _); unfold recalled_counts;
      destruct (w_rtc_read_ok w 0), (w_rtc_read_ok w 4); reflexivity.
  - unfold ESP8266.B.boot. rewrite esp8266_B_setup_run. unfold prepend. cbn [log final]. skip_delay.
    rewrite esp8266_after_recall_rtc0. cbv zeta.
    rewrite !slept_app.
    assert (SR : slept (log (ESP8266.recall_boot_counts w
                               (cleared SESSION_BUF_SIZE w
                                  (ESP8266.reset SESSION_BUF_SIZE m82)))) = false)
      by (unfold slept; now rewrite recall_no_sleep).
    assert (SP : slept (log (ESP8266.B.print_wakeup_reason SESSION_BUF_SIZE w
                               (ESP8266.reset SESSION_BUF_SIZE m82))) = false).
    { rewrite esp8266_B_print_wakeup_reason_run. cbn [log]. skip_delay. unfold notice.
      destruct (negb _), (w_rtc_write_ok w 0); reflexivity. }
    rewrite SR, SP. cbn [orb].
    destruct (slept _ && _); unfold recalled_counts, cleared;
      destruct (w_rtc_read_ok w 0), (w_rtc_read_ok w 4), (negb _ && _); reflexivity.
Qed.

Lemma boot_counter_counts_boots_witness :
  0 <= ESP32.bootCount (ESP32.power_on [] []) < 2 ^ 16 /\
  ESP32.bootCount
    (after_boots (ESP32.setup 300 (-1116)) [failing_world; joining_world]
       (ESP32.power_on [] [])) = 3.
Proof.
  assert (H : 0 <= ESP32.bootCount (ESP32.power_on [] []) < 2 ^ 16) by (cbn; lia).
  split; [exact H|].
  exact (proj1 (boot_counter_counts_boots 300 (-1116) 4 [failing_world; joining_world]
                  failing_world (ESP32.power_on [] [])
                  (ESP8266.Machine 1 0 [] 0 0 [] []) H)).
Defined.

(** ** Reports on the RP2040 *)

Lemma reported_app (message : string) (t1 t2 : trace) :
  reported message (t1 ++ t2) = reported message t1 || reported message t2.
Proof. unfold reported. apply existsb_app. Qed.

Section RP2040_reports.
Variable uplinkIntervalSeconds no_downlink : Z.
Variable w : world.

Lemma rp2040_restore_unreported (m : RP2040.machine) :
  RP2040.bootCount m <= 2 ->
  reported "Restoring session buffer failed" (log (RP2040.restore w m)) = false /\
  reported "Restore session failed" (log (RP2040.restore w m)) = false.
Proof.
  intros H. apply Z.ltb_ge in H. unfold RP2040.restore.
  step_run;
    repeat match goal with
           | E : _ && (2 <? RP2040.bootCount m) = true |- _ =>
               rewrite H, andb_false_r in E; discriminate E
           end;
    split; reflexivity.
Qed.

Lemma rp2040_loop_unreported (message : string) (joins : list (Z * buffer)) :
  forall state m, reported message (log (RP2040.join_loop w joins state m)) = false.
Proof.
  induction joins as [|[state' persist] joins IH]; intros state m.
  - cbn. destruct (state =? RADIOLIB_ERR_NONE); reflexivity.
  - destruct (Z.eq_dec state RADIOLIB_ERR_NONE) as [->|Hs].
    + rewrite rp2040_loop_done. reflexivity.
    + destruct (Z_lt_le_dec state' RADIOLIB_ERR_NONE) as [Hf|Hf].
      * rewrite rp2040_loop_failed by assumption. cbv zeta.
        destruct (w_sleep_returns w); [|reflexivity].
        unfold prepend. cbn [log]. rewrite reported_app, IH. reflexivity.
      * rewrite rp2040_loop_accepted by assumption. unfold prepend. cbn [log].
        rewrite reported_app, IH. reflexivity.
Qed.

Lemma rp2040_setup_unreported (m : RP2040.machine) :
  loaded_bootCount m = 1 ->
  let r := RP2040.setup uplinkIntervalSeconds no_downlink w m in
  reported "Restoring session buffer failed" (log r) = false /\
  reported "Restore session failed" (log r) = false.
Proof.
  intros H. cbv zeta.
  rewrite (proj1 (rp2040_setup_run uplinkIntervalSeconds no_downlink w m)). cbv zeta.
  skip_delay.
  assert (B : RP2040.bootCount (final (RP2040.load_bootCount m)) <= 2).
  { rewrite rp2040_load_bootCount_run. cbn [final]. unfold loaded_bootCount in H.
    destruct (uint16_t (RP2040.scratch1 m) =? 0);
      cbn [RP2040.bootCount RP2040.set_bootCount
           RP2040.set_bootCountSinceUnsuccessfulJoin]; lia. }
  destruct (rp2040_restore_unreported _ B) as [R1 R2].
  rewrite !reported_app, R1, R2. cbn [orb].
  destruct (w_radio_begin w =? RADIOLIB_ERR_NONE); [|split; reflexivity].
  rewrite !reported_app, !rp2040_loop_unreported. cbn [orb].
  destruct (ctl _); [|split; reflexivity].
  rewrite rp2040_uplink_run. cbn [log]. skip_delay.
  destruct (negb (w_sendReceive w =? no_downlink) && _), (w_sleep_returns w);
    split; reflexivity.
Qed.
End RP2040_reports.

(** X11: on the RP2040 a failure to restore the session buffer or to
    resume the session is never reported.  From a hardware reset on,
    through any number of soft resets and whatever the radio answers,
    the boot counter the two reports are gated on is loaded as 1, never
    above 2. *)
Theorem rp2040_session_failures_never_reported
        (uplinkIntervalSeconds no_downlink : Z) (ws : list world) (m : RP2040.machine) :
  RP2040.scratch1 m = 0 ->
  Forall (fun r =>
            reported "Restoring session buffer failed" (log r) = false /\
            reported "Restore session failed" (log r) = false)
         (boots (RP2040.setup uplinkIntervalSeconds no_downlink) ws m).
Proof.
  intros H.
  assert (Inv : loaded_bootCount m = 1)
    by (unfold loaded_bootCount; now rewrite H).
  clear H. revert m Inv.
  induction ws as [|w ws IH]; intros m Inv; cbn [boots]; constructor.
  - now apply rp2040_setup_unreported.
  - apply IH.
    destruct (rp2040_setup_bootCount uplinkIntervalSeconds no_downlink w m) as [_ S].
    cbv zeta in S. unfold loaded_bootCount in *.
    destruct S as [S|S]; rewrite S; [exact Inv|].
    rewrite Inv. reflexivity.
Qed.

Lemma rp2040_session_failures_never_reported_witness :
  RP2040.scratch1 (RP2040.Machine 0 0 0 [] []) = 0 /\
  Forall (fun r =>
            reported "Restoring session buffer failed" (log r) = false /\
            reported "Restore session failed" (log r) = false)
         (boots (RP2040.setup 300 (-1116))
                [joining_world; failing_world; failing_world; failing_world]
                (RP2040.Machine 0 0 0 [] [])).
Proof.
  split; [reflexivity|].
  apply (rp2040_session_failures_never_reported 300 (-1116)
           [joining_world; failing_world; failing_world; failing_world]
           (RP2040.Machine 0 0 0 [] [])).
  reflexivity.
Defined.

(** ** The back-off over a run of failures *)

Lemma backoff_microseconds (s : Z) :
  0 <= s <= 71582787 ->
  microseconds (sleepForSeconds s) = Z.min ((s + 1) * 60) 180 * 1000000.
Proof.
  intros H. rewrite microseconds_exact, sleepForSeconds_exact by
      (try apply sleepForSeconds_exact; pose proof (sleepForSeconds_bounds s); lia).
  reflexivity.
Qed.

Section Failed_boots.
Variable uplinkIntervalSeconds no_downlink : Z.
Variable SESSION_BUF_SIZE : nat.

Lemma esp32_failed_boots (ws : list world) :
  Forall (fun w => first_join_fails w = true) ws ->
  forall (i : nat) (m : ESP32.machine) (r : run ESP32.machine unit),
    0 <= ESP32.bootCountSinceUnsuccessfulJoin m ->
    ESP32.bootCountSinceUnsuccessfulJoin m + Z.of_nat i < 2 ^ 16 ->
    nth_error (boots (ESP32.setup uplinkIntervalSeconds no_downlink) ws m) i = Some r ->
    sleep_requests (log r) =
    [Z.min ((ESP32.bootCountSinceUnsuccessfulJoin m + Z.of_nat i + 1) * 60) 180 * 1000000].
Proof.
  induction 1 as [|w ws Hw _ IH]; intros i m r H0 Hi Hr.
  - destruct i; discriminate Hr.
  - destruct (esp32_failed_boot uplinkIntervalSeconds no_downlink w m Hw) as (S & T & _).
    cbv zeta in S, T. destruct i as [|i]; cbn [boots nth_error] in Hr.
    + injection Hr as <-. rewrite S, backoff_microseconds by lia.
      now rewrite Z.add_0_r.
    + rewrite Nat2Z.inj_succ in *.
      assert (E : uint16_t (ESP32.bootCountSinceUnsuccessfulJoin m + 1) =
                  ESP32.bootCountSinceUnsuccessfulJoin m + 1)
        by (apply Z.mod_small; lia).
      rewrite (IH i _ r) by (rewrite ?T, ?E; lia || exact Hr).
      rewrite T, E. do 3 f_equal. lia.
Qed.

Lemma esp8266_A_failed_boots (ws : list world) :
  Forall (fun w => first_join_fails w = true) ws ->
  Forall (fun w => counters_kept w = true) ws ->
  forall (i : nat) (m : ESP8266.machine) (r : run ESP8266.machine unit),
    0 <= ESP8266.rtc4 m ->
    ESP8266.rtc4 m + Z.of_nat i <= 71582787 ->
    nth_error (boots (ESP8266.A.boot uplinkIntervalSeconds no_downlink SESSION_BUF_SIZE)
                 ws m) i = Some r ->
    sleep_requests (log r) =
    [Z.min ((ESP8266.rtc4 m + Z.of_nat i + 1) * 60) 180 * 1000000].
Proof.
  induction 1 as [|w ws Hw _ IH]; intros K i m r H0 Hi Hr.
  - destruct i; discriminate Hr.
  - inversion K as [|? ? Kw Kws]; subst.
    unfold counters_kept in Kw. apply andb_prop in Kw. destruct Kw as [Rd Wr].
    destruct (esp8266_A_failed_boot uplinkIntervalSeconds no_downlink SESSION_BUF_SIZE
                w m Hw Rd Wr) as (S & T & _).
    cbv zeta in S, T. destruct i as [|i]; cbn [boots nth_error] in Hr.
    + injection Hr as <-. rewrite S, backoff_microseconds by lia.
      now rewrite Z.add_0_r.
    + rewrite Nat2Z.inj_succ in *.
      assert (E : uint32_t (ESP8266.rtc4 m + 1) = ESP8266.rtc4 m + 1)
        by (apply Z.mod_small; lia).
      rewrite (IH Kws i _ r) by (rewrite ?T, ?E; lia || exact Hr).
      rewrite T, E. do 3 f_equal. lia.
Qed.

Lemma esp8266_B_failed_boots (ws : list world) :
  Forall (fun w => first_join_fails w = true) ws ->
  Forall (fun w => counters_kept w = true) ws ->
  Forall (fun w => w_getResetReason w = "Deep-Sleep Wake") ws ->
  forall (i : nat) (m : ESP8266.machine) (r : run ESP8266.machine unit),
    0 <= ESP8266.rtc4 m ->
    ESP8266.rtc4 m + Z.of_nat i <= 71582787 ->
    nth_error (boots (ESP8266.B.boot uplinkIntervalSeconds no_downlink SESSION_BUF_SIZE)
                 ws m) i = Some r ->
    sleep_requests (log r) =
    [Z.min ((ESP8266.rtc4 m + Z.of_nat i + 1) * 60) 180 * 1000000].
Proof.
  induction 1 as [|w ws Hw _ IH]; intros K D i m r H0 Hi Hr.
  - destruct i; discriminate Hr.
  - inversion K as [|? ? Kw Kws]; subst. inversion D as [|? ? Dw Dws]; subst.
    unfold counters_kept in Kw. apply andb_prop in Kw. destruct Kw as [Rd Wr].
    destruct (esp8266_B_failed_boot uplinkIntervalSeconds no_downlink SESSION_BUF_SIZE
                w m Hw Rd Wr) as (S & T & _).
    cbv zeta in S, T. rewrite cleared_streak, Dw in S, T.
    change (negb ("Deep-Sleep Wake" =? "Deep-Sleep Wake")%string) with false in S, T.
    cbn [andb] in S, T.
    destruct i as [|i]; cbn [boots nth_error] in Hr.
    + injection Hr as <-. rewrite S, backoff_microseconds by lia.
      now rewrite Z.add_0_r.
    + rewrite Nat2Z.inj_succ in *.
      assert (E : uint32_t (ESP8266.rtc4 m + 1) = ESP8266.rtc4 m + 1)
        by (apply Z.mod_small; lia).
      rewrite (IH Kws Dws i _ r) by (rewrite ?T, ?E; lia || exact Hr).
      rewrite T, E. do 3 f_equal. lia.
Qed.

Lemma rp2040_failed_joins (w : world) (joins : list (Z * buffer)) :
  w_sleep_returns w = true ->
  Forall (fun j => fst j < RADIOLIB_ERR_NONE) joins ->
  forall (state : Z) (m : RP2040.machine),
    state <> RADIOLIB_ERR_NONE ->
    0 <= RP2040.bootCountSinceUnsuccessfulJoin m ->
    RP2040.bootCountSinceUnsuccessfulJoin m + Z.of_nat (List.length joins) <= 2 ^ 16 ->
    sleep_requests (log (RP2040.join_loop w joins state m)) =
    map (fun k =>
           Z.min ((RP2040.bootCountSinceUnsuccessfulJoin m + Z.of_nat k + 1) * 60) 180
           * 1000000)
        (seq 0 (List.length joins)).
Proof.
  intros Hs. induction 1 as [|[state' persist] joins Hf _ IH]; intros state m Hn H0 Hl.
  - apply Z.eqb_neq in Hn. cbn. now rewrite Hn.
  - cbn [fst] in Hf. cbn [List.length] in Hl. rewrite Nat2Z.inj_succ in Hl.
    rewrite rp2040_loop_failed by assumption. cbv zeta. rewrite Hs.
    unfold prepend. cbn [log app sleep_requests sleep_request List.length seq map].
    rewrite sleepForSeconds_exact by lia. rewrite Z.add_0_r. f_equal.
    destruct joins as [|j joins].
    { assert (Hn' : (state' =? RADIOLIB_ERR_NONE) = false)
        by (apply Z.eqb_neq; unfold RADIOLIB_ERR_NONE in *; lia).
      cbn. now rewrite Hn'. }
    cbn [List.length] in Hl. rewrite Nat2Z.inj_succ in Hl.
    assert (E : uint16_t (RP2040.bootCountSinceUnsuccessfulJoin m + 1) =
                RP2040.bootCountSinceUnsuccessfulJoin m + 1)
      by (apply Z.mod_small; lia).
    rewrite IH; cbn [RP2040.bootCountSinceUnsuccessfulJoin RP2040.set_scratch1
                     RP2040.set_bootCountSinceUnsuccessfulJoin];
      rewrite ?E; cbn [List.length]; rewrite ?Nat2Z.inj_succ;
      try (unfold RADIOLIB_ERR_NONE in *; lia).
    rewrite <- seq_shift, map_map. apply map_ext. intros k.
    rewrite Nat2Z.inj_succ. do 2 f_equal. lia.
Qed.
End Failed_boots.

(** X12: the back-off over a run of failures.  When every boot of a
    sequence ends in a failed first join, the boot number [i] of the
    sequence, counted from 0, sleeps for [min((s + i + 1) * 60, 180)]
    seconds, [s] being the streak the sequence started with: 60, 120
    and then 180 seconds from a zero streak.  This holds on the ESP32
    while the streak fits its 16 bits, and on the ESP8266 up to the
    streak 71582787, provided the RTC slot of the streak can be read
    and written and, in the second sketch, every boot is a wake from
    deep sleep.  On the RP2040, where the sleep call returns, the same
    sequence of sleeps happens within one pass through the join loop. *)
Theorem backoff_over_failed_boots
        (uplinkIntervalSeconds no_downlink : Z) (SESSION_BUF_SIZE : nat)
        (ws : list world) (i : nat)
        (m32 : ESP32.machine) (m82 : ESP8266.machine)
        (w : world) (joins : list (Z * buffer)) (state : Z) (mrp : RP2040.machine) :
  Forall (fun w => first_join_fails w = true) ws ->
  (forall r,
      0 <= ESP32.bootCountSinceUnsuccessfulJoin m32 ->
      ESP32.bootCountSinceUnsuccessfulJoin m32 + Z.of_nat i < 2 ^ 16 ->
      nth_error (boots (ESP32.setup uplinkIntervalSeconds no_downlink) ws m32) i = Some r ->
      sleep_requests (log r) =
      [Z.min ((ESP32.bootCountSinceUnsuccessfulJoin m32 + Z.of_nat i + 1) * 60) 180
       * 1000000]) /\
  (forall r,
      Forall (fun w => counters_kept w = true) ws ->
      0 <= ESP8266.rtc4 m82 -> ESP8266.rtc4 m82 + Z.of_nat i <= 71582787 ->
      nth_error
        (boots (ESP8266.A.boot uplinkIntervalSeconds no_downlink SESSION_BUF_SIZE) ws m82)
        i = Some r ->
      sleep_requests (log r) =
      [Z.min ((ESP8266.rtc4 m82 + Z.of_nat i + 1) * 60) 180 * 1000000]) /\
  (forall r,
      Forall (fun w => counters_kept w = true) ws ->
      Forall (fun w => w_getResetReason w = "Deep-Sleep Wake") ws ->
      0 <= ESP8266.rtc4 m82 -> ESP8266.rtc4 m82 + Z.of_nat i <= 71582787 ->
      nth_error
        (boots (ESP8266.B.boot uplinkIntervalSeconds no_downlink SESSION_BUF_SIZE) ws m82)
        i = Some r ->
      sleep_requests (log r) =
      [Z.min ((ESP8266.rtc4 m82 + Z.of_nat i + 1) * 60) 180 * 1000000]) /\
  (w_sleep_returns w = true ->
   Forall (fun j => fst j < RADIOLIB_ERR_NONE) joins ->
   state <> RADIOLIB_ERR_NONE ->
   0 <= RP2040.bootCountSinceUnsuccessfulJoin mrp ->
   RP2040.bootCountSinceUnsuccessfulJoin mrp + Z.of_nat (List.length joins) <= 2 ^ 16 ->
   sleep_requests (log (RP2040.join_loop w joins state mrp)) =
   map (fun k =>
          Z.min ((RP2040.bootCountSinceUnsuccessfulJoin mrp + Z.of_nat k + 1) * 60) 180
          * 1000000)
       (seq 0 (List.length joins))).
Proof.
  intros H. split; [|split; [|split]].
  - intros r. now apply esp32_failed_boots.
  - intros r K. now apply esp8266_A_failed_boots.
  - intros r K D. now apply esp8266_B_failed_boots.
  - intros Hs Hf. now apply rp2040_failed_joins.
Qed.

Lemma backoff_over_failed_boots_witness :
  let ws := [failing_world; failing_world; failing_world; failing_world] in
  Forall (fun w => first_join_fails w = true) ws /\
  map (fun r => sleep_requests (log r))
      (boots (ESP32.setup 300 (-1116)) ws (ESP32.power_on [] [])) =
    [[60000000]; [120000000]; [180000000]; [180000000]] /\
  sleep_requests
    (log (ESP32.setup 300 (-1116) failing_world
            (after_boots (ESP32.setup 300 (-1116))
               [failing_world; failing_world; failing_world] (ESP32.power_on [] [])))) =
    [180000000] /\
  sleep_requests
    (log (ESP8266.A.boot 300 (-1116) 4 failing_world
            (after_boots (ESP8266.A.boot 300 (-1116) 4)
               [failing_world; failing_world; failing_world]
               (ESP8266.Machine 1 0 [] 0 0 [] [])))) =
    [180000000] /\
  sleep_requests
    (log (ESP8266.B.boot 300 (-1116) 4 failing_world
            (after_boots (ESP8266.B.boot 300 (-1116) 4)
               [failing_world; failing_world; failing_world]
               (ESP8266.Machine 1 0 [] 0 0 [] [])))) =
    [180000000] /\
  sleep_requests
    (log (RP2040.join_loop failing_world_awake [(-1, []); (-2, []); (-3, [])] (-1)
            (RP2040.Machine 1 1 0 [] []))) =
    [60000000; 120000000; 180000000].
Proof.
  cbv zeta.
  assert (H : Forall (fun w => first_join_fails w = true)
                     [failing_world; failing_world; failing_world; failing_world])
    by (repeat constructor).
  split; [exact H|]. split; [reflexivity|].
  destruct (backoff_over_failed_boots 300 (-1116) 4
              [failing_world; failing_world; failing_world; failing_world] 3
              (ESP32.power_on [] []) (ESP8266.Machine 1 0 [] 0 0 [] [])
              failing_world_awake [(-1, []); (-2, []); (-3, [])] (-1)
              (RP2040.Machine 1 1 0 [] []) H) as (H32 & HA & HB & Hrp).
  split; [|split; [|split]].
  - apply H32; [cbn; lia | cbn; lia | reflexivity].
  - apply HA; [repeat constructor | cbn; lia | cbn; lia | vm_compute; reflexivity].
  - apply HB; [repeat constructor | repeat constructor | cbn; lia | cbn; lia
              | vm_compute; reflexivity].
  - apply Hrp; try reflexivity; try (cbn; lia).
    + repeat constructor; cbn; unfold RADIOLIB_ERR_NONE; lia.
    + unfold RADIOLIB_ERR_NONE; lia.
Defined.

(** ** The ESP8266 after a cold start or an RTC failure *)

Section ESP8266_cold.
Variable uplinkIntervalSeconds no_downlink : Z.
Variable SESSION_BUF_SIZE : nat.
Variable w : world.

Lemma esp8266_failed_after_recall_sleep (m : ESP8266.machine) :
  first_join_fails w = true ->
  sleep_requests (log (after_recall uplinkIntervalSeconds no_downlink w m)) =
  [microseconds (sleepForSeconds (ESP8266.bootCountSinceUnsuccessfulJoin m))].
Proof.
  intros H. apply first_join_fails_inv in H.
  destruct H as (Hr & Hn & Hs & state & persist & joins & Hj & Hf).
  unfold after_recall.
  rewrite bind_run, esp8266_restore_ctl, esp8266_restore_final, Hr.
  change (RADIOLIB_ERR_NONE =? RADIOLIB_ERR_NONE) with true. cbv iota.
  rewrite bind_run, Hj, esp8266_loop_failed by assumption.
  rewrite esp8266_join_failed_run, esp8266_gotoSleep_run, Hs.
  cbn [ctl final log prepend].
  rewrite sleep_requests_app, (proj2 (esp8266_restore_quiet w m)).
  unfold recalled_session, notice.
  destruct (w_rtc_read_ok w 8), (w_rtc_write_ok w 0), (w_rtc_write_ok w 4); reflexivity.
Qed.

Lemma esp8266_cleared_cold (m : ESP8266.machine) :
  w_getResetReason w <> "Deep-Sleep Wake" -> w_rtc_write_ok w 0 = true ->
  cleared SESSION_BUF_SIZE w (ESP8266.reset SESSION_BUF_SIZE m) =
  ESP8266.Machine 1 0 (ESP8266.zeros SESSION_BUF_SIZE) 0 0
                  (ESP8266.zeros SESSION_BUF_SIZE) (ESP8266.EEPROM m).
Proof.
  intros Hc Hw. apply String.eqb_neq in Hc. unfold cleared. now rewrite Hc, Hw.
Qed.

Lemma esp8266_B_boot_run (m : ESP8266.machine) :
  let m0 := cleared SESSION_BUF_SIZE w (ESP8266.reset SESSION_BUF_SIZE m) in
  ESP8266.B.boot uplinkIntervalSeconds no_downlink SESSION_BUF_SIZE w m =
  prepend (delay 2000 ::
           (if negb (String.eqb (w_getResetReason w) "Deep-Sleep Wake")
            then rtcUserMemoryWrite 0 (w_rtc_write_ok w 0) ::
                 notice (w_rtc_write_ok w 0) "RTC write failed!"
            else []) ++
           log (ESP8266.recall_boot_counts w m0))
    (after_recall uplinkIntervalSeconds no_downlink w
       (ESP8266.set_bootCount
          (uint32_t (ESP8266.bootCount (recalled_counts w m0) + 1))
          (recalled_counts w m0))).
Proof.
  cbv zeta. unfold ESP8266.B.boot.
  now rewrite esp8266_B_setup_run, esp8266_B_print_wakeup_reason_run.
Qed.
End ESP8266_cold.

(** X13: a cold start of the second ESP8266 sketch.  When the reset
    reason is not "Deep-Sleep Wake" and the clearing write succeeds,
    the boot does not depend on what RTC memory or the globals held:
    two machines with the same EEPROM run the same boot.  The session
    handed to the radio is all zeros, and a failed first join sleeps
    for 60 seconds, whatever streak RTC memory held. *)
Theorem esp8266_B_cold_start_forgets_rtc
        (uplinkIntervalSeconds no_downlink : Z) (SESSION_BUF_SIZE : nat) (w : world)
        (m m' : ESP8266.machine) :
  w_getResetReason w <> "Deep-Sleep Wake" -> w_rtc_write_ok w 0 = true ->
  ESP8266.EEPROM m = ESP8266.EEPROM m' ->
  let r := ESP8266.B.boot uplinkIntervalSeconds no_downlink SESSION_BUF_SIZE w m in
  r = ESP8266.B.boot uplinkIntervalSeconds no_downlink SESSION_BUF_SIZE w m' /\
  (w_radio_begin w = RADIOLIB_ERR_NONE ->
   In (setBufferSession (ESP8266.zeros SESSION_BUF_SIZE)
         (w_setBufferSession w (ESP8266.zeros SESSION_BUF_SIZE))) (log r)) /\
  (first_join_fails w = true -> sleep_requests (log r) = [60000000]).
Proof.
  intros Hc Hw He. cbv zeta. rewrite !esp8266_B_boot_run. cbv zeta.
  rewrite !esp8266_cleared_cold by assumption. rewrite <- He.
  split; [reflexivity|]. unfold prepend. cbn [log]. split.
  - intros Hradio. apply in_or_app. right.
    match goal with |- context [after_recall _ _ _ ?m0] =>
      destruct (esp8266_after_recall_restores uplinkIntervalSeconds no_downlink w m0)
        as [rest ->];
      destruct (esp8266_restore_resume_event w m0 Hradio) as (_ & E & _)
    end.
    apply in_or_app. left.
    match type of E with In (setBufferSession ?b _) _ =>
      assert (LS : b = ESP8266.zeros SESSION_BUF_SIZE)
    end.
    { unfold recalled_session, recalled_counts.
      destruct (w_rtc_read_ok w 0), (w_rtc_read_ok w 4), (w_rtc_read_ok w 8);
        reflexivity. }
    rewrite LS in E. exact E.
  - intros Hf. skip_delay. rewrite !sleep_requests_app, recall_no_sleep.
    rewrite esp8266_failed_after_recall_sleep by exact Hf.
    unfold notice, recalled_counts. rewrite Hw.
    destruct (negb _), (w_rtc_read_ok w 0), (w_rtc_read_ok w 4); reflexivity.
Qed.

Lemma esp8266_B_cold_start_forgets_rtc_witness :
  let m := ESP8266.Machine 7 9 [Byte.x05] 41 17 [Byte.x06] [] in
  let m' := ESP8266.Machine 1 0 [] 0 0 [] [] in
  String.eqb (w_getResetReason cold_world) "Deep-Sleep Wake" = false /\
  w_rtc_write_ok cold_world 0 = true /\
  ESP8266.B.boot 300 (-1116) 4 cold_world m = ESP8266.B.boot 300 (-1116) 4 cold_world m' /\
  sleep_requests (log (ESP8266.B.boot 300 (-1116) 4 cold_world m)) = [60000000].
Proof.
  cbv zeta. split; [reflexivity|]. split; [reflexivity|].
  assert (Hc : w_getResetReason cold_world <> "Deep-Sleep Wake")
    by (intros H; discriminate H).
  destruct (esp8266_B_cold_start_forgets_rtc 300 (-1116) 4 cold_world
              (ESP8266.Machine 7 9 [Byte.x05] 41 17 [Byte.x06] [])
              (ESP8266.Machine 1 0 [] 0 0 [] []) Hc eq_refl eq_refl) as (E & _ & S).
  split; [exact E | apply S; reflexivity].
Defined.

(** X14: an RTC read failure on the ESP8266.  When the streak cannot be
    read from RTC memory at address 4 the boot prints "RTC read failed!"
    and goes on with the initialiser of the streak, 0: a failed first
    join then sleeps for 60 seconds whatever streak was stored, in both
    sketches. *)
Theorem rtc_read_failure_restarts_backoff
        (uplinkIntervalSeconds no_downlink : Z) (SESSION_BUF_SIZE : nat) (w : world)
        (m : ESP8266.machine) :
  w_rtc_read_ok w 4 = false -> first_join_fails w = true ->
  let rA := ESP8266.A.boot uplinkIntervalSeconds no_downlink SESSION_BUF_SIZE w m in
  let rB := ESP8266.B.boot uplinkIntervalSeconds no_downlink SESSION_BUF_SIZE w m in
  (In (Serial_println "RTC read failed!") (log rA) /\
   sleep_requests (log rA) = [60000000]) /\
  (In (Serial_println "RTC read failed!") (log rB) /\
   sleep_requests (log rB) = [60000000]).
Proof.
  intros Hr Hf. cbv zeta. split.
  - unfold ESP8266.A.boot. rewrite esp8266_A_setup_run. unfold prepend. cbn [log].
    split.
    + apply in_or_app. left. right.
      rewrite esp8266_recall_boot_counts_run. cbn [log]. unfold notice. rewrite Hr.
      destruct (w_rtc_read_ok w 0); cbn; tauto.
    + skip_delay. rewrite sleep_requests_app, recall_no_sleep.
      rewrite esp8266_failed_after_recall_sleep by exact Hf.
      unfold recalled_counts. rewrite Hr.
      destruct (w_rtc_read_ok w 0); reflexivity.
  - rewrite esp8266_B_boot_run. cbv zeta. unfold prepend. cbn [log]. split.
    + apply in_or_app. left. right. apply in_or_app. right.
      rewrite esp8266_recall_boot_counts_run. cbn [log]. unfold notice. rewrite Hr.
      destruct (w_rtc_read_ok w 0); cbn; tauto.
    + skip_delay. rewrite !sleep_requests_app, recall_no_sleep.
      rewrite esp8266_failed_after_recall_sleep by exact Hf.
      unfold recalled_counts, notice. rewrite Hr. unfold cleared.
      destruct (negb _), (w_rtc_write_ok w 0), (w_rtc_read_ok w 0); reflexivity.
Qed.

Lemma rtc_read_failure_restarts_backoff_witness :
  let m := ESP8266.Machine 1 0 [] 41 17 [] [] in
  w_rtc_read_ok unreadable_rtc_world 4 = false /\
  first_join_fails unreadable_rtc_world = true /\
  sleep_requests (log (ESP8266.A.boot 300 (-1116) 4 unreadable_rtc_world m)) = [60000000] /\
  sleep_requests (log (ESP8266.B.boot 300 (-1116) 4 unreadable_rtc_world m)) = [60000000].
Proof.
  cbv zeta. split; [reflexivity|]. split; [reflexivity|].
  destruct (rtc_read_failure_restarts_backoff 300 (-1116) 4 unreadable_rtc_world
              (ESP8266.Machine 1 0 [] 41 17 [] []) eq_refl eq_refl)
    as ((_ & SA) & (_ & SB)).
  split; [exact SA | exact SB].
Defined.
